(** * Session lifecycle of the WhatsApp bridge: api.js and its Render Free variant

    The repository ships the same HTTP surface twice:

    - [Baileys]: src/api.js, built on the Baileys socket;
    - [Render]: the first program of src/unnamed/part_000, built on
      whatsapp-web.js with a simulated fallback session.

    Both keep a process-wide object [sessions] used as a map from session id
    to a mutable session object.  The map is embedded as a [gmap string
    Session] holding the object's own properties; every request handler and
    every transport event handler is a function from the world before to the
    world after, the answers of the outside world (socket start-up, teardown,
    clock, random source, ...) being explicit arguments.  A handler runs as
    one transaction: the points where the source awaits an outside call are
    where those arguments are consumed.

    Two things the modules [Baileys] and [Render] leave aside are added by
    [BaileysObject] and [RenderObject]: what the lookup routes do for an id
    that names a member of [Object.prototype], which [sessions[id]] finds
    although it is no key, and a start request that other handlers overtake
    while it waits for the transport. *)

From Stdlib Require Import ZArith Ascii.
From stdpp Require Import gmap strings list fin_maps pretty.

(** ** JavaScript values used by both programs *)

(** [if (x)] on a value that is either null/undefined or a string. *)
Definition truthy (v : option string) : bool :=
  match v with
  | Some s => negb (String.eqb s "")
  | None => false
  end.

(** [a || b] on such values. *)
Definition js_or (a b : option string) : option string :=
  if truthy a then a else b.

(** The outcome of a call that may throw (or of an awaited promise that may
    reject) with an [Error] carrying [msg]. *)
Inductive Result (A : Type) : Type :=
| Returns (a : A)
| Throws (msg : string).
Arguments Returns {A} a.
Arguments Throws {A} msg.

(** What [res.json] serialises. *)
#[local] Set Warnings "-register-all".
Inductive json : Type :=
| JNull
| JBool (b : bool)
| JNum (z : Z)
| JStr (s : string)
| JArr (l : list json)
| JObj (fields : list (string * json)).

Definition json_opt_str (v : option string) : json :=
  match v with Some s => JStr s | None => JNull end.

(** [j[name]] on a serialised object. *)
Fixpoint assoc (name : string) (fields : list (string * json)) : option json :=
  match fields with
  | [] => None
  | (k, v) :: rest => if String.eqb k name then Some v else assoc name rest
  end.

Definition json_field (name : string) (j : json) : option json :=
  match j with
  | JObj fields => assoc name fields
  | _ => None
  end.

Record Response : Type := mkResponse { status : nat; body : json }.

(** [res.json(b)] and [res.status(c).json(b)]. *)
Definition res_json (b : json) : Response := mkResponse 200 b.
Definition res_status_json (c : nat) (b : json) : Response := mkResponse c b.

Definition error_body (msg : string) : json := JObj [("error", JStr msg)].

(** The 404 every lookup-based route answers for an unknown id. *)
Definition not_found : Response :=
  res_status_json 404 (error_body "Sessão não encontrada").

(** The 400 of the send routes for a session that is not authenticated. *)
Definition not_authenticated : Response :=
  res_status_json 400 (error_body "Sessão não autenticada").

(** The 400 of send-message for a missing number or message. *)
Definition missing_fields : Response :=
  res_status_json 400 (error_body "Número e mensagem são obrigatórios").

(** A response is an error result when it was sent with a 4xx or 5xx status,
    or when its body opens with an [error] field or with [success: false]. *)
Definition is_error_body (b : json) : bool :=
  match b with
  | JObj (("error", _) :: _) => true
  | JObj (("success", JBool false) :: _) => true
  | _ => false
  end.

Definition is_error (r : Response) : bool :=
  (400 <=? status r)%nat || is_error_body (body r).

(** [`session_${Date.now()}`] *)
Definition generated_id (now : Z) : string := "session_" +:+ pretty now.

(** [req.body.sessionId || `session_${Date.now()}`] *)
Definition resolve_id (requested : option string) (now : Z) : string :=
  match js_or requested (Some (generated_id now)) with
  | Some s => s
  | None => generated_id now
  end.

(** [number.replace(/\D/g, '')] *)
Definition is_digit (c : ascii) : bool :=
  let n := nat_of_ascii c in (48 <=? n)%nat && (n <=? 57)%nat.

Fixpoint strip_non_digits (s : string) : string :=
  match s with
  | EmptyString => EmptyString
  | String c r => if is_digit c then String c (strip_non_digits r)
                  else strip_non_digits r
  end.

(** ** The message buffer

    [messages.push(messageData)] followed by
    [if (messages.length > 100) messages = messages.slice(-100)]. *)
Section MessageRing.
Context {A : Type}.

(** [arr.slice(-k)]: the last [k] elements, the whole array when shorter. *)
Definition slice_last (k : nat) (arr : list A) : list A :=
  drop (length arr - k) arr.

Definition push (arr : list A) (x : A) : list A := arr ++ [x].

Definition append_message (arr : list A) (x : A) : list A :=
  let arr' := push arr x in
  if (100 <? length arr')%nat then slice_last 100 arr' else arr'.

(** The handlers first repair a missing array:
    [if (!session.messages) session.messages = []]. *)
Definition store_message (field : option (list A)) (x : A) : option (list A) :=
  Some (append_message (default [] field) x).

(** [session.messages?.length || 0] *)
Definition message_count (field : option (list A)) : nat :=
  match field with Some arr => length arr | None => 0 end.

Definition append_all (arr : list A) (xs : list A) : list A :=
  foldl append_message arr xs.

End MessageRing.

(** ** [Buffer.from(s).toString('base64')] *)

Definition b64_alphabet : string :=
  "ABCDEFGHIJKLMNOPQRSTUVWXYZabcdefghijklmnopqrstuvwxyz0123456789+/".

Definition b64_char (n : nat) : ascii :=
  default "="%char (String.get n b64_alphabet).

Fixpoint b64_encode (bytes : list nat) : string :=
  match bytes with
  | [] => ""
  | [a] =>
      String (b64_char (a / 4)) (String (b64_char (a mod 4 * 16)) "==")
  | [a; b] =>
      String (b64_char (a / 4))
        (String (b64_char (a mod 4 * 16 + b / 16))
           (String (b64_char (b mod 16 * 4)) "="))
  | a :: b :: c :: rest =>
      String (b64_char (a / 4))
        (String (b64_char (a mod 4 * 16 + b / 16))
           (String (b64_char (b mod 16 * 4 + c / 64))
              (String (b64_char (c mod 64)) (b64_encode rest))))
  end.

Definition base64 (s : string) : string :=
  b64_encode (nat_of_ascii <$> String.list_ascii_of_string s).

(** ** What a handler leaves behind *)

Inductive Output : Type :=
| Reply (r : Response)       (* the request was answered *)
| Deferred                   (* the answer is left to the polling interval *)
| Handled                    (* an event handler or timer returned normally *)
| Uncaught (err : string).   (* an exception escaped an event handler or timer *)

Definition type_error : string := "TypeError".

(** ** The QR polling interval

    The callback given to [setInterval(..., 1000)] by GET /sessions/:id/qr.
    It closes over [attempts] and over the session object read before the
    interval was armed; [qr] is that object's [qrCode] when the callback runs.
    The two programs differ only in the two replies.

    The payload branch and the timeout branch are two [if]s in a row, so a
    firing can enter both.  The second [res.json] is then called on a
    response that was already sent: Express sends nothing and throws
    ERR_HTTP_HEADERS_SENT, which leaves the callback. *)
Record Poll : Type := mkPoll { attempts : nat; cleared : bool }.

Definition poll_start : Poll := mkPoll 0 false.

Definition headers_sent : string := "ERR_HTTP_HEADERS_SENT".

(** The state after a firing, and the replies the firing sent. *)
Definition interval_tick (qr_reply : string → Response) (timeout_reply : Response)
    (qr : option string) (p : Poll) : Poll * list Response :=
  let found := if truthy qr then [qr_reply (default "" qr)] else [] in
  let attempts' := S (attempts p) in
  if (30 <? attempts')%nat
  then (mkPoll attempts' true, if truthy qr then found else [timeout_reply])
  else (mkPoll attempts' (cleared p || truthy qr), found).

(** How the firing ends. *)
Definition interval_outcome (qr : option string) (p : Poll) : Output :=
  if truthy qr && (30 <? S (attempts p))%nat then Uncaught headers_sent else Handled.

(** The replies produced when the interval fires once per element of
    [observed], until [clearInterval]. *)
Fixpoint run_interval (qr_reply : string → Response) (timeout_reply : Response)
    (observed : list (option string)) (p : Poll) : list Response :=
  match observed with
  | [] => []
  | qr :: later =>
      if cleared p then []
      else
        let '(p', out) := interval_tick qr_reply timeout_reply qr p in
        out ++ run_interval qr_reply timeout_reply later p'
  end.

(** How each of these firings ends. *)
Fixpoint run_interval_outcomes (qr_reply : string → Response) (timeout_reply : Response)
    (observed : list (option string)) (p : Poll) : list Output :=
  match observed with
  | [] => []
  | qr :: later =>
      if cleared p then []
      else
        interval_outcome qr p
        :: run_interval_outcomes qr_reply timeout_reply later
             (interval_tick qr_reply timeout_reply qr p).1
  end.

(** A request that reached the polling branch is answered by the first reply
    of its interval. *)
Definition answer (immediate : Output) (polled : list Response) : option Response :=
  match immediate with
  | Reply r => Some r
  | Deferred => head polled
  | _ => None
  end.

Definition never_truthy (observed : list (option string)) : Prop :=
  Forall (λ qr, truthy qr = false) observed.

(** ** Pieces of the routes that [step] does not cover *)

(** The 400 of send-media for a missing number, payload or mime type. *)
Definition missing_media : Response :=
  res_status_json 400 (error_body "Número, base64Data e mimeType são obrigatórios").

(** [s.split(sep)] for a one-character separator. *)
Fixpoint split_on (sep : ascii) (s : string) : list string :=
  match s with
  | EmptyString => [EmptyString]
  | String c r =>
      if Ascii.eqb c sep then EmptyString :: split_on sep r
      else match split_on sep r with
           | h :: t => String c h :: t
           | [] => [String c EmptyString]
           end
  end.

(** [base64Data.split(',')[1] || base64Data] *)
Definition image_payload (base64Data : string) : string :=
  default base64Data
    (js_or (split_on ","%char base64Data !! 1) (Some base64Data)).

(** * src/api.js: the Baileys program *)
Module Baileys.

(** [sock.user] *)
Record User : Type := mkUser { user_id : string; user_name : option string }.

Definition json_of_user (u : option User) : json :=
  match u with
  | Some u => JObj [("id", JStr (user_id u)); ("name", json_opt_str (user_name u))]
  | None => JNull
  end.

(** The media part of an inbound message. *)
Record MediaMessage : Type := mkMediaMessage {
  mimetype : option string;
  caption : option string;
  url : option string
}.

(** [msg.message] *)
Record MessageContent : Type := mkContent {
  first_key : option string;          (* Object.keys(msg.message)[0] *)
  conversation : option string;
  extendedText : option string;       (* extendedTextMessage?.text *)
  imageMessage : option MediaMessage;
  videoMessage : option MediaMessage;
  audioMessage : option MediaMessage
}.

(** An element of [m.messages]. *)
Record WAMessage : Type := mkWAMessage {
  key_id : string;
  key_remoteJid : string;
  pushName : option string;
  messageTimestamp : Z;
  message : option MessageContent
}.

Record Media : Type := mkMedia {
  media_type : string;
  media_mimetype : option string;
  media_caption : option string;
  media_url : option string
}.

Record MessageData : Type := mkMessageData {
  md_id : string;
  md_from : string;
  md_pushName : option string;
  md_timestamp : Z;
  md_body : string;
  md_type : option string;
  md_media : option Media
}.

Definition media_of (c : MessageContent) : option Media :=
  let pick (kind : string) (m : MediaMessage) :=
    mkMedia kind (mimetype m) (caption m) (url m) in
  match imageMessage c, videoMessage c, audioMessage c with
  | Some m, _, _ => Some (pick "image" m)
  | None, Some m, _ => Some (pick "video" m)
  | None, None, Some m => Some (pick "audio" m)
  | None, None, None => None
  end.

Definition messageData_of (msg : WAMessage) (c : MessageContent) : MessageData :=
  {| md_id := key_id msg;
     md_from := key_remoteJid msg;
     md_pushName := pushName msg;
     md_timestamp := messageTimestamp msg;
     md_body :=
       default "[Mídia ou outro tipo]"
         (js_or (conversation c)
            (js_or (extendedText c) (Some "[Mídia ou outro tipo]")));
     md_type := first_key c;
     md_media := media_of c |}.

Definition json_of_media (m : Media) : json :=
  JObj [("type", JStr (media_type m));
        ("mimetype", json_opt_str (media_mimetype m));
        ("caption", json_opt_str (media_caption m));
        ("url", json_opt_str (media_url m))].

Definition json_of_message (d : MessageData) : json :=
  JObj ([("id", JStr (md_id d));
         ("from", JStr (md_from d));
         ("pushName", json_opt_str (md_pushName d));
         ("timestamp", JNum (md_timestamp d));
         ("body", JStr (md_body d));
         ("type", json_opt_str (md_type d))]
        ++ match md_media d with
           | Some m => [("media", json_of_media m)]
           | None => []
           end).

(** The socket returned by [makeWASocket], named by the order of creation. *)
Definition Sock : Type := nat.

(** A value of [sessions]. [sock] is absent until POST /sessions/start has
    stored it. *)
Record Session : Type := mkSession {
  isAuthenticated : bool;
  qrCode : option string;
  messages : option (list MessageData);
  user : option User;
  sock : option Sock
}.

(** The object literal of POST /sessions/start. *)
Definition new_session : Session :=
  {| isAuthenticated := false; qrCode := None; messages := Some [];
     user := None; sock := None |}.

(** Calls made to the outside world, in order. *)
Inductive Effect : Type :=
| SocketOpened (sessionId : string) (s : Sock)   (* makeWASocket *)
| SocketEnd (s : Sock)                           (* sock.end() *)
| SendMessage (s : Sock) (jid text : string)     (* sock.sendMessage *)
| RemoveDir (sessionId : string).                (* fs.rmSync(sessionPath) *)

Record World : Type := mkWorld {
  sessions : gmap string Session;
  next_sock : nat;
  effects : list Effect
}.

Definition initial : World := mkWorld ∅ 0 [].

Definition with_sessions (f : gmap string Session → gmap string Session)
    (w : World) : World :=
  mkWorld (f (sessions w)) (next_sock w) (effects w).

Definition perform (e : Effect) (w : World) : World :=
  mkWorld (sessions w) (next_sock w) (effects w ++ [e]).

(** [sessions[sessionId].field = value; ...]: throws a TypeError when the
    id has no entry. *)
Definition assign (sessionId : string) (f : Session → Session) (w : World)
    : Result World :=
  match sessions w !! sessionId with
  | Some s => Returns (with_sessions (insert sessionId (f s)) w)
  | None => Throws type_error
  end.

(** [DisconnectReason.loggedOut] of the Baileys library. *)
Definition loggedOut : Z := 401.

Inductive Connection : Type := ConnOpen | ConnClose | ConnConnecting.

(** The argument of the 'connection.update' handler:
    [{ connection, lastDisconnect, qr }], the middle one through
    [lastDisconnect?.error?.output?.statusCode]. *)
Record ConnectionUpdate : Type := mkUpdate {
  connection : option Connection;
  statusCode : option Z;
  qr : option string
}.

(** [`data:image/png;base64,${Buffer.from(qr).toString('base64')}`] *)
Definition qrDataURL (qr : string) : string :=
  "data:image/png;base64," +:+ base64 qr.

(** The part of [startWhatsAppSession] before its handlers run: reading the
    credentials, fetching the version and creating the socket either all
    succeed, giving a new socket, or one of them throws. *)
Definition startWhatsAppSession (sessionId : string) (startup : Result unit)
    (w : World) : World * Result Sock :=
  match startup with
  | Returns _ =>
      let s := next_sock w in
      (mkWorld (sessions w) (S s) (effects w ++ [SocketOpened sessionId s]),
       Returns s)
  | Throws msg => (w, Throws msg)
  end.

(** What the outside world answers while a session is torn down. *)
Record Teardown : Type := mkTeardown {
  sock_end : Result unit;     (* await sock.end() *)
  dir_exists : bool;          (* fs.existsSync(sessionPath) *)
  rm_dir : Result unit        (* fs.rmSync(sessionPath, ...) *)
}.

Definition teardown_ok : Teardown := mkTeardown (Returns ()) true (Returns ()).

(** [if (fs.existsSync(sessionPath)) fs.rmSync(sessionPath, ...)] *)
Definition remove_dir (sessionId : string) (t : Teardown) (w : World)
    : World * Result unit :=
  if dir_exists t
  then (perform (RemoveDir sessionId) w, rm_dir t)
  else (w, Returns ()).

(** The 'connection.update' handler (lines 46-84). [sock_user] is
    [sock.user] when the handler runs. *)
Definition on_qr (sessionId : string) (u : ConnectionUpdate) (w : World)
    : Result World :=
  if truthy (qr u)
  then assign sessionId
         (λ s, {| isAuthenticated := false;
                  qrCode := Some (qrDataURL (default "" (qr u)));
                  messages := messages s; user := user s; sock := sock s |}) w
  else Returns w.

Definition on_open (sessionId : string) (u : ConnectionUpdate)
    (sock_user : option User) (w : World) : Result World :=
  match connection u with
  | Some ConnOpen =>
      assign sessionId
        (λ s, {| isAuthenticated := true; qrCode := None;
                 messages := messages s; user := sock_user; sock := sock s |}) w
  | _ => Returns w
  end.

Definition on_close (sessionId : string) (u : ConnectionUpdate)
    (restart : Result unit) (t : Teardown) (w : World) : World * Result unit :=
  match connection u with
  | Some ConnClose =>
      let shouldReconnect := negb (bool_decide (statusCode u = Some loggedOut)) in
      if shouldReconnect
      then
        (* not awaited: a rejection is lost, the new socket is not stored *)
        ((startWhatsAppSession sessionId restart w).1, Returns ())
      else remove_dir sessionId t (with_sessions (delete sessionId) w)
  | _ => (w, Returns ())
  end.

Definition connection_update (sessionId : string) (u : ConnectionUpdate)
    (sock_user : option User) (restart : Result unit) (t : Teardown)
    (w : World) : World * Output :=
  match on_qr sessionId u w with
  | Throws e => (w, Uncaught e)
  | Returns w1 =>
      match on_open sessionId u sock_user w1 with
      | Throws e => (w1, Uncaught e)
      | Returns w2 =>
          match on_close sessionId u restart t w2 with
          | (w3, Returns _) => (w3, Handled)
          | (w3, Throws e) => (w3, Uncaught e)
          end
      end
  end.

(** The 'messages.upsert' handler (lines 87-130). *)
Definition messages_upsert (sessionId : string) (m : list WAMessage)
    (w : World) : World * Output :=
  match m with
  | [] => (w, Uncaught type_error)
  | msg :: _ =>
      match message msg with
      | None => (w, Handled)
      | Some c =>
          let messageData := messageData_of msg c in
          match assign sessionId
                  (λ s, {| isAuthenticated := isAuthenticated s;
                           qrCode := qrCode s;
                           messages := store_message (messages s) messageData;
                           user := user s; sock := sock s |}) w with
          | Returns w' => (w', Handled)
          | Throws e => (w, Uncaught e)
          end
      end
  end.

(** POST /sessions/start (lines 136-164). *)
Definition post_start (requested : option string) (now : Z)
    (startup : Result unit) (w : World) : World * Output :=
  let sessionId := resolve_id requested now in
  match sessions w !! sessionId with
  | Some _ => (w, Reply (res_status_json 400 (error_body "Sessão já existe")))
  | None =>
      let w1 := with_sessions (insert sessionId new_session) w in
      let failed (w' : World) (msg : string) :=
        (with_sessions (delete sessionId) w',
         Reply (res_status_json 500 (error_body msg))) in
      match startWhatsAppSession sessionId startup w1 with
      | (w2, Returns s) =>
          match assign sessionId
                  (λ x, {| isAuthenticated := isAuthenticated x;
                           qrCode := qrCode x; messages := messages x;
                           user := user x; sock := Some s |}) w2 with
          | Returns w3 =>
              (w3, Reply (res_json (JObj
                 [("success", JBool true);
                  ("sessionId", JStr sessionId);
                  ("message", JStr "Sessão iniciada. Use /sessions/[id]/qr para obter QR Code")])))
          | Throws msg => failed w2 msg
          end
      | (w2, Throws msg) => failed w2 msg
      end
  end.

(** GET /sessions/:id/qr (lines 181-220). *)
Definition qr_reply (code : string) : Response :=
  res_json (JObj [("qrCode", JStr code); ("status", JStr "waiting_qr")]).

Definition qr_timeout : Response :=
  res_status_json 408 (error_body "Timeout aguardando QR Code").

Definition get_qr (sessionId : string) (w : World) : Output :=
  match sessions w !! sessionId with
  | None => Reply not_found
  | Some session =>
      if isAuthenticated session
      then Reply (res_json (JObj
             [("status", JStr "authenticated");
              ("message", JStr "Sessão já autenticada");
              ("user", json_of_user (user session))]))
      else if truthy (qrCode session)
      then Reply (qr_reply (default "" (qrCode session)))
      else Deferred
  end.

Definition checkQR : list (option string) → Poll → list Response :=
  run_interval qr_reply qr_timeout.

(** The answer a caller of GET /sessions/:id/qr receives, [observed] being
    the session's [qrCode] at each firing of the interval. *)
Definition await_qr (sessionId : string) (observed : list (option string))
    (w : World) : option Response :=
  answer (get_qr sessionId w) (checkQR observed poll_start).

(** POST /sessions/:id/send-message (lines 223-256). [sent] is what
    [sock.sendMessage] resolves to, through [result.key.id]. *)
Definition post_send_message (sessionId : string) (number message : option string)
    (sent : Result string) (now : Z) (w : World) : World * Output :=
  match sessions w !! sessionId with
  | None => (w, Reply not_found)
  | Some s =>
      if negb (isAuthenticated s) then (w, Reply not_authenticated)
      else if negb (truthy number) || negb (truthy message)
      then (w, Reply missing_fields)
      else
        let formattedNumber :=
          strip_non_digits (default "" number) +:+ "@s.whatsapp.net" in
        match sock s with
        | None => (w, Reply (res_status_json 500 (error_body type_error)))
        | Some sk =>
            let w1 := perform (SendMessage sk formattedNumber (default "" message)) w in
            match sent with
            | Returns id =>
                (w1, Reply (res_json (JObj
                   [("success", JBool true);
                    ("messageId", JStr id);
                    ("timestamp", JNum now)])))
            | Throws msg => (w1, Reply (res_status_json 500 (error_body msg)))
            end
        end
  end.

(** GET /sessions/:id/messages (lines 302-314). *)
Definition get_messages (sessionId : string) (w : World) : Output :=
  match sessions w !! sessionId with
  | None => Reply not_found
  | Some s =>
      Reply (res_json (JObj
        [("success", JBool true);
         ("count", JNum (Z.of_nat (message_count (messages s))));
         ("messages", JArr (json_of_message <$> default [] (messages s)))]))
  end.

(** GET /sessions/:id/status (lines 317-331). *)
Definition get_status (sessionId : string) (w : World) : Output :=
  match sessions w !! sessionId with
  | None => Reply not_found
  | Some s =>
      Reply (res_json (JObj
        [("isAuthenticated", JBool (isAuthenticated s));
         ("qrAvailable", JBool (truthy (qrCode s)));
         ("messageCount", JNum (Z.of_nat (message_count (messages s))));
         ("user", json_of_user (user s));
         ("status", JStr (if isAuthenticated s then "ready" else "waiting_qr"))]))
  end.

(** [if (sessions[sessionId].sock) await sessions[sessionId].sock.end()] *)
Definition end_sock (s : Session) (t : Teardown) (w : World)
    : World * Result unit :=
  match sock s with
  | Some sk => (perform (SocketEnd sk) w, sock_end t)
  | None => (w, Returns ())
  end.

(** POST /sessions/:id/restore (lines 334-356). *)
Definition restored : Response :=
  res_json (JObj [("success", JBool true); ("message", JStr "Sessão reiniciada")]).

Definition post_restore (sessionId : string) (t : Teardown)
    (startup : Result unit) (w : World) : World * Output :=
  match sessions w !! sessionId with
  | None => (w, Reply not_found)
  | Some s =>
      let failed (w' : World) (msg : string) :=
        (w', Reply (res_status_json 500 (error_body msg))) in
      match end_sock s t w with
      | (w1, Throws msg) => failed w1 msg
      | (w1, Returns _) =>
          match startWhatsAppSession sessionId startup w1 with
          | (w2, Throws msg) => failed w2 msg
          | (w2, Returns sk) =>
              match assign sessionId
                      (λ x, {| isAuthenticated := false; qrCode := None;
                               messages := messages x; user := user x;
                               sock := Some sk |}) w2 with
              | Throws msg => failed w2 msg
              | Returns w3 => (w3, Reply restored)
              end
          end
      end
  end.

(** DELETE /sessions/:id (lines 359-382). *)
Definition destroyed : Response :=
  res_json (JObj [("success", JBool true); ("message", JStr "Sessão destruída")]).

Definition delete_session (sessionId : string) (t : Teardown) (w : World)
    : World * Output :=
  match sessions w !! sessionId with
  | None => (w, Reply not_found)
  | Some s =>
      let failed (w' : World) (msg : string) :=
        (w', Reply (res_status_json 500 (error_body msg))) in
      match end_sock s t w with
      | (w1, Throws msg) => failed w1 msg
      | (w1, Returns _) =>
          match remove_dir sessionId t w1 with
          | (w2, Throws msg) => failed w2 msg
          | (w2, Returns _) =>
              (with_sessions (delete sessionId) w2, Reply destroyed)
          end
      end
  end.

(** Everything that can happen to the server.  GET /sessions,
    POST /sessions/:id/send-media and GET / write nothing to [sessions]
    and are left out. *)
Inductive Input : Type :=
| PostStart (requested : option string) (now : Z) (startup : Result unit)
| GetQr (sessionId : string)
| PostSendMessage (sessionId : string) (number message : option string)
    (sent : Result string) (now : Z)
| GetMessages (sessionId : string)
| GetStatus (sessionId : string)
| PostRestore (sessionId : string) (t : Teardown) (startup : Result unit)
| DeleteSession (sessionId : string) (t : Teardown)
| ConnectionUpdated (sessionId : string) (u : ConnectionUpdate)
    (sock_user : option User) (restart : Result unit) (t : Teardown)
| MessagesUpserted (sessionId : string) (m : list WAMessage).

Definition step (w : World) (i : Input) : World * Output :=
  match i with
  | PostStart requested now startup => post_start requested now startup w
  | GetQr id => (w, get_qr id w)
  | PostSendMessage id number message sent now =>
      post_send_message id number message sent now w
  | GetMessages id => (w, get_messages id w)
  | GetStatus id => (w, get_status id w)
  | PostRestore id t startup => post_restore id t startup w
  | DeleteSession id t => delete_session id t w
  | ConnectionUpdated id u sock_user restart t =>
      connection_update id u sock_user restart t w
  | MessagesUpserted id m => messages_upsert id m w
  end.

Definition run (w : World) (inputs : list Input) : World :=
  foldl (λ w i, (step w i).1) w inputs.

Definition reachable (w : World) : Prop := ∃ inputs, w = run initial inputs.

(** GET /sessions (lines 167-178). The order of [Object.keys] is not kept by
    the map; the entries are listed in the order of the map. *)
Definition summary (id : string) (s : Session) : json :=
  JObj [("id", JStr id);
        ("isAuthenticated", JBool (isAuthenticated s));
        ("user", json_of_user (user s));
        ("messageCount", JNum (Z.of_nat (message_count (messages s))))].

Definition get_sessions (w : World) : Response :=
  res_json (JArr ((λ entry, summary entry.1 entry.2) <$> map_to_list (sessions w))).

(** POST /sessions/:id/send-media (lines 259-299). The call to
    [sock.sendMessage] is named by its arguments, the image by the base64
    text handed to [Buffer.from]. *)
Record ImageSend : Type := mkImageSend {
  image_sock : Sock;
  image_jid : string;
  image_base64 : string;
  image_mimetype : string;
  image_caption : option string
}.

Definition post_send_media (sessionId : string)
    (number base64Data mimeType caption : option string)
    (sent : Result string) (now : Z) (w : World) : Output * option ImageSend :=
  match sessions w !! sessionId with
  | None => (Reply not_found, None)
  | Some s =>
      if negb (isAuthenticated s) then (Reply not_authenticated, None)
      else if negb (truthy number) || negb (truthy base64Data) || negb (truthy mimeType)
      then (Reply missing_media, None)
      else
        match sock s with
        | None => (Reply (res_status_json 500 (error_body type_error)), None)
        | Some sk =>
            let call :=
              mkImageSend sk
                (strip_non_digits (default "" number) +:+ "@s.whatsapp.net")
                (image_payload (default "" base64Data))
                (default "" mimeType) caption in
            match sent with
            | Returns id =>
                (Reply (res_json (JObj
                   [("success", JBool true);
                    ("messageId", JStr id);
                    ("timestamp", JNum now)])),
                 Some call)
            | Throws msg => (Reply (res_status_json 500 (error_body msg)), Some call)
            end
        end
  end.

(** GET / (lines 385-402). *)
Definition health (w : World) : Response :=
  res_json (JObj
    [("status", JStr "online");
     ("version", JStr "Baileys WhatsApp API");
     ("sessions", JNum (Z.of_nat (size (sessions w))));
     ("endpoints", JArr (JStr <$>
        ["POST /sessions/start"; "GET /sessions"; "GET /sessions/:id/qr";
         "POST /sessions/:id/send-message"; "POST /sessions/:id/send-media";
         "GET /sessions/:id/messages"; "GET /sessions/:id/status";
         "POST /sessions/:id/restore"; "DELETE /sessions/:id"]))]).

End Baileys.

(** * src/unnamed/part_000, first program: the Render Free variant *)
Module Render.

(** [media] of a stored message, from [msg.downloadMedia()]. *)
Record Media : Type := mkMedia {
  media_data : string;
  media_mimetype : string;
  media_filename : option string
}.

(** The argument of the 'message' handler. *)
Record Message : Type := mkMessage {
  msg_id : string;            (* msg.id._serialized *)
  msg_from : string;
  msg_to : string;
  msg_body : string;
  msg_timestamp : Z;
  msg_hasMedia : bool;
  msg_type : string
}.

Record MessageData : Type := mkMessageData {
  md_id : string;
  md_from : string;
  md_to : string;
  md_body : string;
  md_timestamp : Z;
  md_hasMedia : bool;
  md_type : string;
  md_media : option Media
}.

Definition json_of_media (m : Media) : json :=
  JObj [("data", JStr (media_data m));
        ("mimetype", JStr (media_mimetype m));
        ("filename", json_opt_str (media_filename m))].

Definition json_of_message (d : MessageData) : json :=
  JObj ([("id", JStr (md_id d));
         ("from", JStr (md_from d));
         ("to", JStr (md_to d));
         ("body", JStr (md_body d));
         ("timestamp", JNum (md_timestamp d));
         ("hasMedia", JBool (md_hasMedia d));
         ("type", JStr (md_type d))]
        ++ match md_media d with
           | Some m => [("media", json_of_media m)]
           | None => []
           end).

(** The whatsapp-web.js client of a session, named by the order of creation. *)
Definition Client : Type := nat.

(** A value of [sessions]. [simulated] and [qrRaw] are absent from the
    literal of a real session: absent reads as [false], resp. [None]. *)
Record Session : Type := mkSession {
  client : option Client;
  qrCode : option string;
  isAuthenticated : bool;
  messages : option (list MessageData);
  connected : bool;
  simulated : bool;
  qrRaw : option string
}.

(** The literal of lines 53-59. *)
Definition real_session (c : Client) : Session :=
  {| client := Some c; qrCode := None; isAuthenticated := false;
     messages := Some []; connected := false; simulated := false;
     qrRaw := None |}.

(** The literal of lines 139-146. *)
Definition simulated_session : Session :=
  {| client := None; qrCode := None; isAuthenticated := false;
     messages := Some []; connected := false; simulated := true;
     qrRaw := None |}.

(** Calls made to the outside world, in order. *)
Inductive Effect : Type :=
| ClientCreated (sessionId : string) (c : Client)   (* new Client(...) *)
| ClientInitialize (c : Client)                     (* client.initialize() *)
| ClientDestroy (c : Client)                        (* client.destroy() *)
| ClientSend (c : Client) (chatId text : string).   (* client.sendMessage *)

(** Callbacks handed to [setTimeout] and not yet run. *)
Inductive Timer : Type :=
| SimulatedAuth (sessionId : string)                (* 30000 ms, line 154 *)
| Reconnect (sessionId : string) (c : Client)       (* 5000 ms, line 122 *)
| RestoreInit (sessionId : string).                 (* 1000 ms, line 427 *)

#[global] Instance Timer_eq_dec : EqDecision Timer.
Proof. solve_decision. Defined.

Record World : Type := mkWorld {
  sessions : gmap string Session;
  next_client : nat;
  timers : list Timer;
  effects : list Effect
}.

Definition initial : World := mkWorld ∅ 0 [] [].

Definition with_sessions (f : gmap string Session → gmap string Session)
    (w : World) : World :=
  mkWorld (f (sessions w)) (next_client w) (timers w) (effects w).

Definition perform (e : Effect) (w : World) : World :=
  mkWorld (sessions w) (next_client w) (timers w) (effects w ++ [e]).

Definition setTimeout (t : Timer) (w : World) : World :=
  mkWorld (sessions w) (next_client w) (timers w ++ [t]) (effects w).

Fixpoint remove_first (t : Timer) (ts : list Timer) : list Timer :=
  match ts with
  | [] => []
  | t' :: rest => if decide (t = t') then rest else t' :: remove_first t rest
  end.

Definition timer_done (t : Timer) (w : World) : World :=
  mkWorld (sessions w) (next_client w) (remove_first t (timers w)) (effects w).

(** [sessions[sessionId].field = value; ...]: throws a TypeError when the
    id has no entry. *)
Definition assign (sessionId : string) (f : Session → Session) (w : World)
    : Result World :=
  match sessions w !! sessionId with
  | Some s => Returns (with_sessions (insert sessionId (f s)) w)
  | None => Throws type_error
  end.

Definition set_qr (code : option string) (raw : option string) (s : Session) : Session :=
  {| client := client s; qrCode := code; isAuthenticated := isAuthenticated s;
     messages := messages s; connected := connected s; simulated := simulated s;
     qrRaw := raw |}.

Definition set_flags (auth conn : bool) (code : option string) (s : Session) : Session :=
  {| client := client s; qrCode := code; isAuthenticated := auth;
     messages := messages s; connected := conn; simulated := simulated s;
     qrRaw := qrRaw s |}.

Definition set_messages (ms : option (list MessageData)) (s : Session) : Session :=
  {| client := client s; qrCode := qrCode s; isAuthenticated := isAuthenticated s;
     messages := ms; connected := connected s; simulated := simulated s;
     qrRaw := qrRaw s |}.

(** 'qr' handler (lines 61-65). [dataURL] is what [qrcode.toDataURL(qr)]
    resolves to. *)
Definition on_qr (sessionId : string) (qr : string) (dataURL : Result string)
    (w : World) : World * Output :=
  match dataURL with
  | Throws e => (w, Uncaught e)
  | Returns code =>
      match assign sessionId (set_qr (Some code) (Some qr)) w with
      | Returns w' => (w', Handled)
      | Throws e => (w, Uncaught e)
      end
  end.

(** 'ready' handler (lines 67-72). *)
Definition on_ready (sessionId : string) (w : World) : World * Output :=
  match assign sessionId (set_flags true true None) w with
  | Returns w' => (w', Handled)
  | Throws e => (w, Uncaught e)
  end.

(** 'authenticated' handler (lines 74-77). *)
Definition on_authenticated (sessionId : string) (w : World) : World * Output :=
  match assign sessionId (λ s, set_flags true (connected s) (qrCode s) s) w with
  | Returns w' => (w', Handled)
  | Throws e => (w, Uncaught e)
  end.

(** 'message' handler (lines 79-114). [downloaded] is what
    [msg.downloadMedia()] resolves to; a rejection is caught and logged. *)
Definition messageData_of (msg : Message) (downloaded : Result Media) : MessageData :=
  {| md_id := msg_id msg; md_from := msg_from msg; md_to := msg_to msg;
     md_body := msg_body msg; md_timestamp := msg_timestamp msg;
     md_hasMedia := msg_hasMedia msg; md_type := msg_type msg;
     md_media :=
       if msg_hasMedia msg
       then match downloaded with Returns m => Some m | Throws _ => None end
       else None |}.

Definition on_message (sessionId : string) (msg : Message)
    (downloaded : Result Media) (w : World) : World * Output :=
  let messageData := messageData_of msg downloaded in
  match assign sessionId
          (λ s, set_messages (store_message (messages s) messageData) s) w with
  | Returns w' => (w', Handled)
  | Throws e => (w, Uncaught e)
  end.

(** 'disconnected' handler (lines 116-128) of client [c]. *)
Definition on_disconnected (sessionId : string) (c : Client) (w : World)
    : World * Output :=
  match assign sessionId (λ s, set_flags false false (qrCode s) s) w with
  | Returns w' => (setTimeout (Reconnect sessionId c) w', Handled)
  | Throws e => (w, Uncaught e)
  end.

(** The three timer callbacks. *)
Definition fire (t : Timer) (w : World) : World * Output :=
  match t with
  | SimulatedAuth sessionId =>
      match sessions w !! sessionId with
      | Some s =>
          if simulated s
          then (with_sessions (insert sessionId (set_flags true true (qrCode s) s)) w,
                Handled)
          else (w, Handled)
      | None => (w, Handled)
      end
  | Reconnect sessionId c =>
      match sessions w !! sessionId with
      | Some _ => (perform (ClientInitialize c) w, Handled)
      | None => (w, Handled)
      end
  | RestoreInit sessionId =>
      match sessions w !! sessionId with
      | Some s =>
          match client s with
          | Some c => (perform (ClientInitialize c) w, Handled)
          | None => (w, Uncaught type_error)
          end
      | None => (w, Uncaught type_error)
      end
  end.

(** A timer runs once, and only if it was armed. *)
Definition timer_fired (t : Timer) (w : World) : World * Output :=
  if decide (t ∈ timers w) then fire t (timer_done t w) else (w, Handled).

(** What the outside world answers while [startWhatsAppSession] runs. *)
Record Startup : Type := mkStartup {
  created : Result unit;        (* new Client(...) *)
  initialized : Result unit;    (* await client.initialize() *)
  now : Z;                      (* Date.now() *)
  random : string;              (* Math.random().toString(36).substr(2, 9) *)
  testQRDataURL : Result string (* await qrcode.toDataURL(testQR) *)
}.

(** The [catch] block of [startWhatsAppSession] (lines 135-163). *)
Definition simulate (sessionId : string) (env : Startup) (w : World)
    : World * Result (option Client) :=
  let w1 := with_sessions (insert sessionId simulated_session) w in
  let testQR := "2@" +:+ pretty (now env) +:+ random env in
  match testQRDataURL env with
  | Throws e => (w1, Throws e)
  | Returns code =>
      match assign sessionId (set_qr (Some code) (Some testQR)) w1 with
      | Throws e => (w1, Throws e)
      | Returns w2 => (setTimeout (SimulatedAuth sessionId) w2, Returns None)
      end
  end.

(** [startWhatsAppSession] (lines 31-164). *)
Definition startWhatsAppSession (sessionId : string) (env : Startup) (w : World)
    : World * Result (option Client) :=
  match created env with
  | Throws _ => simulate sessionId env w
  | Returns _ =>
      let c := next_client w in
      let w1 := mkWorld (<[sessionId := real_session c]> (sessions w)) (S c)
                  (timers w)
                  (effects w ++ [ClientCreated sessionId c; ClientInitialize c]) in
      match initialized env with
      | Throws _ => simulate sessionId env w1
      | Returns _ => (w1, Returns (Some c))
      end
  end.

(** POST /sessions/start (lines 167-196). *)
Definition existing_reply (sessionId : string) : Response :=
  res_json (JObj [("success", JBool true);
                  ("sessionId", JStr sessionId);
                  ("message", JStr "Sessão já existe");
                  ("existing", JBool true)]).

Definition post_start (requested : option string) (env : Startup) (w : World)
    : World * Output :=
  let sessionId := resolve_id requested (now env) in
  match sessions w !! sessionId with
  | Some _ => (w, Reply (existing_reply sessionId))
  | None =>
      match startWhatsAppSession sessionId env w with
      | (w', Returns _) =>
          (w', Reply (res_json (JObj
             [("success", JBool true);
              ("sessionId", JStr sessionId);
              ("message", JStr "Sessão iniciada. Use /sessions/[id]/qr para obter QR Code");
              ("note", JStr "No Render Free, o WhatsApp pode ter funcionalidade limitada")])))
      | (w', Throws msg) =>
          (w', Reply (res_status_json 500 (JObj
             [("success", JBool false);
              ("error", JStr msg);
              ("note", JStr "Para uso completo, considere um servidor com suporte a Chrome")])))
      end
  end.

(** GET /sessions/:id/qr (lines 213-258). *)
Definition qr_reply (is_simulated : bool) (code : string) : Response :=
  res_json (JObj [("qrCode", JStr code);
                  ("status", JStr "waiting_qr");
                  ("simulated", JBool is_simulated)]).

Definition generating (is_simulated : bool) : Response :=
  res_json (JObj [("status", JStr "generating");
                  ("message", JStr "Gerando QR Code... tente novamente em 5 segundos");
                  ("simulated", JBool is_simulated)]).

Definition get_qr (sessionId : string) (w : World) : Output :=
  match sessions w !! sessionId with
  | None => Reply not_found
  | Some session =>
      if isAuthenticated session
      then Reply (res_json (JObj
             [("status", JStr "authenticated");
              ("message", JStr "Sessão já autenticada");
              ("simulated", JBool (simulated session))]))
      else if truthy (qrCode session)
      then Reply (qr_reply (simulated session) (default "" (qrCode session)))
      else Deferred
  end.

(** The interval of the polling branch; [is_simulated] is the captured
    session's flag. *)
Definition checkQR (is_simulated : bool) : list (option string) → Poll → list Response :=
  run_interval (qr_reply is_simulated) (generating is_simulated).

Definition await_qr (sessionId : string) (observed : list (option string))
    (w : World) : option Response :=
  match sessions w !! sessionId with
  | Some session =>
      answer (get_qr sessionId w) (checkQR (simulated session) observed poll_start)
  | None => answer (get_qr sessionId w) []
  end.

(** POST /sessions/:id/send-message (lines 261-310). [sent] is what
    [client.sendMessage] resolves to: [result.id._serialized] and
    [result.timestamp]. *)
Record SendEnv : Type := mkSendEnv {
  sent : Result (string * Z);
  send_now : Z;                 (* Date.now() *)
  send_random : string          (* Math.random().toString(36).substr(2, 9) *)
}.

Definition simulated_sent (env : SendEnv) : Response :=
  res_json (JObj
    [("success", JBool true);
     ("messageId", JStr ("sim_" +:+ pretty (send_now env) +:+ "_" +:+ send_random env));
     ("timestamp", JNum (send_now env));
     ("note", JStr "Mensagem simulada (Render Free não suporta WhatsApp real)");
     ("warning", JStr "Para mensagens reais, use um servidor com Chrome/VPS")]).

Definition send_failed (msg : string) : Response :=
  res_status_json 500 (JObj
    [("error", JStr msg);
     ("note", JStr "No Render Free, o envio real pode não funcionar");
     ("alternative", JStr "Use a sessão simulada para testes")]).

Definition post_send_message (sessionId : string) (number message : option string)
    (env : SendEnv) (w : World) : World * Output :=
  match sessions w !! sessionId with
  | None => (w, Reply not_found)
  | Some s =>
      if negb (truthy number) || negb (truthy message)
      then (w, Reply missing_fields)
      else if simulated s then (w, Reply (simulated_sent env))
      else if negb (isAuthenticated s) then (w, Reply not_authenticated)
      else
        match client s with
        | None => (w, Reply (send_failed "Cliente não disponível"))
        | Some c =>
            let formattedNumber := strip_non_digits (default "" number) +:+ "@c.us" in
            let w1 := perform (ClientSend c formattedNumber (default "" message)) w in
            match sent env with
            | Returns (id, timestamp) =>
                (w1, Reply (res_json (JObj
                   [("success", JBool true);
                    ("messageId", JStr id);
                    ("timestamp", JNum timestamp)])))
            | Throws msg => (w1, Reply (send_failed msg))
            end
        end
  end.

(** GET /sessions/:id/messages (lines 349-386). *)
Definition example_messages (now : Z) : list MessageData :=
  [ {| md_id := "sim_1"; md_from := "5511999999999@c.us"; md_to := "me";
       md_body := "Esta é uma mensagem simulada para testes";
       md_timestamp := now - 3600000; md_hasMedia := false;
       md_type := "chat"; md_media := None |};
    {| md_id := "sim_2"; md_from := "5511888888888@c.us"; md_to := "me";
       md_body := "No Render Free, as mensagens são simuladas";
       md_timestamp := now - 1800000; md_hasMedia := false;
       md_type := "chat"; md_media := None |} ].

(** [!session.messages || session.messages.length === 0] *)
Definition no_messages (field : option (list MessageData)) : bool :=
  match field with
  | None => true
  | Some arr => (length arr =? 0)%nat
  end.

Definition messages_reply (s : Session) : Response :=
  res_json (JObj
    [("success", JBool true);
     ("simulated", JBool (simulated s));
     ("count", JNum (Z.of_nat (message_count (messages s))));
     ("messages", JArr (json_of_message <$> default [] (messages s)))]).

Definition get_messages (sessionId : string) (now : Z) (w : World) : World * Output :=
  match sessions w !! sessionId with
  | None => (w, Reply not_found)
  | Some s =>
      if simulated s && no_messages (messages s)
      then
        let s' := set_messages (Some (example_messages now)) s in
        (with_sessions (insert sessionId s') w, Reply (messages_reply s'))
      else (w, Reply (messages_reply s))
  end.

(** GET /sessions/:id/status (lines 389-408). *)
Definition status_reply (s : Session) : Response :=
  res_json (JObj
    [("isAuthenticated", JBool (isAuthenticated s));
     ("connected", JBool (connected s));
     ("qrAvailable", JBool (truthy (qrCode s)));
     ("messageCount", JNum (Z.of_nat (message_count (messages s))));
     ("simulated", JBool (simulated s));
     ("status", JStr (if isAuthenticated s then "authenticated"
                      else if truthy (qrCode s) then "waiting_qr"
                      else "connecting"));
     ("note", JStr (if simulated s
                    then "Sessão simulada para testes no Render Free"
                    else "Sessão real (pode não funcionar no Render Free)"))]).

Definition get_status (sessionId : string) (w : World) : Output :=
  match sessions w !! sessionId with
  | None => Reply not_found
  | Some s => Reply (status_reply s)
  end.

(** POST /sessions/:id/restore (lines 411-443). [destroyed] is the outcome
    of the call [client.destroy()], which is not awaited. *)
Definition restored (is_simulated : bool) : Response :=
  res_json (JObj [("success", JBool true);
                  ("message", JStr "Sessão reiniciada");
                  ("simulated", JBool is_simulated)]).

Definition post_restore (sessionId : string) (destroyed : Result unit) (w : World)
    : World * Output :=
  match sessions w !! sessionId with
  | None => (w, Reply not_found)
  | Some s =>
      let s' := set_flags false false None s in
      let w1 := with_sessions (insert sessionId s') w in
      match client s' with
      | Some c =>
          let w2 := perform (ClientDestroy c) w1 in
          match destroyed with
          | Returns _ =>
              (setTimeout (RestoreInit sessionId) w2, Reply (restored (simulated s')))
          | Throws msg =>
              (w2, Reply (res_status_json 500 (JObj
                 [("error", JStr msg); ("simulated", JBool (simulated s'))])))
          end
      | None => (w1, Reply (restored (simulated s')))
      end
  end.

(** DELETE /sessions/:id (lines 446-463). [destroyed] is what
    [await client.destroy()] resolves to. *)
Definition destroyed_reply : Response :=
  res_json (JObj [("success", JBool true); ("message", JStr "Sessão destruída")]).

Definition delete_session (sessionId : string) (destroyed : Result unit) (w : World)
    : World * Output :=
  match sessions w !! sessionId with
  | None => (w, Reply not_found)
  | Some s =>
      let removed (w' : World) :=
        (with_sessions (delete sessionId) w', Reply destroyed_reply) in
      match client s with
      | Some c =>
          let w1 := perform (ClientDestroy c) w in
          match destroyed with
          | Returns _ => removed w1
          | Throws msg => (w1, Reply (res_status_json 500 (error_body msg)))
          end
      | None => removed w
      end
  end.

(** Everything that can happen to the server.  GET /sessions,
    POST /sessions/:id/send-media, GET /system/info and GET / write nothing
    to [sessions] and are left out. *)
Inductive Input : Type :=
| PostStart (requested : option string) (env : Startup)
| GetQr (sessionId : string)
| PostSendMessage (sessionId : string) (number message : option string) (env : SendEnv)
| GetMessages (sessionId : string) (now : Z)
| GetStatus (sessionId : string)
| PostRestore (sessionId : string) (destroyed : Result unit)
| DeleteSession (sessionId : string) (destroyed : Result unit)
| QrReceived (sessionId : string) (qr : string) (dataURL : Result string)
| Ready (sessionId : string)
| Authenticated (sessionId : string)
| MessageReceived (sessionId : string) (msg : Message) (downloaded : Result Media)
| Disconnected (sessionId : string) (c : Client)
| TimerFired (t : Timer).

Definition step (w : World) (i : Input) : World * Output :=
  match i with
  | PostStart requested env => post_start requested env w
  | GetQr id => (w, get_qr id w)
  | PostSendMessage id number message env => post_send_message id number message env w
  | GetMessages id now => get_messages id now w
  | GetStatus id => (w, get_status id w)
  | PostRestore id destroyed => post_restore id destroyed w
  | DeleteSession id destroyed => delete_session id destroyed w
  | QrReceived id qr dataURL => on_qr id qr dataURL w
  | Ready id => on_ready id w
  | Authenticated id => on_authenticated id w
  | MessageReceived id msg downloaded => on_message id msg downloaded w
  | Disconnected id c => on_disconnected id c w
  | TimerFired t => timer_fired t w
  end.

Definition run (w : World) (inputs : list Input) : World :=
  foldl (λ w i, (step w i).1) w inputs.

Definition reachable (w : World) : Prop := ∃ inputs, w = run initial inputs.

(** POST /sessions/:id/send-media (lines 313-346). [now_id] and [now_ts] are
    the two readings of [Date.now()]. *)
Definition media_unsupported : Response :=
  res_status_json 501 (JObj
    [("error", JStr "Envio de mídia não suportado no Render Free");
     ("suggestion", JStr "Use um servidor com Chrome (VPS, Railway, Heroku Paid, etc.)")]).

Definition simulated_media (now_id now_ts : Z) : Response :=
  res_json (JObj
    [("success", JBool true);
     ("messageId", JStr ("media_sim_" +:+ pretty now_id));
     ("timestamp", JNum now_ts);
     ("note", JStr "Mídia simulada (Render Free não suporta envio real)");
     ("warning", JStr "Para mídia real, use um servidor com Chrome/VPS")]).

Definition post_send_media (sessionId : string)
    (number base64Data mimeType : option string) (now_id now_ts : Z)
    (w : World) : Response :=
  match sessions w !! sessionId with
  | None => not_found
  | Some s =>
      if negb (truthy number) || negb (truthy base64Data) || negb (truthy mimeType)
      then missing_media
      else if simulated s then simulated_media now_id now_ts
      else if negb (isAuthenticated s) then not_authenticated
      else media_unsupported
  end.

(** GET /system/info (lines 466-480). *)
Definition system_info (w : World) : Response :=
  res_json (JObj
    [("platform", JStr "Render Free");
     ("limitation", JStr "Não suporta Chrome/Puppeteer");
     ("suggestion", JStr "Para WhatsApp completo, use:");
     ("alternatives", JArr (JStr <$>
        ["1. Railway.app (tem plano free com Chrome)";
         "2. Heroku com buildpack: https://github.com/jontewks/puppeteer-heroku-buildpack";
         "3. VPS barato (DigitalOcean, Vultr, etc.)";
         "4. Replit (com configuração especial)"]));
     ("current_sessions", JNum (Z.of_nat (size (sessions w))));
     ("simulated_sessions",
        JNum (Z.of_nat (size (filter (λ entry, simulated entry.2 = true) (sessions w)))))]).

End Render.

(** * src/unnamed/part_000, second program: the whatsapp-web.js server

    The server as it runs when started without [WHATSAPP_SESSIONS] and as long
    as POST /restore-sessions is not used: the two routes that serialise
    [sessions] (/backup-sessions, /restore-sessions) are not modelled.  The
    message records are those of the Render program, whose 'message' handler
    builds them with the same code (lines 580-601 and 82-103). *)
Module Basic.

Definition Client : Type := nat.

(** A value of [sessions] (lines 555-560). *)
Record Session : Type := mkSession {
  client : Client;
  qrCode : option string;
  isAuthenticated : bool;
  messages : list Render.MessageData
}.

(** A value of [sessionStates] (lines 562-565). *)
Record SessionState : Type := mkState {
  qr : option string;
  ready : bool
}.

(** Calls made to the outside world, in order. *)
Inductive Effect : Type :=
| ClientCreated (sessionId : string) (c : Client)   (* new Client(...) *)
| ClientInitialize (c : Client)                     (* client.initialize() *)
| ClientDestroy (c : Client)                        (* client.destroy() *)
| ClientSend (c : Client) (chatId text : string)    (* client.sendMessage(id, text) *)
| ClientSendMedia (c : Client) (chatId mimetype data : string)
    (filename caption : option string)              (* client.sendMessage(id, media, ...) *)
| SessionsLogged.                                   (* console.log in saveSessions *)

(** [timers] holds the ids whose restore callback (line 687) is armed. *)
Record World : Type := mkWorld {
  sessions : gmap string Session;
  sessionStates : gmap string SessionState;
  next_client : nat;
  timers : list string;
  effects : list Effect
}.

Definition initial : World := mkWorld ∅ ∅ 0 [] [].

Definition with_sessions (f : gmap string Session → gmap string Session)
    (w : World) : World :=
  mkWorld (f (sessions w)) (sessionStates w) (next_client w) (timers w) (effects w).

Definition with_states (f : gmap string SessionState → gmap string SessionState)
    (w : World) : World :=
  mkWorld (sessions w) (f (sessionStates w)) (next_client w) (timers w) (effects w).

Definition perform (e : Effect) (w : World) : World :=
  mkWorld (sessions w) (sessionStates w) (next_client w) (timers w) (effects w ++ [e]).

(** [saveSessions()] (lines 533-538): [saved] is the outcome of
    [JSON.stringify(sessions)]. *)
Definition saveSessions (saved : Result unit) (w : World) : World * Result unit :=
  match saved with
  | Returns _ => (perform SessionsLogged w, Returns ())
  | Throws msg => (w, Throws msg)
  end.

(** POST /sessions/start (lines 541-624). [constructed] is the outcome of
    [new Client(...)]; an exception there escapes the handler and the request
    is left unanswered. *)
Definition post_start (requested : option string) (now : Z)
    (constructed : Result unit) (w : World) : World * Output :=
  let sessionId := resolve_id requested now in
  match sessions w !! sessionId with
  | Some _ => (w, Reply (res_status_json 400 (error_body "Sessão já existe")))
  | None =>
      match constructed with
      | Throws msg => (w, Uncaught msg)
      | Returns _ =>
          let c := next_client w in
          (mkWorld (<[sessionId := mkSession c None false []]> (sessions w))
             (<[sessionId := mkState None false]> (sessionStates w))
             (S c) (timers w)
             (effects w ++ [ClientCreated sessionId c; ClientInitialize c]),
           Reply (res_json (JObj
             [("success", JBool true);
              ("sessionId", JStr sessionId);
              ("message", JStr "Sessão iniciada. Use o endpoint /sessions/[id]/qr para obter QR Code")])))
      end
  end.

(** 'qr' handler (lines 567-570). *)
Definition on_qr (sessionId : string) (code : string) (dataURL : Result string)
    (w : World) : World * Output :=
  match sessionStates w !! sessionId with
  | None => (w, Uncaught type_error)
  | Some st =>
      let w1 := with_states (insert sessionId (mkState (Some code) (ready st))) w in
      match dataURL with
      | Throws e => (w1, Uncaught e)
      | Returns url =>
          match sessions w1 !! sessionId with
          | None => (w1, Uncaught type_error)
          | Some s =>
              (with_sessions
                 (insert sessionId
                    (mkSession (client s) (Some url) (isAuthenticated s) (messages s)))
                 w1,
               Handled)
          end
      end
  end.

(** 'ready' handler (lines 572-577). *)
Definition on_ready (sessionId : string) (saved : Result unit) (w : World)
    : World * Output :=
  match sessions w !! sessionId with
  | None => (w, Uncaught type_error)
  | Some s =>
      let w1 :=
        with_sessions
          (insert sessionId (mkSession (client s) (qrCode s) true (messages s))) w in
      match sessionStates w1 !! sessionId with
      | None => (w1, Uncaught type_error)
      | Some st =>
          let w2 := with_states (insert sessionId (mkState (qr st) true)) w1 in
          match saveSessions saved w2 with
          | (w3, Returns _) => (w3, Handled)
          | (w3, Throws e) => (w3, Uncaught e)
          end
      end
  end.

(** 'message' handler (lines 579-609). *)
Definition on_message (sessionId : string) (msg : Render.Message)
    (downloaded : Result Render.Media) (w : World) : World * Output :=
  let messageData := Render.messageData_of msg downloaded in
  match sessions w !! sessionId with
  | None => (w, Uncaught type_error)
  | Some s =>
      (with_sessions
         (insert sessionId
            (mkSession (client s) (qrCode s) (isAuthenticated s)
               (append_message (messages s) messageData)))
         w,
       Handled)
  end.

(** 'disconnected' handler (lines 611-615). *)
Definition on_disconnected (sessionId : string) (w : World) : World * Output :=
  (with_states (delete sessionId) (with_sessions (delete sessionId) w), Handled).

(** [sessionStates[id]?.ready ? 'ready' : 'waiting_qr'] *)
Definition status_word (sessionId : string) (w : World) : string :=
  match sessionStates w !! sessionId with
  | Some st => if ready st then "ready" else "waiting_qr"
  | None => "waiting_qr"
  end.

(** GET /sessions/:id/qr (lines 637-675). *)
Definition qr_reply (code : string) : Response :=
  res_json (JObj [("qrCode", JStr code); ("status", JStr "waiting_qr")]).

Definition qr_timeout : Response :=
  res_status_json 408 (error_body "Timeout aguardando QR Code").

Definition get_qr (sessionId : string) (w : World) : Output :=
  match sessions w !! sessionId with
  | None => Reply not_found
  | Some session =>
      if isAuthenticated session
      then Reply (res_json (JObj
             [("status", JStr "authenticated");
              ("message", JStr "Sessão já autenticada")]))
      else if truthy (qrCode session)
      then Reply (qr_reply (default "" (qrCode session)))
      else Deferred
  end.

(** POST /sessions/:id/restore (lines 678-694). The request is answered by
    the callback armed for one second later. *)
Definition restored : Response :=
  res_json (JObj [("success", JBool true); ("message", JStr "Sessão reiniciada")]).

Definition post_restore (sessionId : string) (destroyed : Result unit) (w : World)
    : World * Output :=
  match sessions w !! sessionId with
  | None => (w, Reply not_found)
  | Some s =>
      let w1 := perform (ClientDestroy (client s)) w in
      match destroyed with
      | Throws msg => (w1, Reply (res_status_json 500 (error_body msg)))
      | Returns _ =>
          (mkWorld (sessions w1) (sessionStates w1) (next_client w1)
             (timers w1 ++ [sessionId]) (effects w1),
           Deferred)
      end
  end.

Fixpoint remove_first (sessionId : string) (ts : list string) : list string :=
  match ts with
  | [] => []
  | t :: rest => if decide (sessionId = t) then rest else t :: remove_first sessionId rest
  end.

(** The callback of line 687, run once if it was armed. *)
Definition restore_timer (sessionId : string) (w : World) : World * Output :=
  if decide (sessionId ∈ timers w)
  then
    let w1 := mkWorld (sessions w) (sessionStates w) (next_client w)
                (remove_first sessionId (timers w)) (effects w) in
    match sessions w1 !! sessionId with
    | None => (w1, Uncaught type_error)
    | Some s => (perform (ClientInitialize (client s)) w1, Reply restored)
    end
  else (w, Handled).

(** POST /sessions/:id/send-message (lines 697-728). *)
Definition post_send_message (sessionId : string) (number message : option string)
    (sent : Result (string * Z)) (w : World) : World * Output :=
  match sessions w !! sessionId with
  | None => (w, Reply not_found)
  | Some s =>
      if negb (isAuthenticated s) then (w, Reply not_authenticated)
      else if negb (truthy number) || negb (truthy message)
      then (w, Reply missing_fields)
      else
        let formattedNumber := strip_non_digits (default "" number) +:+ "@c.us" in
        let w1 := perform (ClientSend (client s) formattedNumber (default "" message)) w in
        match sent with
        | Returns (id, timestamp) =>
            (w1, Reply (res_json (JObj
               [("success", JBool true);
                ("messageId", JStr id);
                ("timestamp", JNum timestamp)])))
        | Throws msg => (w1, Reply (res_status_json 500 (error_body msg)))
        end
  end.

(** POST /sessions/:id/send-media (lines 731-764). *)
Definition post_send_media (sessionId : string)
    (number base64Data mimeType caption filename : option string)
    (sent : Result (string * Z)) (w : World) : World * Output :=
  match sessions w !! sessionId with
  | None => (w, Reply not_found)
  | Some s =>
      if negb (isAuthenticated s) then (w, Reply not_authenticated)
      else if negb (truthy number) || negb (truthy base64Data) || negb (truthy mimeType)
      then (w, Reply missing_media)
      else
        let formattedNumber := strip_non_digits (default "" number) +:+ "@c.us" in
        let w1 :=
          perform (ClientSendMedia (client s) formattedNumber (default "" mimeType)
                     (default "" base64Data) filename caption) w in
        match sent with
        | Returns (id, timestamp) =>
            (w1, Reply (res_json (JObj
               [("success", JBool true);
                ("messageId", JStr id);
                ("timestamp", JNum timestamp)])))
        | Throws msg => (w1, Reply (res_status_json 500 (error_body msg)))
        end
  end.

(** GET /sessions/:id/messages (lines 767-779). *)
Definition get_messages (sessionId : string) (w : World) : Output :=
  match sessions w !! sessionId with
  | None => Reply not_found
  | Some s =>
      Reply (res_json (JObj
        [("success", JBool true);
         ("count", JNum (Z.of_nat (length (messages s))));
         ("messages", JArr (Render.json_of_message <$> messages s))]))
  end.

(** GET /sessions/:id/status (lines 782-795). *)
Definition get_status (sessionId : string) (w : World) : Output :=
  match sessions w !! sessionId with
  | None => Reply not_found
  | Some s =>
      Reply (res_json (JObj
        [("isAuthenticated", JBool (isAuthenticated s));
         ("qrAvailable", JBool (truthy (qrCode s)));
         ("messageCount", JNum (Z.of_nat (length (messages s))));
         ("status", JStr (status_word sessionId w))]))
  end.

(** DELETE /sessions/:id (lines 798-815). *)
Definition destroyed_reply : Response :=
  res_json (JObj [("success", JBool true); ("message", JStr "Sessão destruída")]).

Definition delete_session (sessionId : string) (destroyed saved : Result unit)
    (w : World) : World * Output :=
  match sessions w !! sessionId with
  | None => (w, Reply not_found)
  | Some s =>
      let failed (w' : World) (msg : string) :=
        (w', Reply (res_status_json 500 (error_body msg))) in
      let w1 := perform (ClientDestroy (client s)) w in
      match destroyed with
      | Throws msg => failed w1 msg
      | Returns _ =>
          let w2 := with_states (delete sessionId) (with_sessions (delete sessionId) w1) in
          match saveSessions saved w2 with
          | (w3, Returns _) => (w3, Reply destroyed_reply)
          | (w3, Throws msg) => failed w3 msg
          end
      end
  end.

Inductive Input : Type :=
| PostStart (requested : option string) (now : Z) (constructed : Result unit)
| GetQr (sessionId : string)
| PostRestore (sessionId : string) (destroyed : Result unit)
| PostSendMessage (sessionId : string) (number message : option string)
    (sent : Result (string * Z))
| PostSendMedia (sessionId : string)
    (number base64Data mimeType caption filename : option string)
    (sent : Result (string * Z))
| GetMessages (sessionId : string)
| GetStatus (sessionId : string)
| DeleteSession (sessionId : string) (destroyed saved : Result unit)
| QrReceived (sessionId : string) (code : string) (dataURL : Result string)
| Ready (sessionId : string) (saved : Result unit)
| MessageReceived (sessionId : string) (msg : Render.Message)
    (downloaded : Result Render.Media)
| Disconnected (sessionId : string)
| RestoreTimer (sessionId : string).

Definition step (w : World) (i : Input) : World * Output :=
  match i with
  | PostStart requested now constructed => post_start requested now constructed w
  | GetQr id => (w, get_qr id w)
  | PostRestore id destroyed => post_restore id destroyed w
  | PostSendMessage id number message sent => post_send_message id number message sent w
  | PostSendMedia id number base64Data mimeType caption filename sent =>
      post_send_media id number base64Data mimeType caption filename sent w
  | GetMessages id => (w, get_messages id w)
  | GetStatus id => (w, get_status id w)
  | DeleteSession id destroyed saved => delete_session id destroyed saved w
  | QrReceived id code dataURL => on_qr id code dataURL w
  | Ready id saved => on_ready id saved w
  | MessageReceived id msg downloaded => on_message id msg downloaded w
  | Disconnected id => on_disconnected id w
  | RestoreTimer id => restore_timer id w
  end.

Definition run (w : World) (inputs : list Input) : World :=
  foldl (λ w i, (step w i).1) w inputs.

Definition reachable (w : World) : Prop := ∃ inputs, w = run initial inputs.

End Basic.

(** * The registry as the plain object it is

    [sessions] is created by [{}], so [sessions[id]] falls through to
    [Object.prototype] for an id that is no key of it.  These are the names
    of the members every object inherits; each is a function, [__proto__]
    the prototype itself, and so truthy. *)
Definition object_prototype_members : list string :=
  ["constructor"; "__defineGetter__"; "__defineSetter__"; "hasOwnProperty";
   "__lookupGetter__"; "__lookupSetter__"; "isPrototypeOf";
   "propertyIsEnumerable"; "toString"; "valueOf"; "__proto__"; "toLocaleString"].

Definition inherited (id : string) : bool :=
  bool_decide (id ∈ object_prototype_members).

(** ** src/api.js *)
Module BaileysObject.

(** [sessions[sessionId]] is an inherited member.  Such a member has no
    property named like a field of a session, so every field reads
    [undefined]; this holds until POST /sessions/:id/restore is called with
    such an id, which assigns three of them ([taints] below), and the
    routes of this module are those of a server where that has not
    happened. *)
Definition falls_through (sessionId : string) (w : Baileys.World) : bool :=
  match Baileys.sessions w !! sessionId with
  | Some _ => false
  | None => inherited sessionId
  end.

(** DELETE /sessions/:id (lines 359-382).  On an inherited member [.sock] is
    undefined, the directory is removed when it exists, and
    [delete sessions[sessionId]] finds no key to remove. *)
Definition delete_session (sessionId : string) (t : Baileys.Teardown)
    (w : Baileys.World) : Baileys.World * Output :=
  if falls_through sessionId w
  then
    match Baileys.remove_dir sessionId t w with
    | (w1, Throws msg) => (w1, Reply (res_status_json 500 (error_body msg)))
    | (w1, Returns _) => (w1, Reply Baileys.destroyed)
    end
  else Baileys.delete_session sessionId t w.

(** GET /sessions/:id/status (lines 317-331).  [isAuthenticated] and [user]
    are undefined and left out by [JSON.stringify]. *)
Definition inherited_status : Response :=
  res_json (JObj [("qrAvailable", JBool false);
                  ("messageCount", JNum 0);
                  ("status", JStr "waiting_qr")]).

Definition get_status (sessionId : string) (w : Baileys.World) : Output :=
  if falls_through sessionId w then Reply inherited_status
  else Baileys.get_status sessionId w.

(** GET /sessions/:id/qr (lines 181-220): neither authenticated nor holding
    a code, the member is polled. *)
Definition get_qr (sessionId : string) (w : Baileys.World) : Output :=
  if falls_through sessionId w then Deferred else Baileys.get_qr sessionId w.

(** POST /sessions/:id/send-message (lines 223-256). *)
Definition post_send_message (sessionId : string) (number message : option string)
    (sent : Result string) (now : Z) (w : Baileys.World) : Baileys.World * Output :=
  if falls_through sessionId w then (w, Reply not_authenticated)
  else Baileys.post_send_message sessionId number message sent now w.

(** GET /sessions/:id/messages (lines 302-314). *)
Definition inherited_messages : Response :=
  res_json (JObj [("success", JBool true); ("count", JNum 0); ("messages", JArr [])]).

Definition get_messages (sessionId : string) (w : Baileys.World) : Output :=
  if falls_through sessionId w then Reply inherited_messages
  else Baileys.get_messages sessionId w.

(** POST /sessions/start (lines 136-164) in two parts.  The first runs to
    [await startWhatsAppSession(sessionId)], whose body waits for the
    credentials and the version before it creates the socket: the id is
    refused or registered, and the request is left unanswered. *)
Definition start_suspended (requested : option string) (now : Z)
    (w : Baileys.World) : Baileys.World * Output :=
  let sessionId := resolve_id requested now in
  let refused := (w, Reply (res_status_json 400 (error_body "Sessão já existe"))) in
  match Baileys.sessions w !! sessionId with
  | Some _ => refused
  | None =>
      if inherited sessionId then refused
      else (Baileys.with_sessions (insert sessionId Baileys.new_session) w, Deferred)
  end.

(** The second part runs when the awaited calls have settled, in the world
    the handlers that ran in between have left: lines 152-163. *)
Definition start_resumed (sessionId : string) (startup : Result unit)
    (w : Baileys.World) : Baileys.World * Output :=
  let failed (w' : Baileys.World) (msg : string) :=
    (Baileys.with_sessions (delete sessionId) w',
     Reply (res_status_json 500 (error_body msg))) in
  match Baileys.startWhatsAppSession sessionId startup w with
  | (w2, Returns s) =>
      match Baileys.assign sessionId
              (λ x, {| Baileys.isAuthenticated := Baileys.isAuthenticated x;
                       Baileys.qrCode := Baileys.qrCode x;
                       Baileys.messages := Baileys.messages x;
                       Baileys.user := Baileys.user x;
                       Baileys.sock := Some s |}) w2 with
      | Returns w3 =>
          (w3, Reply (res_json (JObj
             [("success", JBool true);
              ("sessionId", JStr sessionId);
              ("message", JStr "Sessão iniciada. Use /sessions/[id]/qr para obter QR Code")])))
      | Throws msg => failed w2 msg
      end
  | (w2, Throws msg) => failed w2 msg
  end.

(** POST /sessions/start (lines 136-164) when nothing overtakes it: an id
    that names an inherited member is refused like a registered one. *)
Definition post_start (requested : option string) (now : Z)
    (startup : Result unit) (w : Baileys.World) : Baileys.World * Output :=
  if falls_through (resolve_id requested now) w
  then (w, Reply (res_status_json 400 (error_body "Sessão já existe")))
  else Baileys.post_start requested now startup w.

(** The requests and events of [Baileys.step], the lookup through the
    object.  POST /sessions/:id/restore and the two socket handlers are
    those of [Baileys.step]: they are faithful for an id that names no
    inherited member, and a restore request for one that does is set apart
    by [taints]. *)
Definition step (w : Baileys.World) (i : Baileys.Input) : Baileys.World * Output :=
  match i with
  | Baileys.PostStart requested now startup => post_start requested now startup w
  | Baileys.GetQr id => (w, get_qr id w)
  | Baileys.PostSendMessage id number message sent now =>
      post_send_message id number message sent now w
  | Baileys.GetMessages id => (w, get_messages id w)
  | Baileys.GetStatus id => (w, get_status id w)
  | Baileys.DeleteSession id t => delete_session id t w
  | Baileys.PostRestore _ _ _
  | Baileys.ConnectionUpdated _ _ _ _ _
  | Baileys.MessagesUpserted _ _ => Baileys.step w i
  end.

(** What happens to the server: a request or event handled without
    interruption, or one of the two parts of a start request.  A resumption
    belongs to an earlier suspension of the same id. *)
Inductive Event : Type :=
| Handle (i : Baileys.Input)
| StartSuspended (requested : option string) (now : Z)
| StartResumed (sessionId : string) (startup : Result unit).

Definition react (w : Baileys.World) (e : Event) : Baileys.World * Output :=
  match e with
  | Handle i => step w i
  | StartSuspended requested now => start_suspended requested now w
  | StartResumed sessionId startup => start_resumed sessionId startup w
  end.

Definition run (w : Baileys.World) (events : list Event) : Baileys.World :=
  foldl (λ w e, (react w e).1) w events.

(** The event is or opens a start request for [id]. *)
Definition registers (id : string) (e : Event) : Prop :=
  match e with
  | Handle (Baileys.PostStart requested now _) => resolve_id requested now = id
  | Handle _ => False
  | StartSuspended requested now => resolve_id requested now = id
  | StartResumed _ _ => False
  end.

(** The event is a restore request for an id that names an inherited
    member.  It passes the lookup and assigns [sock], [isAuthenticated] and
    [qrCode] to that member, for [__proto__] to the prototype of every
    object; from then on a lookup finds more than [falls_through] says. *)
Definition taints (e : Event) : Prop :=
  match e with
  | Handle (Baileys.PostRestore sessionId _ _) => inherited sessionId = true
  | _ => False
  end.

End BaileysObject.

(** ** src/unnamed/part_000, the Render Free variant *)
Module RenderObject.

(** [sessions[sessionId]] is an inherited member, none of whose session
    fields is defined (see [BaileysObject.falls_through]; here it is
    POST /sessions/:id/restore that would assign them). *)
Definition falls_through (sessionId : string) (w : Render.World) : bool :=
  match Render.sessions w !! sessionId with
  | Some _ => false
  | None => inherited sessionId
  end.

(** DELETE /sessions/:id (lines 446-463): [.client] is undefined and
    [delete sessions[sessionId]] finds no key to remove. *)
Definition delete_session (sessionId : string) (destroyed : Result unit)
    (w : Render.World) : Render.World * Output :=
  if falls_through sessionId w then (w, Reply Render.destroyed_reply)
  else Render.delete_session sessionId destroyed w.

(** GET /sessions/:id/status (lines 389-408).  [isAuthenticated] is
    undefined and left out by [JSON.stringify]. *)
Definition inherited_status : Response :=
  res_json (JObj
    [("connected", JBool false);
     ("qrAvailable", JBool false);
     ("messageCount", JNum 0);
     ("simulated", JBool false);
     ("status", JStr "connecting");
     ("note", JStr "Sessão real (pode não funcionar no Render Free)")]).

Definition get_status (sessionId : string) (w : Render.World) : Output :=
  if falls_through sessionId w then Reply inherited_status
  else Render.get_status sessionId w.

(** GET /sessions/:id/qr (lines 213-258). *)
Definition get_qr (sessionId : string) (w : Render.World) : Output :=
  if falls_through sessionId w then Deferred else Render.get_qr sessionId w.

(** POST /sessions/:id/send-message (lines 261-310). *)
Definition post_send_message (sessionId : string) (number message : option string)
    (env : Render.SendEnv) (w : Render.World) : Render.World * Output :=
  if falls_through sessionId w
  then
    if negb (truthy number) || negb (truthy message)
    then (w, Reply missing_fields)
    else (w, Reply not_authenticated)
  else Render.post_send_message sessionId number message env w.

(** GET /sessions/:id/messages (lines 349-386). *)
Definition inherited_messages : Response :=
  res_json (JObj [("success", JBool true);
                  ("simulated", JBool false);
                  ("count", JNum 0);
                  ("messages", JArr [])]).

Definition get_messages (sessionId : string) (now : Z) (w : Render.World)
    : Render.World * Output :=
  if falls_through sessionId w then (w, Reply inherited_messages)
  else Render.get_messages sessionId now w.

(** The two replies of POST /sessions/start (lines 182-194). *)
Definition started_reply (sessionId : string) : Response :=
  res_json (JObj
    [("success", JBool true);
     ("sessionId", JStr sessionId);
     ("message", JStr "Sessão iniciada. Use /sessions/[id]/qr para obter QR Code");
     ("note", JStr "No Render Free, o WhatsApp pode ter funcionalidade limitada")]).

Definition start_failed (msg : string) : Response :=
  res_status_json 500 (JObj
    [("success", JBool false);
     ("error", JStr msg);
     ("note", JStr "Para uso completo, considere um servidor com suporte a Chrome")]).

(** POST /sessions/start in two parts.  The first runs to
    [await client.initialize()] (lines 169-180 and 32-131) with a client
    that could be constructed: the id is answered as existing, or registered
    with its client and the request left unanswered. *)
Definition start_suspended (requested : option string) (now : Z)
    (w : Render.World) : Render.World * Output :=
  let sessionId := resolve_id requested now in
  match Render.sessions w !! sessionId with
  | Some _ => (w, Reply (Render.existing_reply sessionId))
  | None =>
      if inherited sessionId then (w, Reply (Render.existing_reply sessionId))
      else
        let c := Render.next_client w in
        (Render.mkWorld (<[sessionId := Render.real_session c]> (Render.sessions w))
           (S c) (Render.timers w)
           (Render.effects w
            ++ [Render.ClientCreated sessionId c; Render.ClientInitialize c]),
         Deferred)
  end.

(** The second part runs when the promise of [client.initialize()] has
    settled, in the world the handlers that ran in between have left: the
    client is returned (line 133), or the [catch] block registers a
    simulated session under the id (lines 135-163); then the reply. *)
Definition start_resumed (sessionId : string) (env : Render.Startup)
    (w : Render.World) : Render.World * Output :=
  match Render.initialized env with
  | Returns _ => (w, Reply (started_reply sessionId))
  | Throws _ =>
      match Render.simulate sessionId env w with
      | (w', Returns _) => (w', Reply (started_reply sessionId))
      | (w', Throws msg) => (w', Reply (start_failed msg))
      end
  end.

(** POST /sessions/start (lines 167-196) when nothing overtakes it: an id
    that names an inherited member is answered as existing. *)
Definition post_start (requested : option string) (env : Render.Startup)
    (w : Render.World) : Render.World * Output :=
  let sessionId := resolve_id requested (Render.now env) in
  if falls_through sessionId w then (w, Reply (Render.existing_reply sessionId))
  else Render.post_start requested env w.

(** The requests, events and timers of [Render.step], the lookup through
    the object.  POST /sessions/:id/restore, the client handlers and the
    timers are those of [Render.step]: they are faithful for an id that
    names no inherited member, and a restore request for one that does is
    set apart by [taints]. *)
Definition step (w : Render.World) (i : Render.Input) : Render.World * Output :=
  match i with
  | Render.PostStart requested env => post_start requested env w
  | Render.GetQr id => (w, get_qr id w)
  | Render.PostSendMessage id number message env =>
      post_send_message id number message env w
  | Render.GetMessages id now => get_messages id now w
  | Render.GetStatus id => (w, get_status id w)
  | Render.DeleteSession id destroyed => delete_session id destroyed w
  | Render.PostRestore _ _
  | Render.QrReceived _ _ _
  | Render.Ready _
  | Render.Authenticated _
  | Render.MessageReceived _ _ _
  | Render.Disconnected _ _
  | Render.TimerFired _ => Render.step w i
  end.

(** What happens to the server: a request, event or timer handled without
    interruption, or one of the two parts of a start request.  A resumption
    belongs to an earlier suspension of the same id. *)
Inductive Event : Type :=
| Handle (i : Render.Input)
| StartSuspended (requested : option string) (now : Z)
| StartResumed (sessionId : string) (env : Render.Startup).

Definition react (w : Render.World) (e : Event) : Render.World * Output :=
  match e with
  | Handle i => step w i
  | StartSuspended requested now => start_suspended requested now w
  | StartResumed sessionId env => start_resumed sessionId env w
  end.

Definition run (w : Render.World) (events : list Event) : Render.World :=
  foldl (λ w e, (react w e).1) w events.

(** The event is or opens a start request for [id], or resumes one. *)
Definition registers (id : string) (e : Event) : Prop :=
  match e with
  | Handle (Render.PostStart requested env) => resolve_id requested (Render.now env) = id
  | Handle _ => False
  | StartSuspended requested now => resolve_id requested now = id
  | StartResumed sessionId _ => sessionId = id
  end.

(** The event is a restore request for an id that names an inherited
    member.  It passes the lookup and assigns [isAuthenticated], [qrCode]
    and [connected] to that member, for [__proto__] to the prototype of
    every object. *)
Definition taints (e : Event) : Prop :=
  match e with
  | Handle (Render.PostRestore sessionId _) => inherited sessionId = true
  | _ => False
  end.

End RenderObject.

(** * Vocabulary of the statements *)

(** A property of sessions holds of every registered session. *)
Definition Baileys_all (P : Baileys.Session → Prop) (w : Baileys.World) : Prop :=
  map_Forall (λ _, P) (Baileys.sessions w).

Definition Render_all (P : Render.Session → Prop) (w : Render.World) : Prop :=
  map_Forall (λ _, P) (Render.sessions w).

(** The messages a sequence of 'messages.upsert' events appends: one per
    event whose first message has content. *)
Definition Baileys_appended (ms : list Baileys.WAMessage) : list Baileys.MessageData :=
  omap (λ m, Baileys.messageData_of m <$> Baileys.message m) ms.

Definition Baileys_upserts (id : string) (ms : list Baileys.WAMessage)
    : list Baileys.Input :=
  (λ m, Baileys.MessagesUpserted id [m]) <$> ms.

Definition Render_appended (ms : list (Render.Message * Result Render.Media))
    : list Render.MessageData :=
  (λ m, Render.messageData_of m.1 m.2) <$> ms.

Definition Render_messages (id : string)
    (ms : list (Render.Message * Result Render.Media)) : list Render.Input :=
  (λ m, Render.MessageReceived id m.1 m.2) <$> ms.

Definition within_100 {A : Type} (field : option (list A)) : Prop :=
  message_count field ≤ 100.

(** Concrete runs: a start with a working browser, a start without one (the
    simulated fallback), a start of the Baileys socket, 101 text messages. *)
Definition chrome_ok : Render.Startup :=
  Render.mkStartup (Returns ()) (Returns ()) 1700000000000 "k3j9x0q1z"
    (Returns "data:image/png;base64,AAAA").

Definition chrome_missing : Render.Startup :=
  Render.mkStartup (Returns ()) (Throws "Failed to launch the browser process")
    1700000000000 "k3j9x0q1z" (Returns "data:image/png;base64,AAAA").


Definition text_message (n : nat) : Render.Message * Result Render.Media :=
  (Render.mkMessage ("m" +:+ pretty n) "5511999999999@c.us" "me" "oi"
     (1700000000 + Z.of_nat n) false "chat",
   Throws "no media").

Definition hundred_and_one : list (Render.Message * Result Render.Media) :=
  text_message <$> seq 0 101.

Definition Render_started : Render.World :=
  Render.run Render.initial [Render.PostStart (Some "s1") chrome_ok].

Definition Render_fallback : Render.World :=
  Render.run Render.initial [Render.PostStart (Some "s1") chrome_missing].

Definition Baileys_started : Baileys.World :=
  Baileys.run Baileys.initial [Baileys.PostStart (Some "s1") 1700000000000 (Returns ())].

(** The id of the oldest message a session still holds. *)
Definition Render_oldest (id : string) (w : Render.World) : option string :=
  match Render.sessions w !! id with
  | Some s => Render.md_id <$> head (default [] (Render.messages s))
  | None => None
  end.

(** What GET /sessions/:id/status shows of a session. *)
Definition Render_flags (id : string) (w : Render.World) : option (bool * bool) :=
  (λ s, (Render.isAuthenticated s, truthy (Render.qrCode s))) <$> Render.sessions w !! id.

(** The outcome of the teardown calls DELETE /sessions/:id makes for session
    [s]: [sock.end()] when there is a socket, then the removal of the
    session directory when it exists. *)
Definition Baileys_teardown (s : Baileys.Session) (t : Baileys.Teardown) : Result unit :=
  match Baileys.sock s, Baileys.sock_end t with
  | Some _, Throws msg => Throws msg
  | _, _ => if Baileys.dir_exists t then Baileys.rm_dir t else Returns ()
  end.

(** [client.destroy()] when there is a client. *)
Definition Render_teardown (s : Render.Session) (destroyed : Result unit) : Result unit :=
  match Render.client s with
  | Some _ => destroyed
  | None => Returns ()
  end.

(** The only input that registers [id] is a start request that resolves to it. *)
Definition Baileys_starts (id : string) (i : Baileys.Input) : Prop :=
  match i with
  | Baileys.PostStart requested now _ => resolve_id requested now = id
  | _ => False
  end.

Definition Render_starts (id : string) (i : Render.Input) : Prop :=
  match i with
  | Render.PostStart requested env => resolve_id requested (Render.now env) = id
  | _ => False
  end.

Definition send_env : Render.SendEnv :=
  Render.mkSendEnv (Returns ("true_5511999999999@c.us_3EB0", 1700000100%Z))
    1700000100000 "q7w8e9r0t".

Definition Render_count (id : string) (w : Render.World) : option nat :=
  (λ s, message_count (Render.messages s)) <$> Render.sessions w !! id.

Definition Baileys_count (id : string) (w : Baileys.World) : option nat :=
  (λ s, message_count (Baileys.messages s)) <$> Baileys.sessions w !! id.

Definition hello : Baileys.WAMessage :=
  Baileys.mkWAMessage "3EB0C7" "5511999999999@s.whatsapp.net" (Some "Ana") 1700000000
    (Some (Baileys.mkContent (Some "conversation") (Some "oi") None None None None)).

(** A started Baileys session that received a QR code and was then paired. *)
Definition Baileys_paired : Baileys.World :=
  Baileys.run Baileys_started
    [Baileys.ConnectionUpdated "s1" (Baileys.mkUpdate None None (Some "2@Zx81"))
       None (Returns ()) Baileys.teardown_ok;
     Baileys.ConnectionUpdated "s1" (Baileys.mkUpdate (Some Baileys.ConnOpen) None None)
       (Some (Baileys.mkUser "5511999999999:1@s.whatsapp.net" (Some "Ana")))
       (Returns ()) Baileys.teardown_ok].

(** The effects a step adds to the log. *)
Definition Baileys_new_effects (w : Baileys.World) (i : Baileys.Input)
    : list Baileys.Effect :=
  drop (length (Baileys.effects w)) (Baileys.effects (Baileys.step w i).1).

Definition Render_new_effects (w : Render.World) (i : Render.Input)
    : list Render.Effect :=
  drop (length (Render.effects w)) (Render.effects (Render.step w i).1).

(** An effect that is not a text handed to the socket. *)
Definition Baileys_quiet (e : Baileys.Effect) : Prop :=
  match e with Baileys.SendMessage _ _ _ => False | _ => True end.

(** [w'] logs what [w] logged, followed by effects that are no sends. *)
Definition Baileys_adds_quiet (w w' : Baileys.World) : Prop :=
  ∃ new, Baileys.effects w' = Baileys.effects w ++ new ∧ Forall Baileys_quiet new.

(** The string holds no comma. *)
Definition no_comma (s : string) : Prop :=
  Forall (λ c, c ≠ ","%char) (String.list_ascii_of_string s).

(** An effect that is not a text handed to the client. *)
Definition Render_quiet (e : Render.Effect) : Prop :=
  match e with Render.ClientSend _ _ _ => False | _ => True end.

(** [w'] logs what [w] logged, followed by effects that are no sends. *)
Definition Render_adds_quiet (w w' : Render.World) : Prop :=
  ∃ new, Render.effects w' = Render.effects w ++ new ∧ Forall Render_quiet new.

(** A session is simulated exactly when it has no client. *)
Definition Render_client_or_simulated (s : Render.Session) : Prop :=
  Render.client s = None ↔ Render.simulated s = true.

(** Every session of the second whatsapp-web.js program has a state entry
    whose [ready] flag equals its authenticated flag, and holds at most 100
    messages. *)
Definition Basic_consistent (w : Basic.World) : Prop :=
  ∀ id s, Basic.sessions w !! id = Some s →
    length (Basic.messages s) ≤ 100
    ∧ ∃ st, Basic.sessionStates w !! id = Some st
            ∧ Basic.ready st = Basic.isAuthenticated s.

(** A started session of that program, and the same after 'qr' and 'ready'. *)
Definition Basic_started : Basic.World :=
  Basic.run Basic.initial [Basic.PostStart (Some "s1") 1700000000000 (Returns ())].

Definition Basic_ready : Basic.World :=
  Basic.run Basic_started
    [Basic.QrReceived "s1" "2@Zx81" (Returns "data:image/png;base64,CCCC");
     Basic.Ready "s1" (Returns ())].

(** The output is a reply that is an error result. *)
Definition is_error_output (out : Output) : bool :=
  match out with
  | Reply r => is_error r
  | _ => false
  end.

(** * Properties *)

(** ** The message buffer *)
Section MessageRingFacts.
Context {A : Type}.
Implicit Types (arr xs : list A) (x : A).

Lemma slice_last_length k (arr : list A) :
  length (slice_last k arr) = min k (length arr).
Proof. unfold slice_last. rewrite length_drop. lia. Qed.

Lemma slice_last_short k (arr : list A) :
  length arr ≤ k → slice_last k arr = arr.
Proof.
  intros H. unfold slice_last.
  replace (length arr - k) with 0 by lia. apply drop_0.
Qed.

Lemma append_message_slice (arr : list A) x :
  append_message arr x = slice_last 100 (arr ++ [x]).
Proof.
  unfold append_message, push.
  destruct (100 <? length (arr ++ [x]))%nat eqn:E; [done|].
  apply Nat.ltb_ge in E. by rewrite slice_last_short.
Qed.

Lemma append_message_bound (arr : list A) x :
  length (append_message arr x) ≤ 100.
Proof. rewrite append_message_slice, slice_last_length. lia. Qed.

Lemma slice_last_app k (arr : list A) x :
  slice_last k (slice_last k arr ++ [x]) = slice_last k (arr ++ [x]).
Proof.
  unfold slice_last.
  destruct (decide (k = 0)) as [->|Hk].
  { rewrite !Nat.sub_0_r. by rewrite !drop_all. }
  destruct (decide (length arr ≤ k)) as [Hle|Hgt].
  - replace (length arr - k) with 0 by lia. by rewrite drop_0.
  - rewrite !length_app, length_drop. simpl.
    replace (length arr - (length arr - k) + 1 - k) with 1 by lia.
    replace (length arr + 1 - k) with (S (length arr - k)) by lia.
    rewrite (drop_app_le arr [x]) by lia.
    rewrite drop_app_le by (rewrite length_drop; lia).
    rewrite drop_drop. f_equal. f_equal. lia.
Qed.

End MessageRingFacts.

(** ** base64 on the RFC 4648 test strings *)
Example base64_Man : base64 "Man" = "TWFu".
Proof. reflexivity. Qed.

Example base64_Ma : base64 "Ma" = "TWE=".
Proof. reflexivity. Qed.

Example base64_M : base64 "M" = "TQ==".
Proof. reflexivity. Qed.

(** ** The polling interval *)
Lemma run_interval_silent qr_reply timeout_reply observed p :
  never_truthy observed →
  attempts p + length observed ≤ 30 →
  run_interval qr_reply timeout_reply observed p = [].
Proof.
  intros Hobs. revert p.
  induction Hobs as [|qr later Hqr _ IH]; intros p Hlen; [done|].
  simpl in *. destruct (cleared p); [done|].
  unfold interval_tick. rewrite Hqr. simpl.
  destruct (30 <? S (attempts p))%nat eqn:E.
  - apply Nat.ltb_lt in E. lia.
  - simpl. apply IH. simpl. lia.
Qed.

Lemma run_interval_timeout qr_reply timeout_reply observed :
  never_truthy observed →
  30 < length observed →
  run_interval qr_reply timeout_reply observed poll_start = [timeout_reply].
Proof.
  intros Hobs Hlen.
  rewrite <- (take_drop 30 observed) in Hobs |- *.
  apply Forall_app in Hobs as [Hfirst Hrest].
  assert (Hgen : ∀ (pre : list (option string)) p post,
    never_truthy pre → cleared p = false → attempts p + length pre = 30 →
    never_truthy post → post ≠ [] →
    run_interval qr_reply timeout_reply (pre ++ post) p = [timeout_reply]).
  { clear. intros pre. induction pre as [|qr pre IH]; intros p post Hpre Hc Hn Hpost Hne.
    - destruct post as [|qr post]; [done|]. simpl in *.
      rewrite Hc. unfold interval_tick.
      apply Forall_cons in Hpost as [Hqr _]. rewrite Hqr. simpl.
      replace (30 <? S (attempts p))%nat with true
        by (symmetry; apply Nat.ltb_lt; lia).
      simpl. by destruct post.
    - apply Forall_cons in Hpre as [Hqr Hpre]. simpl in *.
      rewrite Hc. unfold interval_tick. rewrite Hqr. simpl.
      replace (30 <? S (attempts p))%nat with false
        by (symmetry; apply Nat.ltb_ge; lia).
      simpl. apply IH; simpl; [done | by rewrite Hc | lia | done | done]. }
  apply Hgen; try done.
  - rewrite length_take. unfold poll_start. cbn [attempts]. lia.
  - intros Hnil. apply (f_equal length) in Hnil.
    rewrite length_drop in Hnil. simpl in Hnil. lia.
Qed.

Lemma append_all_last_100 {A : Type} (xs arr : list A) :
  xs ≠ [] → append_all arr xs = slice_last 100 (arr ++ xs).
Proof.
  unfold append_all.
  induction xs as [|x xs IH] using rev_ind; intros Hne; [done|].
  rewrite foldl_app. simpl.
  destruct (decide (xs = [])) as [->|Hxs].
  - simpl. apply append_message_slice.
  - rewrite IH by done.
    rewrite append_message_slice, slice_last_app. by rewrite app_assoc.
Qed.

Lemma slice_last_app_long {A : Type} k (arr xs : list A) :
  k ≤ length xs → slice_last k (arr ++ xs) = slice_last k xs.
Proof.
  intros Hk. unfold slice_last. rewrite length_app.
  replace (length arr + length xs - k) with (length arr + (length xs - k)) by lia.
  by rewrite drop_app_add.
Qed.

(** Appending more than 100 messages to any buffer leaves exactly the last
    100 of them, in the order of insertion. *)
Lemma append_all_retains {A : Type} (xs arr : list A) :
  100 < length xs → append_all arr xs = slice_last 100 xs.
Proof.
  intros Hlen. rewrite append_all_last_100.
  - apply slice_last_app_long. lia.
  - intros ->. simpl in Hlen. lia.
Qed.

(** ** Invariants of the Baileys program *)
Section BaileysInvariants.
Import Baileys.
Variable P : Session → Prop.

Hypothesis P_new : P new_session.
Hypothesis P_qr : ∀ s code,
  P s → P (mkSession false (Some code) (messages s) (user s) (sock s)).
Hypothesis P_open : ∀ s u,
  P s → P (mkSession true None (messages s) u (sock s)).
Hypothesis P_sock : ∀ s sk,
  P s → P (mkSession (isAuthenticated s) (qrCode s) (messages s) (user s) (Some sk)).
Hypothesis P_restore : ∀ s sk,
  P s → P (mkSession false None (messages s) (user s) (Some sk)).
Hypothesis P_message : ∀ s d,
  P s → P (mkSession (isAuthenticated s) (qrCode s)
             (store_message (messages s) d) (user s) (sock s)).

Lemma Baileys_all_insert id s w :
  P s → Baileys_all P w → Baileys_all P (with_sessions (insert id s) w).
Proof. intros Hs Hw. by apply map_Forall_insert_2. Qed.

Lemma Baileys_all_delete id w :
  Baileys_all P w → Baileys_all P (with_sessions (delete id) w).
Proof. intros Hw. by apply map_Forall_delete. Qed.

Lemma Baileys_all_assign id f w w' :
  (∀ s, P s → P (f s)) →
  Baileys_all P w → assign id f w = Returns w' → Baileys_all P w'.
Proof.
  intros Hf Hw. unfold assign.
  destruct (sessions w !! id) as [s|] eqn:E; [|done].
  intros [= <-]. apply Baileys_all_insert; [|done].
  apply Hf. by apply (Hw id s).
Qed.

Lemma Baileys_all_start id startup w :
  Baileys_all P w → Baileys_all P (startWhatsAppSession id startup w).1.
Proof. by destruct startup. Qed.

Lemma Baileys_all_remove_dir id t w :
  Baileys_all P w → Baileys_all P (remove_dir id t w).1.
Proof. unfold remove_dir. by destruct (dir_exists t). Qed.

Lemma Baileys_all_end_sock s t w :
  Baileys_all P w → Baileys_all P (end_sock s t w).1.
Proof. unfold end_sock. by destruct (sock s). Qed.

Lemma Baileys_all_step w i :
  Baileys_all P w → Baileys_all P (step w i).1.
Proof.
  intros Hw.
  destruct i as [requested now startup | sessionId | sessionId number text sent now
    | sessionId | sessionId | sessionId t startup | sessionId t
    | sessionId u sock_user restart t | sessionId m]; simpl; try done.
  - (* POST /sessions/start *)
    unfold post_start.
    destruct (sessions w !! resolve_id requested now) eqn:E; [done|].
    set (w1 := with_sessions (insert _ new_session) w).
    assert (H1 : Baileys_all P w1) by by apply Baileys_all_insert.
    pose proof (Baileys_all_start (resolve_id requested now) startup w1 H1) as H2.
    destruct (startWhatsAppSession _ startup w1) as [w2 [sk|msg]]; simpl in H2.
    + destruct (assign _ _ w2) as [w3|msg] eqn:Ha; simpl.
      * eapply Baileys_all_assign; [|exact H2|exact Ha]. intros s. apply P_sock.
      * by apply Baileys_all_delete.
    + by apply Baileys_all_delete.
  - (* POST /sessions/:id/send-message *)
    unfold post_send_message.
    destruct (sessions w !! sessionId) as [s|]; [|done].
    destruct (negb (isAuthenticated s)); [done|].
    destruct (negb (truthy number) || negb (truthy text)); [done|].
    destruct (sock s); [|done]. by destruct sent.
  - (* POST /sessions/:id/restore *)
    unfold post_restore.
    destruct (sessions w !! sessionId) as [s|]; [|done].
    pose proof (Baileys_all_end_sock s t w Hw) as H1.
    destruct (end_sock s t w) as [w1 [[]|msg]]; simpl in H1; [|done].
    pose proof (Baileys_all_start sessionId startup w1 H1) as H2.
    destruct (startWhatsAppSession sessionId startup w1) as [w2 [sk|msg]];
      simpl in H2; [|done].
    destruct (assign _ _ w2) as [w3|msg] eqn:Ha; simpl; [|done].
    eapply Baileys_all_assign; [|exact H2|exact Ha]. intros s0. apply P_restore.
  - (* DELETE /sessions/:id *)
    unfold delete_session.
    destruct (sessions w !! sessionId) as [s|]; [|done].
    pose proof (Baileys_all_end_sock s t w Hw) as H1.
    destruct (end_sock s t w) as [w1 [[]|msg]]; simpl in H1; [|done].
    pose proof (Baileys_all_remove_dir sessionId t w1 H1) as H2.
    destruct (remove_dir sessionId t w1) as [w2 [[]|msg]]; simpl in H2; [|done].
    by apply Baileys_all_delete.
  - (* 'connection.update' *)
    unfold connection_update.
    destruct (on_qr sessionId u w) as [w1|e] eqn:Hq; [|done].
    assert (H1 : Baileys_all P w1).
    { unfold on_qr in Hq. destruct (truthy (qr u)).
      - eapply Baileys_all_assign; [|exact Hw|exact Hq]. intros s. apply P_qr.
      - by injection Hq as <-. }
    destruct (on_open sessionId u sock_user w1) as [w2|e] eqn:Ho; [|done].
    assert (H2 : Baileys_all P w2).
    { unfold on_open in Ho. destruct (connection u) as [[]|];
        try by injection Ho as <-.
      eapply Baileys_all_assign; [|exact H1|exact Ho]. intros s. apply P_open. }
    assert (H3 : Baileys_all P (on_close sessionId u restart t w2).1).
    { unfold on_close. destruct (connection u) as [[]|]; try done.
      destruct (negb _); simpl.
      - by apply Baileys_all_start.
      - apply Baileys_all_remove_dir. by apply Baileys_all_delete. }
    by destruct (on_close sessionId u restart t w2) as [w3 [[]|e]].
  - (* 'messages.upsert' *)
    unfold messages_upsert.
    destruct m as [|msg rest]; [done|].
    destruct (message msg) as [c|]; [|done].
    destruct (assign _ _ w) as [w'|e] eqn:Ha; simpl; [|done].
    eapply Baileys_all_assign; [|exact Hw|exact Ha]. intros s. apply P_message.
Qed.

Lemma Baileys_all_run inputs w :
  Baileys_all P w → Baileys_all P (run w inputs).
Proof.
  revert w. induction inputs as [|i inputs IH]; intros w Hw; [done|].
  simpl. apply IH. by apply Baileys_all_step.
Qed.

Lemma Baileys_all_reachable w : reachable w → Baileys_all P w.
Proof.
  intros [inputs ->]. apply Baileys_all_run.
  unfold Baileys_all. simpl. apply map_Forall_empty.
Qed.
End BaileysInvariants.

(** ** Invariants of the Render program that do not depend on the flags *)
Section RenderInvariants.
Import Render.
Variable P : Session → Prop.

Hypothesis P_real : ∀ c, P (real_session c).
Hypothesis P_simulated : P simulated_session.
Hypothesis P_set_qr : ∀ s code raw, P s → P (set_qr code raw s).
Hypothesis P_set_flags : ∀ s auth conn code, P s → P (set_flags auth conn code s).
Hypothesis P_store : ∀ s d,
  P s → P (set_messages (store_message (messages s) d) s).
Hypothesis P_examples : ∀ s now,
  P s → P (set_messages (Some (example_messages now)) s).

Lemma Render_all_insert id s w :
  P s → Render_all P w → Render_all P (with_sessions (insert id s) w).
Proof. intros Hs Hw. by apply map_Forall_insert_2. Qed.

Lemma Render_all_delete id w :
  Render_all P w → Render_all P (with_sessions (delete id) w).
Proof. intros Hw. by apply map_Forall_delete. Qed.

Lemma Render_all_assign id f w w' :
  (∀ s, P s → P (f s)) →
  Render_all P w → assign id f w = Returns w' → Render_all P w'.
Proof.
  intros Hf Hw. unfold assign.
  destruct (sessions w !! id) as [s|] eqn:E; [|done].
  intros [= <-]. apply Render_all_insert; [|done].
  apply Hf. by apply (Hw id s).
Qed.

Lemma Render_all_simulate id env w :
  Render_all P w → Render_all P (simulate id env w).1.
Proof.
  intros Hw. unfold simulate.
  set (w1 := with_sessions (insert id simulated_session) w).
  assert (H1 : Render_all P w1) by by apply Render_all_insert.
  destruct (testQRDataURL env) as [code|e]; [|done].
  destruct (assign id _ w1) as [w2|e] eqn:Ha; [|done].
  simpl. eapply (Render_all_assign id _ w1 w2); [|done|exact Ha].
  intros s. apply P_set_qr.
Qed.

Lemma Render_all_start id env w :
  Render_all P w → Render_all P (startWhatsAppSession id env w).1.
Proof.
  intros Hw. unfold startWhatsAppSession.
  destruct (created env); [|by apply Render_all_simulate].
  destruct (initialized env).
  - simpl. by apply map_Forall_insert_2.
  - apply Render_all_simulate. by apply map_Forall_insert_2.
Qed.

Lemma Render_all_fire t w : Render_all P w → Render_all P (fire t w).1.
Proof.
  intros Hw. destruct t as [id|id c|id]; simpl.
  - destruct (sessions w !! id) as [s|] eqn:E; [|done].
    destruct (simulated s); [|done].
    simpl. apply Render_all_insert; [|done].
    apply P_set_flags. by apply (Hw id s).
  - by destruct (sessions w !! id).
  - destruct (sessions w !! id) as [s|]; [|done]. by destruct (client s).
Qed.

Lemma Render_all_step w i :
  Render_all P w → Render_all P (step w i).1.
Proof.
  intros Hw.
  destruct i as [requested env | sessionId | sessionId number text env
    | sessionId now | sessionId | sessionId destroyed | sessionId destroyed
    | sessionId qr dataURL | sessionId | sessionId | sessionId msg downloaded
    | sessionId c | t]; simpl; try done.
  - (* POST /sessions/start *)
    unfold post_start.
    destruct (sessions w !! resolve_id requested (now env)); [done|].
    pose proof (Render_all_start (resolve_id requested (now env)) env w Hw) as H.
    by destruct (startWhatsAppSession _ env w) as [w' [c|msg]].
  - (* POST /sessions/:id/send-message *)
    unfold post_send_message.
    destruct (sessions w !! sessionId) as [s|]; [|done].
    destruct (negb (truthy number) || negb (truthy text)); [done|].
    destruct (simulated s); [done|].
    destruct (negb (isAuthenticated s)); [done|].
    destruct (client s); [|done]. by destruct (sent env) as [[]|].
  - (* GET /sessions/:id/messages *)
    unfold get_messages.
    destruct (sessions w !! sessionId) as [s|] eqn:E; [|done].
    destruct (simulated s && no_messages (messages s)); [|done].
    simpl. apply Render_all_insert; [|done].
    apply P_examples. by apply (Hw sessionId s).
  - (* POST /sessions/:id/restore *)
    unfold post_restore.
    destruct (sessions w !! sessionId) as [s|] eqn:E; [|done].
    assert (H1 : Render_all P
               (with_sessions (insert sessionId (set_flags false false None s)) w)).
    { apply Render_all_insert; [|done]. apply P_set_flags. by apply (Hw sessionId s). }
    simpl. destruct (client s); [|done]. by destruct destroyed.
  - (* DELETE /sessions/:id *)
    unfold delete_session.
    destruct (sessions w !! sessionId) as [s|]; [|done].
    destruct (client s).
    + destruct destroyed; [|done]. by apply Render_all_delete.
    + by apply Render_all_delete.
  - (* 'qr' *)
    unfold on_qr. destruct dataURL as [code|e]; [|done].
    destruct (assign _ _ w) as [w'|e] eqn:Ha; [|done].
    simpl. eapply Render_all_assign; [|exact Hw|exact Ha].
    intros s. apply P_set_qr.
  - (* 'ready' *)
    unfold on_ready.
    destruct (assign _ _ w) as [w'|e] eqn:Ha; [|done].
    simpl. eapply Render_all_assign; [|exact Hw|exact Ha].
    intros s. apply P_set_flags.
  - (* 'authenticated' *)
    unfold on_authenticated.
    destruct (assign _ _ w) as [w'|e] eqn:Ha; [|done].
    simpl. eapply Render_all_assign; [|exact Hw|exact Ha].
    intros s. apply P_set_flags.
  - (* 'message' *)
    unfold on_message.
    destruct (assign _ _ w) as [w'|e] eqn:Ha; [|done].
    simpl. eapply Render_all_assign; [|exact Hw|exact Ha].
    intros s. apply P_store.
  - (* 'disconnected' *)
    unfold on_disconnected.
    destruct (assign _ _ w) as [w'|e] eqn:Ha; [|done].
    simpl. change (Render_all P w').
    eapply Render_all_assign; [|exact Hw|exact Ha].
    intros s. apply P_set_flags.
  - (* timers *)
    unfold timer_fired. destruct (decide (t ∈ timers w)); [|done].
    by apply Render_all_fire.
Qed.

Lemma Render_all_run inputs w :
  Render_all P w → Render_all P (run w inputs).
Proof.
  revert w. induction inputs as [|i inputs IH]; intros w Hw; [done|].
  simpl. apply IH. by apply Render_all_step.
Qed.

Lemma Render_all_reachable w : reachable w → Render_all P w.
Proof.
  intros [inputs ->]. apply Render_all_run.
  unfold Render_all. simpl. apply map_Forall_empty.
Qed.
End RenderInvariants.

(** ** Inbound messages *)

Lemma store_all_some {A : Type} (xs : list A) (arr : list A) :
  foldl store_message (Some arr) xs = Some (append_all arr xs).
Proof.
  revert arr. induction xs as [|x xs IH]; intros arr; [done|].
  simpl. apply IH.
Qed.

Lemma store_all {A : Type} (xs : list A) (field : option (list A)) :
  xs ≠ [] →
  foldl store_message field xs = Some (append_all (default [] field) xs).
Proof.
  destruct xs as [|x xs]; [done|]. intros _. simpl.
  unfold store_message at 2. apply store_all_some.
Qed.

Lemma Baileys_run_upserts id ms w s :
  Baileys.sessions w !! id = Some s →
  ∃ s', Baileys.sessions (Baileys.run w (Baileys_upserts id ms)) !! id = Some s'
        ∧ Baileys.messages s' =
            foldl store_message (Baileys.messages s) (Baileys_appended ms).
Proof.
  revert w s. induction ms as [|m ms IH]; intros w s Hs; [by exists s|].
  simpl. unfold Baileys_appended. simpl.
  destruct (Baileys.message m) as [c|] eqn:Hm; simpl.
  - unfold Baileys.assign. rewrite Hs. simpl.
    set (s1 := Baileys.mkSession (Baileys.isAuthenticated s) (Baileys.qrCode s)
                 (store_message (Baileys.messages s) (Baileys.messageData_of m c))
                 (Baileys.user s) (Baileys.sock s)).
    destruct (IH (Baileys.with_sessions (insert id s1) w) s1) as (s' & Hs' & Hms);
      [simpl; apply lookup_insert_eq|].
    exists s'. split; [exact Hs'|]. by rewrite Hms.
  - by apply IH.
Qed.

Lemma Render_run_messages id ms w s :
  Render.sessions w !! id = Some s →
  ∃ s', Render.sessions (Render.run w (Render_messages id ms)) !! id = Some s'
        ∧ Render.messages s' =
            foldl store_message (Render.messages s) (Render_appended ms).
Proof.
  revert w s. induction ms as [|m ms IH]; intros w s Hs; [by exists s|].
  simpl. unfold Render.on_message, Render.assign. rewrite Hs. simpl.
  set (s1 := Render.set_messages
               (store_message (Render.messages s) (Render.messageData_of m.1 m.2)) s).
  destruct (IH (Render.with_sessions (insert id s1) w) s1) as (s' & Hs' & Hms);
    [simpl; apply lookup_insert_eq|].
  exists s'. split; [exact Hs'|]. by rewrite Hms.
Qed.

Lemma Baileys_bounded w id s :
  Baileys.reachable w → Baileys.sessions w !! id = Some s →
  within_100 (Baileys.messages s).
Proof.
  intros Hw Hs.
  refine (Baileys_all_reachable (λ s, within_100 (Baileys.messages s))
            _ _ _ _ _ _ w Hw id s Hs); unfold within_100; simpl; try done.
  - lia.
  - intros. apply append_message_bound.
Qed.

Lemma Render_bounded w id s :
  Render.reachable w → Render.sessions w !! id = Some s →
  within_100 (Render.messages s).
Proof.
  intros Hw Hs.
  refine (Render_all_reachable (λ s, within_100 (Render.messages s))
            _ _ _ _ _ _ w Hw id s Hs); unfold within_100; simpl; try done.
  - lia.
  - lia.
  - intros. apply append_message_bound.
  - lia.
Qed.

(** C1. In every reachable state of either program each session holds at most
    100 messages; and whatever the buffer held before, once more than 100
    messages have been appended by inbound message events the buffer is
    exactly the last 100 of them in the order of arrival.  In particular 101
    messages appended to an empty buffer leave 100, the first of which is the
    second one inserted. *)
Theorem messages_bounded_and_last_100_retained :
  (∀ w id s, Baileys.reachable w → Baileys.sessions w !! id = Some s →
     message_count (Baileys.messages s) ≤ 100)
  ∧ (∀ w id s, Render.reachable w → Render.sessions w !! id = Some s →
     message_count (Render.messages s) ≤ 100)
  ∧ (∀ w id s ms, Baileys.sessions w !! id = Some s →
     100 < length (Baileys_appended ms) →
     Baileys.messages <$> Baileys.sessions (Baileys.run w (Baileys_upserts id ms)) !! id
     = Some (Some (slice_last 100 (Baileys_appended ms))))
  ∧ (∀ w id s ms, Render.sessions w !! id = Some s →
     100 < length (Render_appended ms) →
     Render.messages <$> Render.sessions (Render.run w (Render_messages id ms)) !! id
     = Some (Some (slice_last 100 (Render_appended ms))))
  ∧ (∀ (A : Type) (xs : list A), length xs = 101 →
     length (append_all [] xs) = 100 ∧ head (append_all [] xs) = xs !! 1).
Proof.
  split; [exact Baileys_bounded|].
  split; [exact Render_bounded|].
  split; [|split].
  - intros w id s ms Hs Hlen.
    destruct (Baileys_run_upserts id ms w s Hs) as (s' & -> & Hms).
    simpl. rewrite Hms, store_all by (intros E; rewrite E in Hlen; simpl in Hlen; lia).
    by rewrite append_all_retains.
  - intros w id s ms Hs Hlen.
    destruct (Render_run_messages id ms w s Hs) as (s' & -> & Hms).
    simpl. rewrite Hms, store_all by (intros E; rewrite E in Hlen; simpl in Hlen; lia).
    by rewrite append_all_retains.
  - intros A xs Hlen. rewrite append_all_retains by lia.
    rewrite slice_last_length. split; [lia|].
    unfold slice_last. rewrite Hlen. simpl.
    destruct xs as [|x0 [|x1 xs]]; done.
Qed.

Lemma Render_oldest_of id w arr :
  Render.messages <$> Render.sessions w !! id = Some (Some arr) →
  Render_oldest id w = Render.md_id <$> head arr.
Proof.
  unfold Render_oldest. destruct (Render.sessions w !! id) as [s|]; [|done].
  simpl. by intros [= ->].
Qed.

Lemma messages_bounded_and_last_100_retained_witness :
  message_count (Render.messages (Render.real_session 0)) ≤ 100
  ∧ Render_oldest "s1"
      (Render.run Render_started (Render_messages "s1" hundred_and_one))
    = Some "m1"
  ∧ head (append_all [] (seq 0 101)) = Some 1.
Proof.
  destruct messages_bounded_and_last_100_retained as (_ & Hbound & _ & Hlast & Hhead).
  split; [|split].
  - apply (Hbound Render_started "s1").
    + exists [Render.PostStart (Some "s1") chrome_ok]. reflexivity.
    + vm_compute. reflexivity.
  - assert (Hs : Render.sessions Render_started !! "s1" = Some (Render.real_session 0))
      by (vm_compute; reflexivity).
    assert (Hlen : 100 < length (Render_appended hundred_and_one))
      by (vm_compute; lia).
    rewrite (Render_oldest_of _ _ _ (Hlast Render_started "s1" _ hundred_and_one Hs Hlen)).
    vm_compute. reflexivity.
  - destruct (Hhead nat (seq 0 101) eq_refl) as [_ H]. exact H.
Defined.

(** ** Authentication and the pairing payload *)

(** In the Baileys program the 'open' branch is the only place that sets
    [isAuthenticated], and it clears [qrCode] in the same handler. *)
Lemma Baileys_authenticated_without_qr w id s :
  Baileys.reachable w → Baileys.sessions w !! id = Some s →
  Baileys.isAuthenticated s = true → Baileys.qrCode s = None.
Proof.
  intros Hw Hs.
  refine (Baileys_all_reachable
            (λ s, Baileys.isAuthenticated s = true → Baileys.qrCode s = None)
            _ _ _ _ _ _ w Hw id s Hs); simpl; done.
Qed.

(** In the Render program the 'ready' handler does the same. *)
Lemma Render_ready_clears_qr id w s :
  Render.sessions w !! id = Some s →
  ∃ s', Render.sessions (Render.on_ready id w).1 !! id = Some s'
        ∧ Render.isAuthenticated s' = true ∧ Render.qrCode s' = None.
Proof.
  intros Hs. unfold Render.on_ready, Render.assign. rewrite Hs. simpl.
  rewrite lookup_insert_eq. by eexists.
Qed.

(** The 'authenticated' handler and the timer of a simulated session set the
    flag and leave [qrCode] as it was. *)
Lemma Render_authenticated_leaves_qr id w s :
  Render.sessions w !! id = Some s →
  ∃ s', Render.sessions (Render.on_authenticated id w).1 !! id = Some s'
        ∧ Render.isAuthenticated s' = true ∧ Render.qrCode s' = Render.qrCode s.
Proof.
  intros Hs. unfold Render.on_authenticated, Render.assign. rewrite Hs. simpl.
  rewrite lookup_insert_eq. by eexists.
Qed.

Lemma Render_simulated_auth_leaves_qr id w s :
  Render.sessions w !! id = Some s → Render.simulated s = true →
  ∃ s', Render.sessions (Render.fire (Render.SimulatedAuth id) w).1 !! id = Some s'
        ∧ Render.isAuthenticated s' = true ∧ Render.qrCode s' = Render.qrCode s.
Proof.
  intros Hs Hsim. simpl. rewrite Hs, Hsim. simpl.
  rewrite lookup_insert_eq. by eexists.
Qed.

(** C2. The Render program reaches states in which a session is authenticated
    and still holds its pairing payload: a session started without Chrome
    falls back to a simulated one whose 30 s timer authenticates it, and a
    real session that received a QR code gets the 'authenticated' event. *)
Theorem Render_authenticated_session_keeps_qr :
  Render_flags "s1"
    (Render.run Render.initial
       [Render.PostStart (Some "s1") chrome_missing;
        Render.TimerFired (Render.SimulatedAuth "s1")])
  = Some (true, true)
  ∧ Render_flags "s1"
      (Render.run Render.initial
         [Render.PostStart (Some "s1") chrome_ok;
          Render.QrReceived "s1" "2@Zx81" (Returns "data:image/png;base64,BBBB");
          Render.Authenticated "s1"])
    = Some (true, true).
Proof. split; vm_compute; reflexivity. Qed.

(** ** Waiting for the pairing payload *)

Lemma Baileys_get_qr_deferred id w s :
  Baileys.sessions w !! id = Some s →
  Baileys.isAuthenticated s = false → truthy (Baileys.qrCode s) = false →
  Baileys.get_qr id w = Deferred.
Proof. intros Hs Ha Hq. unfold Baileys.get_qr. by rewrite Hs, Ha, Hq. Qed.

Lemma Render_get_qr_deferred id w s :
  Render.sessions w !! id = Some s →
  Render.isAuthenticated s = false → truthy (Render.qrCode s) = false →
  Render.get_qr id w = Deferred.
Proof. intros Hs Ha Hq. unfold Render.get_qr. by rewrite Hs, Ha, Hq. Qed.

(** C3, as the Baileys program has it: the wait of a started session whose
    payload never appears ends, at the 31st firing of the interval, with the
    408 error. *)
Lemma Baileys_qr_timeout_is_an_error :
  Baileys.get_qr "s1" Baileys_started = Deferred
  ∧ ∃ r, Baileys.await_qr "s1" (replicate 31 None) Baileys_started = Some r
         ∧ status r = 408
         ∧ body r = error_body "Timeout aguardando QR Code"
         ∧ is_error r = true.
Proof.
  split; [vm_compute; reflexivity|].
  eexists. split; [vm_compute; reflexivity|]. by vm_compute.
Qed.

(** C3, amended. For an existing session that is not authenticated and has
    no payload, whose payload stays absent: nothing is answered during the
    first 30 firings of the one-second interval; at the 31st the Render program
    answers the normal 'generating' result, while the Baileys program answers
    the 408 timeout error. *)
Theorem qr_wait_ends_with_generating_or_timeout :
  (∀ id s observed w,
     Render.sessions w !! id = Some s →
     Render.isAuthenticated s = false → truthy (Render.qrCode s) = false →
     never_truthy observed →
     (length observed ≤ 30 → Render.await_qr id observed w = None)
     ∧ (30 < length observed →
        Render.await_qr id observed w = Some (Render.generating (Render.simulated s))
        ∧ is_error (Render.generating (Render.simulated s)) = false))
  ∧ (∀ id s observed w,
     Baileys.sessions w !! id = Some s →
     Baileys.isAuthenticated s = false → truthy (Baileys.qrCode s) = false →
     never_truthy observed →
     (length observed ≤ 30 → Baileys.await_qr id observed w = None)
     ∧ (30 < length observed →
        Baileys.await_qr id observed w = Some Baileys.qr_timeout
        ∧ is_error Baileys.qr_timeout = true)).
Proof.
  split; intros id s observed w Hs Ha Hq Hobs.
  - unfold Render.await_qr. rewrite Hs.
    rewrite (Render_get_qr_deferred id w s) by done.
    unfold Render.checkQR. split; intros Hlen.
    + by rewrite run_interval_silent.
    + by rewrite run_interval_timeout.
  - unfold Baileys.await_qr.
    rewrite (Baileys_get_qr_deferred id w s) by done.
    unfold Baileys.checkQR. split; intros Hlen.
    + by rewrite run_interval_silent.
    + by rewrite run_interval_timeout.
Qed.

Lemma qr_wait_ends_with_generating_or_timeout_witness :
  Render.await_qr "s1" (replicate 31 None) Render_started
    = Some (Render.generating false)
  ∧ Baileys.await_qr "s1" (replicate 30 None) Baileys_started = None.
Proof.
  destruct qr_wait_ends_with_generating_or_timeout as [HR HB]. split.
  - refine (proj1 (proj2 (HR "s1" (Render.real_session 0) (replicate 31 None)
                            Render_started _ _ _ _) _)).
    + vm_compute; reflexivity.
    + reflexivity.
    + reflexivity.
    + repeat constructor.
    + simpl. lia.
  - refine (proj1 (HB "s1" (Baileys.mkSession false None (Some []) None (Some 0))
                     (replicate 30 None) Baileys_started _ _ _ _) _).
    + vm_compute; reflexivity.
    + reflexivity.
    + reflexivity.
    + repeat constructor.
    + simpl. lia.
Defined.

(** ** Destroying a session *)

(** C4, as the code has it: when the teardown of a started session throws,
    DELETE answers 500 and the session is still registered. *)
Lemma destroy_keeps_session_when_teardown_fails :
  (let '(w', out) := Render.delete_session "s1" (Throws "Target closed") Render_started in
   out = Reply (res_status_json 500 (error_body "Target closed"))
   ∧ Render.sessions w' !! "s1" = Some (Render.real_session 0)
   ∧ Render.effects w' = Render.effects Render_started ++ [Render.ClientDestroy 0])
  ∧ (let t := Baileys.mkTeardown (Throws "Connection Closed") true (Returns ()) in
     let '(w', out) := Baileys.delete_session "s1" t Baileys_started in
     out = Reply (res_status_json 500 (error_body "Connection Closed"))
     ∧ is_Some (Baileys.sessions w' !! "s1")
     ∧ Baileys.effects w' = Baileys.effects Baileys_started ++ [Baileys.SocketEnd 0]).
Proof. split; vm_compute; eauto. Qed.

(** C4, amended. DELETE on an existing session first requests the teardown of
    its transport.  When the teardown returns, the session is removed from
    the registry and the success result is answered; when it throws, the
    error is answered with status 500 and the registry is left as it was. *)
Theorem destroy_removes_session_when_teardown_returns :
  (∀ id s t w, Baileys.sessions w !! id = Some s →
     let '(w', out) := Baileys.delete_session id t w in
     (∀ sk, Baileys.sock s = Some sk →
        ∃ later, Baileys.effects w' = Baileys.effects w ++ Baileys.SocketEnd sk :: later)
     ∧ match Baileys_teardown s t with
       | Returns _ =>
           out = Reply Baileys.destroyed
           ∧ Baileys.sessions w' = delete id (Baileys.sessions w)
       | Throws msg =>
           out = Reply (res_status_json 500 (error_body msg))
           ∧ Baileys.sessions w' = Baileys.sessions w
       end)
  ∧ (∀ id s destroyed w, Render.sessions w !! id = Some s →
     let '(w', out) := Render.delete_session id destroyed w in
     (∀ c, Render.client s = Some c →
        Render.effects w' = Render.effects w ++ [Render.ClientDestroy c])
     ∧ match Render_teardown s destroyed with
       | Returns _ =>
           out = Reply Render.destroyed_reply
           ∧ Render.sessions w' = delete id (Render.sessions w)
       | Throws msg =>
           out = Reply (res_status_json 500 (error_body msg))
           ∧ Render.sessions w' = Render.sessions w
       end).
Proof.
  split.
  - intros id s t w Hs.
    unfold Baileys.delete_session, Baileys_teardown, Baileys.end_sock,
      Baileys.remove_dir.
    rewrite Hs.
    destruct (Baileys.sock s) as [sk|], (Baileys.sock_end t) as [[]|e1],
      (Baileys.dir_exists t), (Baileys.rm_dir t) as [[]|e2]; simpl;
      (split; [intros sk' [= <-] || (intros sk'; discriminate)|done]);
      try (by eexists); rewrite <- app_assoc; by eexists.
  - intros id s destroyed w Hs.
    unfold Render.delete_session, Render_teardown. rewrite Hs.
    destruct (Render.client s) as [c|], destroyed as [[]|e]; simpl;
      (split; [by intros c' [= <-] || (intros c'; discriminate)|done]).
Qed.

Lemma destroy_removes_session_when_teardown_returns_witness :
  Render.sessions (Render.delete_session "s1" (Returns ()) Render_started).1 !! "s1"
  = None.
Proof.
  destruct destroy_removes_session_when_teardown_returns as [_ HR].
  assert (Hs : Render.sessions Render_started !! "s1" = Some (Render.real_session 0))
    by (vm_compute; reflexivity).
  specialize (HR "s1" _ (Returns ()) Render_started Hs).
  destruct (Render.delete_session "s1" (Returns ()) Render_started) as [w' out].
  simpl in HR |- *. destruct HR as (_ & _ & ->). apply lookup_delete_eq.
Defined.

(** ** Starting over an existing id *)

(** C5. POST /sessions/start for an id that is already registered answers the
    conflict (400 in the Baileys program, [existing: true] in the Render
    program) and leaves the whole world, hence every field of the existing
    session, as it was; no transport is started. *)
Theorem start_on_existing_id_changes_nothing :
  (∀ requested now startup w s,
     Baileys.sessions w !! resolve_id requested now = Some s →
     Baileys.post_start requested now startup w
     = (w, Reply (res_status_json 400 (error_body "Sessão já existe"))))
  ∧ (∀ requested env w s,
     Render.sessions w !! resolve_id requested (Render.now env) = Some s →
     Render.post_start requested env w
     = (w, Reply (Render.existing_reply (resolve_id requested (Render.now env))))).
Proof.
  split.
  - intros requested now startup w s Hs. unfold Baileys.post_start. by rewrite Hs.
  - intros requested env w s Hs. unfold Render.post_start. by rewrite Hs.
Qed.

Lemma start_on_existing_id_changes_nothing_witness :
  (Render.post_start (Some "s1") chrome_missing Render_started).1 = Render_started
  ∧ (Baileys.post_start (Some "s1") 1700000000001 (Returns ()) Baileys_started).1
    = Baileys_started.
Proof.
  destruct start_on_existing_id_changes_nothing as [HB HR]. split.
  - rewrite (HR (Some "s1") chrome_missing Render_started (Render.real_session 0)).
    + reflexivity.
    + vm_compute. reflexivity.
  - rewrite (HB (Some "s1") 1700000000001%Z (Returns ()) Baileys_started
               (Baileys.mkSession false None (Some []) None (Some 0))).
    + reflexivity.
    + vm_compute. reflexivity.
Defined.

(** ** After a session has been destroyed *)

Lemma Baileys_assign_absent id' f w w' id :
  Baileys.assign id' f w = Returns w' →
  Baileys.sessions w !! id = None → Baileys.sessions w' !! id = None.
Proof.
  unfold Baileys.assign. destruct (Baileys.sessions w !! id') eqn:E; [|done].
  intros [= <-] Hid. simpl. rewrite lookup_insert_ne; [done|congruence].
Qed.

Lemma Baileys_start_sessions id startup w :
  Baileys.sessions (Baileys.startWhatsAppSession id startup w).1 = Baileys.sessions w.
Proof. by destruct startup. Qed.

Lemma Baileys_remove_dir_sessions id t w :
  Baileys.sessions (Baileys.remove_dir id t w).1 = Baileys.sessions w.
Proof. unfold Baileys.remove_dir. by destruct (Baileys.dir_exists t). Qed.

Lemma Baileys_end_sock_sessions s t w :
  Baileys.sessions (Baileys.end_sock s t w).1 = Baileys.sessions w.
Proof. unfold Baileys.end_sock. by destruct (Baileys.sock s). Qed.

Lemma Baileys_absent_step id w i :
  ¬ Baileys_starts id i →
  Baileys.sessions w !! id = None → Baileys.sessions (Baileys.step w i).1 !! id = None.
Proof.
  intros Hi Hid.
  destruct i as [requested now startup | sessionId | sessionId number text sent now
    | sessionId | sessionId | sessionId t startup | sessionId t
    | sessionId u sock_user restart t | sessionId m]; simpl in *; try done.
  - unfold Baileys.post_start.
    destruct (Baileys.sessions w !! resolve_id requested now); [done|].
    pose proof (Baileys_start_sessions (resolve_id requested now) startup
                  (Baileys.with_sessions (insert (resolve_id requested now)
                                            Baileys.new_session) w)) as Hst.
    destruct (Baileys.startWhatsAppSession _ startup _) as [w2 [sk|msg]]; simpl in Hst.
    + destruct (Baileys.assign _ _ w2) as [w3|msg] eqn:Ha; cbn.
      * eapply Baileys_assign_absent; [exact Ha|].
        rewrite Hst. cbn. by rewrite lookup_insert_ne.
      * rewrite lookup_delete_ne by done. rewrite Hst. cbn.
        by rewrite lookup_insert_ne.
    + cbn. rewrite lookup_delete_ne by done. rewrite Hst. cbn.
      by rewrite lookup_insert_ne.
  - unfold Baileys.post_send_message.
    destruct (Baileys.sessions w !! sessionId) as [s|]; [|done].
    destruct (negb (Baileys.isAuthenticated s)); [done|].
    destruct (negb (truthy number) || negb (truthy text)); [done|].
    destruct (Baileys.sock s); [|done]. by destruct sent.
  - unfold Baileys.post_restore.
    destruct (Baileys.sessions w !! sessionId) as [s|]; [|done].
    pose proof (Baileys_end_sock_sessions s t w) as H1.
    destruct (Baileys.end_sock s t w) as [w1 [[]|msg]]; simpl in H1;
      [|simpl; congruence].
    pose proof (Baileys_start_sessions sessionId startup w1) as H2.
    destruct (Baileys.startWhatsAppSession sessionId startup w1) as [w2 [sk|msg]];
      simpl in H2; [|simpl; congruence].
    destruct (Baileys.assign _ _ w2) as [w3|msg] eqn:Ha; simpl; [|congruence].
    eapply Baileys_assign_absent; [exact Ha|congruence].
  - unfold Baileys.delete_session.
    destruct (Baileys.sessions w !! sessionId) as [s|]; [|done].
    pose proof (Baileys_end_sock_sessions s t w) as H1.
    destruct (Baileys.end_sock s t w) as [w1 [[]|msg]]; simpl in H1;
      [|simpl; congruence].
    pose proof (Baileys_remove_dir_sessions sessionId t w1) as H2.
    destruct (Baileys.remove_dir sessionId t w1) as [w2 [[]|msg]]; simpl in H2;
      [|simpl; congruence].
    simpl. rewrite lookup_delete_None. right. congruence.
  - unfold Baileys.connection_update.
    destruct (Baileys.on_qr sessionId u w) as [w1|e] eqn:Hq; [|done].
    assert (H1 : Baileys.sessions w1 !! id = None).
    { unfold Baileys.on_qr in Hq. destruct (truthy (Baileys.qr u)).
      - by eapply Baileys_assign_absent.
      - by injection Hq as <-. }
    destruct (Baileys.on_open sessionId u sock_user w1) as [w2|e] eqn:Ho; [|done].
    assert (H2 : Baileys.sessions w2 !! id = None).
    { unfold Baileys.on_open in Ho. destruct (Baileys.connection u) as [[]|];
        try by injection Ho as <-.
      by eapply Baileys_assign_absent. }
    assert (H3 : Baileys.sessions (Baileys.on_close sessionId u restart t w2).1 !! id = None).
    { unfold Baileys.on_close. destruct (Baileys.connection u) as [[]|]; try done.
      destruct (negb _); simpl.
      - by rewrite Baileys_start_sessions.
      - rewrite Baileys_remove_dir_sessions. simpl.
        rewrite lookup_delete_None. by right. }
    by destruct (Baileys.on_close sessionId u restart t w2) as [w3 [[]|e]].
  - unfold Baileys.messages_upsert.
    destruct m as [|msg rest]; [done|].
    destruct (Baileys.message msg) as [c|]; [|done].
    destruct (Baileys.assign _ _ w) as [w'|e] eqn:Ha; simpl; [|done].
    by eapply Baileys_assign_absent.
Qed.

Lemma Baileys_absent_run id inputs w :
  Forall (λ i, ¬ Baileys_starts id i) inputs →
  Baileys.sessions w !! id = None →
  Baileys.sessions (Baileys.run w inputs) !! id = None.
Proof.
  intros Hin. revert w. induction Hin as [|i inputs Hi _ IH]; intros w Hid; [done|].
  simpl. apply IH. by apply Baileys_absent_step.
Qed.

Lemma Render_assign_absent id' f w w' id :
  Render.assign id' f w = Returns w' →
  Render.sessions w !! id = None → Render.sessions w' !! id = None.
Proof.
  unfold Render.assign. destruct (Render.sessions w !! id') eqn:E; [|done].
  intros [= <-] Hid. simpl. rewrite lookup_insert_ne; [done|congruence].
Qed.

Lemma Render_simulate_absent id' env w id :
  id' ≠ id → Render.sessions w !! id = None →
  Render.sessions (Render.simulate id' env w).1 !! id = None.
Proof.
  intros Hne Hid. unfold Render.simulate.
  set (w1 := Render.with_sessions (insert id' Render.simulated_session) w).
  assert (H1 : Render.sessions w1 !! id = None)
    by (cbn; by rewrite lookup_insert_ne).
  destruct (Render.testQRDataURL env) as [code|e]; [|done].
  destruct (Render.assign id' _ w1) as [w2|e] eqn:Ha; [|done].
  cbn. by eapply Render_assign_absent.
Qed.

Lemma Render_start_absent id' env w id :
  id' ≠ id → Render.sessions w !! id = None →
  Render.sessions (Render.startWhatsAppSession id' env w).1 !! id = None.
Proof.
  intros Hne Hid. unfold Render.startWhatsAppSession.
  destruct (Render.created env); [|by apply Render_simulate_absent].
  destruct (Render.initialized env).
  - cbn. by rewrite lookup_insert_ne.
  - apply Render_simulate_absent; [done|]. cbn. by rewrite lookup_insert_ne.
Qed.

Lemma Render_absent_fire id t w :
  Render.sessions w !! id = None → Render.sessions (Render.fire t w).1 !! id = None.
Proof.
  intros Hid. destruct t as [id'|id' c|id']; simpl.
  - destruct (Render.sessions w !! id') as [s|] eqn:E; [|done].
    destruct (Render.simulated s); [|done].
    cbn. rewrite lookup_insert_ne; [done|congruence].
  - by destruct (Render.sessions w !! id').
  - destruct (Render.sessions w !! id') as [s|]; [|done].
    by destruct (Render.client s).
Qed.

Lemma Render_absent_step id w i :
  ¬ Render_starts id i →
  Render.sessions w !! id = None → Render.sessions (Render.step w i).1 !! id = None.
Proof.
  intros Hi Hid.
  destruct i as [requested env | sessionId | sessionId number text env
    | sessionId now | sessionId | sessionId destroyed | sessionId destroyed
    | sessionId qr dataURL | sessionId | sessionId | sessionId msg downloaded
    | sessionId c | t]; simpl in *; try done.
  - unfold Render.post_start.
    destruct (Render.sessions w !! resolve_id requested (Render.now env)); [done|].
    pose proof (Render_start_absent (resolve_id requested (Render.now env))
                  env w id Hi Hid) as H.
    by destruct (Render.startWhatsAppSession _ env w) as [w' [c|msg]].
  - unfold Render.post_send_message.
    destruct (Render.sessions w !! sessionId) as [s|]; [|done].
    destruct (negb (truthy number) || negb (truthy text)); [done|].
    destruct (Render.simulated s); [done|].
    destruct (negb (Render.isAuthenticated s)); [done|].
    destruct (Render.client s); [|done]. by destruct (Render.sent env) as [[]|].
  - unfold Render.get_messages.
    destruct (Render.sessions w !! sessionId) as [s|] eqn:E; [|done].
    destruct (Render.simulated s && Render.no_messages (Render.messages s)); [|done].
    cbn. rewrite lookup_insert_ne; [done|congruence].
  - unfold Render.post_restore.
    destruct (Render.sessions w !! sessionId) as [s|] eqn:E; [|done].
    assert (sessionId ≠ id) by congruence.
    cbn. destruct (Render.client s); [destruct destroyed|];
      cbn; by rewrite lookup_insert_ne.
  - unfold Render.delete_session.
    destruct (Render.sessions w !! sessionId) as [s|] eqn:E; [|done].
    assert (sessionId ≠ id) by congruence.
    destruct (Render.client s); [destruct destroyed|];
      cbn; try done; by rewrite lookup_delete_ne.
  - unfold Render.on_qr. destruct dataURL as [code|e]; [|done].
    destruct (Render.assign _ _ w) as [w'|e] eqn:Ha; [|done].
    by eapply Render_assign_absent.
  - unfold Render.on_ready.
    destruct (Render.assign _ _ w) as [w'|e] eqn:Ha; [|done].
    by eapply Render_assign_absent.
  - unfold Render.on_authenticated.
    destruct (Render.assign _ _ w) as [w'|e] eqn:Ha; [|done].
    by eapply Render_assign_absent.
  - unfold Render.on_message.
    destruct (Render.assign _ _ w) as [w'|e] eqn:Ha; [|done].
    by eapply Render_assign_absent.
  - unfold Render.on_disconnected.
    destruct (Render.assign _ _ w) as [w'|e] eqn:Ha; [|done].
    cbn. change (Render.sessions w' !! id = None).
    by eapply Render_assign_absent.
  - unfold Render.timer_fired. destruct (decide (t ∈ Render.timers w)); [|done].
    by apply Render_absent_fire.
Qed.

Lemma Render_absent_run id inputs w :
  Forall (λ i, ¬ Render_starts id i) inputs →
  Render.sessions w !! id = None →
  Render.sessions (Render.run w inputs) !! id = None.
Proof.
  intros Hin. revert w. induction Hin as [|i inputs Hi _ IH]; intros w Hid; [done|].
  simpl. apply IH. by apply Render_absent_step.
Qed.





(** A start request that nothing overtakes is the request of [post_start]. *)
Lemma BaileysObject_start_uninterrupted requested now startup w :
  BaileysObject.post_start requested now startup w
  = match BaileysObject.start_suspended requested now w with
    | (w1, Deferred) =>
        BaileysObject.start_resumed (resolve_id requested now) startup w1
    | answered => answered
    end.
Proof.
  unfold BaileysObject.post_start, BaileysObject.falls_through,
    BaileysObject.start_suspended, Baileys.post_start.
  destruct (Baileys.sessions w !! resolve_id requested now); [done|].
  by destruct (inherited (resolve_id requested now)).
Qed.

Lemma RenderObject_start_uninterrupted requested env w :
  Render.created env = Returns () →
  RenderObject.post_start requested env w
  = match RenderObject.start_suspended requested (Render.now env) w with
    | (w1, Deferred) =>
        RenderObject.start_resumed (resolve_id requested (Render.now env)) env w1
    | answered => answered
    end.
Proof.
  intros Hc. unfold RenderObject.post_start, RenderObject.falls_through,
    RenderObject.start_suspended, Render.post_start.
  destruct (Render.sessions w !! resolve_id requested (Render.now env)); [done|].
  destruct (inherited (resolve_id requested (Render.now env))); [done|].
  unfold Render.startWhatsAppSession, RenderObject.start_resumed.
  rewrite Hc. by destruct (Render.initialized env).
Qed.










(** ** Sending a text *)

(** C7, as the Render program has it: the check of the two fields comes
    first, so a send with an empty text or number is answered 'Número e
    mensagem são obrigatórios', by a simulated session instead of the
    synthesized success and by an unauthenticated real session instead of
    'Sessão não autenticada'. *)
Lemma send_with_empty_field_is_rejected_first :
  (Render.simulated <$> Render.sessions Render_fallback !! "s1" = Some true
   ∧ (Render.post_send_message "s1" (Some "5511999999999") (Some "") send_env
        Render_fallback).2 = Reply missing_fields)
  ∧ ((λ s, (Render.simulated s, Render.isAuthenticated s))
       <$> Render.sessions Render_started !! "s1" = Some (false, false)
     ∧ (Render.post_send_message "s1" (Some "") (Some "oi") send_env
          Render_started).2 = Reply missing_fields)
  ∧ is_error missing_fields = true
  ∧ missing_fields ≠ not_authenticated.
Proof. repeat split; try (vm_compute; reflexivity). discriminate. Qed.

(** C7, amended. A send-message request that names a number and a text:
    on an existing real session that is not authenticated it is answered
    'Sessão não autenticada' and nothing is sent; on an existing simulated
    session of the Render program it is answered the success result with a
    message id made from the clock and the random source and the clock as
    timestamp, and nothing is sent.  In the Baileys program the first holds
    whatever the two fields are; in the Render program a request that lacks
    one of them is answered the missing-fields error. *)
Theorem send_text_unauthenticated_or_simulated :
  (∀ id s number text sent now w,
     Baileys.sessions w !! id = Some s → Baileys.isAuthenticated s = false →
     Baileys.post_send_message id number text sent now w = (w, Reply not_authenticated))
  ∧ (∀ id s number text env w,
     Render.sessions w !! id = Some s →
     truthy number = true → truthy text = true →
     (Render.simulated s = false → Render.isAuthenticated s = false →
      Render.post_send_message id number text env w = (w, Reply not_authenticated))
     ∧ (Render.simulated s = true →
        Render.post_send_message id number text env w
        = (w, Reply (Render.simulated_sent env))
        ∧ is_error (Render.simulated_sent env) = false
        ∧ json_field "messageId" (body (Render.simulated_sent env))
          = Some (JStr ("sim_" +:+ pretty (Render.send_now env) +:+ "_"
                        +:+ Render.send_random env))
        ∧ json_field "timestamp" (body (Render.simulated_sent env))
          = Some (JNum (Render.send_now env))))
  ∧ (∀ id s number text env w,
     Render.sessions w !! id = Some s →
     truthy number = false ∨ truthy text = false →
     Render.post_send_message id number text env w = (w, Reply missing_fields)).
Proof.
  split; [|split].
  - intros id s number text sent now w Hs Ha.
    unfold Baileys.post_send_message. by rewrite Hs, Ha.
  - intros id s number text env w Hs Hn Ht.
    unfold Render.post_send_message. rewrite Hs, Hn, Ht. simpl. split.
    + intros -> ->. done.
    + intros ->. done.
  - intros id s number text env w Hs Hmiss.
    unfold Render.post_send_message. rewrite Hs.
    destruct Hmiss as [-> | ->]; simpl; [done|].
    by rewrite orb_true_r.
Qed.

Lemma send_text_unauthenticated_or_simulated_witness :
  Render.post_send_message "s1" (Some "+55 (11) 99999-9999") (Some "oi") send_env
    Render_fallback
  = (Render_fallback, Reply (Render.simulated_sent send_env))
  ∧ Render.post_send_message "s1" (Some "+55 (11) 99999-9999") (Some "oi") send_env
      Render_started
    = (Render_started, Reply not_authenticated).
Proof.
  destruct send_text_unauthenticated_or_simulated as (_ & HR & _).
  split.
  - refine (proj1 (proj2 (HR "s1" _ (Some "+55 (11) 99999-9999") (Some "oi")
                            send_env Render_fallback _ _ _) _)).
    + vm_compute. reflexivity.
    + reflexivity.
    + reflexivity.
    + reflexivity.
  - refine (proj1 (HR "s1" _ (Some "+55 (11) 99999-9999") (Some "oi")
                     send_env Render_started _ _ _) _ _).
    + vm_compute. reflexivity.
    + reflexivity.
    + reflexivity.
    + reflexivity.
    + reflexivity.
Defined.

(** ** Restoring a session *)

(** C8, as the code has it: a restore that succeeds leaves the message the
    session had received where it was. *)
Lemma restore_keeps_messages :
  (let w := Render.run Render_started
              [Render.Ready "s1";
               Render.MessageReceived "s1" (text_message 0).1 (text_message 0).2] in
   let '(w', out) := Render.post_restore "s1" (Returns ()) w in
   out = Reply (Render.restored false)
   ∧ Render_count "s1" w = Some 1 ∧ Render_count "s1" w' = Some 1)
  ∧ (let w := Baileys.run Baileys_started [Baileys.MessagesUpserted "s1" [hello]] in
     let '(w', out) :=
       Baileys.post_restore "s1" Baileys.teardown_ok (Returns ()) w in
     out = Reply Baileys.restored
     ∧ Baileys_count "s1" w = Some 1 ∧ Baileys_count "s1" w' = Some 1).
Proof. split; vm_compute; done. Qed.

(** C8, amended. A restore that succeeds keeps the session under its id with
    the authenticated flag false and the pairing payload cleared, and leaves
    the message buffer as it was.  The Baileys program ends the stored socket,
    if any, opens a new one and stores it; the Render program, when the
    session has a client, destroys it and arms the timer that initializes the
    same client again, and otherwise touches no transport. *)
Theorem restore_resets_pairing_and_keeps_messages :
  (∀ id s t startup w w',
     Baileys.sessions w !! id = Some s →
     Baileys.post_restore id t startup w = (w', Reply Baileys.restored) →
     ∃ s', Baileys.sessions w' = <[id := s']> (Baileys.sessions w)
       ∧ Baileys.isAuthenticated s' = false ∧ Baileys.qrCode s' = None
       ∧ Baileys.messages s' = Baileys.messages s
       ∧ Baileys.user s' = Baileys.user s
       ∧ Baileys.sock s' = Some (Baileys.next_sock w)
       ∧ Baileys.effects w'
         = Baileys.effects w
           ++ match Baileys.sock s with
              | Some old => [Baileys.SocketEnd old]
              | None => []
              end
           ++ [Baileys.SocketOpened id (Baileys.next_sock w)])
  ∧ (∀ id s destroyed w w' is_simulated,
     Render.sessions w !! id = Some s →
     Render.post_restore id destroyed w = (w', Reply (Render.restored is_simulated)) →
     ∃ s', Render.sessions w' = <[id := s']> (Render.sessions w)
       ∧ Render.isAuthenticated s' = false ∧ Render.qrCode s' = None
       ∧ Render.connected s' = false
       ∧ Render.messages s' = Render.messages s
       ∧ Render.client s' = Render.client s
       ∧ Render.simulated s' = Render.simulated s
       ∧ match Render.client s with
         | Some c =>
             Render.effects w' = Render.effects w ++ [Render.ClientDestroy c]
             ∧ Render.timers w' = Render.timers w ++ [Render.RestoreInit id]
             ∧ Render.effects (Render.fire (Render.RestoreInit id) w').1
               = Render.effects w' ++ [Render.ClientInitialize c]
         | None =>
             Render.effects w' = Render.effects w
             ∧ Render.timers w' = Render.timers w
         end).
Proof.
  split.
  - intros id s t startup w w' Hs.
    unfold Baileys.post_restore, Baileys.end_sock, Baileys.startWhatsAppSession,
      Baileys.assign.
    rewrite Hs.
    destruct (Baileys.sock s) as [old|], (Baileys.sock_end t) as [[]|e],
      startup as [[]|e']; cbn; try done;
      rewrite ?Hs; cbn; try done;
      intros [= <-]; eexists; cbn; (split; [reflexivity|]); cbn;
      repeat split; by rewrite <- ?app_assoc.
  - intros id s destroyed w w' is_simulated Hs.
    unfold Render.post_restore. rewrite Hs. cbn.
    destruct (Render.client s) as [c|] eqn:Hc, destroyed as [[]|e]; cbn; try done;
      intros [= <- _]; eexists; cbn; (split; [reflexivity|]); cbn;
      repeat split; try done.
    rewrite lookup_insert_eq. cbn. by rewrite Hc.
Qed.

Lemma restore_resets_pairing_and_keeps_messages_witness :
  let w := Render.run Render_started
             [Render.Ready "s1";
              Render.MessageReceived "s1" (text_message 0).1 (text_message 0).2] in
  ∃ s', Render.sessions (Render.post_restore "s1" (Returns ()) w).1 !! "s1" = Some s'
        ∧ Render.isAuthenticated s' = false
        ∧ message_count (Render.messages s') = 1.
Proof.
  intros w.
  destruct restore_resets_pairing_and_keeps_messages as [_ HR].
  assert (Hs : ∃ s, Render.sessions w !! "s1" = Some s
                    ∧ message_count (Render.messages s) = 1)
    by (eexists; split; vm_compute; reflexivity).
  destruct Hs as (s & Hs & Hcount).
  destruct (HR "s1" s (Returns ()) w
              (Render.post_restore "s1" (Returns ()) w).1 false Hs)
    as (s' & Hw' & Ha & _ & _ & Hm & _).
  - vm_compute. reflexivity.
  - exists s'. rewrite Hw', lookup_insert_eq. by rewrite Hm.
Defined.

(** ** Reading the messages of a simulated session *)

(** C9. In the Render program GET /sessions/:id/messages on a simulated
    session whose buffer is empty stores the two example messages in the
    session and answers them; the status route then reports two messages. *)
Theorem get_messages_fills_simulated_session :
  ∀ id s now w,
    Render.sessions w !! id = Some s →
    Render.simulated s = true →
    Render.no_messages (Render.messages s) = true →
    let '(w', out) := Render.get_messages id now w in
    Render.sessions w'
    = <[id := Render.set_messages (Some (Render.example_messages now)) s]>
        (Render.sessions w)
    ∧ (∃ r, out = Reply r
         ∧ status r = 200
         ∧ json_field "count" (body r) = Some (JNum 2)
         ∧ json_field "messages" (body r)
           = Some (JArr (Render.json_of_message <$> Render.example_messages now)))
    ∧ (∃ r, Render.get_status id w' = Reply r
         ∧ json_field "messageCount" (body r) = Some (JNum 2))
    ∧ Render.sessions w' ≠ Render.sessions w.
Proof.
  intros id s now w Hs Hsim Hempty.
  unfold Render.get_messages. rewrite Hs, Hsim, Hempty. cbn.
  split; [done|]. split; [by eexists|]. split.
  - unfold Render.get_status. cbn. rewrite lookup_insert_eq. by eexists.
  - intros Heq. apply (f_equal (λ m, Render.messages <$> m !! id)) in Heq.
    rewrite lookup_insert_eq, Hs in Heq. cbn in Heq.
    destruct (Render.messages s) as [[|d arr]|]; done.
Qed.

Lemma get_messages_fills_simulated_session_witness :
  Render_count "s1" Render_fallback = Some 0
  ∧ Render_count "s1" (Render.get_messages "s1" 1700000200000 Render_fallback).1
    = Some 2.
Proof.
  split; [vm_compute; reflexivity|].
  assert (Hs : ∃ s, Render.sessions Render_fallback !! "s1" = Some s
                    ∧ Render.simulated s = true
                    ∧ Render.no_messages (Render.messages s) = true)
    by (eexists; repeat split; vm_compute; reflexivity).
  destruct Hs as (s & Hs & Hsim & Hempty).
  pose proof (get_messages_fills_simulated_session "s1" s 1700000200000%Z
                Render_fallback Hs Hsim Hempty) as H.
  destruct (Render.get_messages "s1" 1700000200000 Render_fallback) as [w' out].
  destruct H as (Hw' & _). unfold Render_count. cbn.
  rewrite Hw', lookup_insert_eq. reflexivity.
Defined.

(** ** A start that fails *)

(** C10. In the Baileys program, when starting the socket throws for an id
    that was not registered, POST /sessions/start answers 500 with the error
    message and the world is exactly what it was before the request: the
    entry written before the attempt has been deleted again. *)
Theorem failed_start_leaves_registry_unchanged :
  ∀ requested now msg w,
    Baileys.sessions w !! resolve_id requested now = None →
    Baileys.post_start requested now (Throws msg) w
    = (w, Reply (res_status_json 500 (error_body msg)))
    ∧ Baileys.get_status (resolve_id requested now)
        (Baileys.post_start requested now (Throws msg) w).1 = Reply not_found
    ∧ is_Some (Baileys.sessions (Baileys.post_start requested now (Returns ()) w).1
                 !! resolve_id requested now).
Proof.
  intros requested now msg w Hfresh.
  assert (Hpost : Baileys.post_start requested now (Throws msg) w
                  = (w, Reply (res_status_json 500 (error_body msg)))).
  { unfold Baileys.post_start. rewrite Hfresh. cbn.
    unfold Baileys.with_sessions. cbn.
    rewrite delete_insert_id by done. by destruct w. }
  split; [done|]. split.
  - rewrite Hpost. unfold Baileys.get_status. cbn. by rewrite Hfresh.
  - unfold Baileys.post_start, Baileys.assign. rewrite Hfresh. cbn.
    rewrite lookup_insert_eq. cbn. rewrite lookup_insert_eq. by eexists.
Qed.

Lemma failed_start_leaves_registry_unchanged_witness :
  Baileys.post_start None 1700000300000 (Throws "getaddrinfo ENOTFOUND") Baileys_started
  = (Baileys_started, Reply (res_status_json 500 (error_body "getaddrinfo ENOTFOUND")))
  ∧ Baileys.get_status "session_1700000300000" Baileys_started = Reply not_found.
Proof.
  split.
  - apply (failed_start_leaves_registry_unchanged None 1700000300000%Z
             "getaddrinfo ENOTFOUND" Baileys_started).
    vm_compute. reflexivity.
  - vm_compute. reflexivity.
Defined.

(** * Further properties of the code *)

(** ** Formatting a number *)

Lemma strip_non_digits_app a b :
  strip_non_digits (a +:+ b) = strip_non_digits a +:+ strip_non_digits b.
Proof.
  induction a as [|c a IH]; [done|].
  simpl. destruct (is_digit c); simpl; by rewrite IH.
Qed.

Lemma strip_non_digits_digits s :
  Forall (λ c, is_digit c = true) (String.list_ascii_of_string (strip_non_digits s)).
Proof.
  induction s as [|c s IH]; simpl; [constructor|].
  destruct (is_digit c) eqn:E; simpl; [by constructor|done].
Qed.

Lemma strip_non_digits_fixed s :
  Forall (λ c, is_digit c = true) (String.list_ascii_of_string s) →
  strip_non_digits s = s.
Proof.
  induction s as [|c s IH]; simpl; [done|].
  intros [Hc Hs]%Forall_cons. rewrite Hc. by rewrite IH.
Qed.

(** X1. [number.replace(/\D/g, '')] keeps the decimal digits of the number in
    their order and nothing else: the result consists of digits only, a
    string of digits is left as it is, stripping twice changes nothing more,
    and a character that is not a digit disappears wherever it stands. *)
Theorem strip_non_digits_keeps_exactly_the_digits :
  ∀ s,
    Forall (λ c, is_digit c = true) (String.list_ascii_of_string (strip_non_digits s))
    ∧ strip_non_digits (strip_non_digits s) = strip_non_digits s
    ∧ (Forall (λ c, is_digit c = true) (String.list_ascii_of_string s) →
       strip_non_digits s = s)
    ∧ (∀ a c b, s = a +:+ String c b → is_digit c = false →
       strip_non_digits s = strip_non_digits (a +:+ b)).
Proof.
  intros s. split; [apply strip_non_digits_digits|].
  split; [apply strip_non_digits_fixed, strip_non_digits_digits|].
  split; [apply strip_non_digits_fixed|].
  intros a c b -> Hc. rewrite !strip_non_digits_app. simpl. by rewrite Hc.
Qed.

Lemma strip_non_digits_keeps_exactly_the_digits_witness :
  strip_non_digits "5511999999999" = "5511999999999"
  ∧ strip_non_digits "+55 (11) 99999-9999" = strip_non_digits "55 (11) 99999-9999".
Proof.
  destruct (strip_non_digits_keeps_exactly_the_digits "5511999999999")
    as (_ & _ & Hfix & _).
  destruct (strip_non_digits_keeps_exactly_the_digits "+55 (11) 99999-9999")
    as (_ & _ & _ & Hdrop).
  split.
  - apply Hfix. repeat constructor.
  - apply (Hdrop "" "+"%char "55 (11) 99999-9999"); reflexivity.
Defined.

(** ** The payload of a QR event *)

Lemma b64_encode_length bytes :
  String.length (b64_encode bytes) = 4 * ((length bytes + 2) / 3).
Proof.
  assert (H : ∀ n bytes, length bytes < n →
    String.length (b64_encode bytes) = 4 * ((length bytes + 2) / 3)).
  { clear. intros n. induction n as [|n IH]; intros bytes Hn; [lia|].
    destruct bytes as [|a [|b [|c rest]]]; try done.
    cbn [b64_encode String.length]. rewrite IH by (simpl in Hn; lia).
    cbn [length].
    replace (S (S (S (length rest))) + 2) with ((length rest + 2) + 1 * 3) by lia.
    rewrite Nat.div_add by done. lia. }
  apply (H (S (length bytes))). lia.
Qed.

Lemma string_app_length a b :
  String.length (a +:+ b) = String.length a + String.length b.
Proof. induction a as [|c a IH]; simpl; [done|]. by rewrite IH. Qed.

Lemma list_ascii_length s :
  length (String.list_ascii_of_string s) = String.length s.
Proof. induction s as [|c s IH]; simpl; [done|]. by rewrite IH. Qed.

(** X2. The data URL stored for a QR string [qr] of n bytes is the 22
    characters of the prefix followed by 4 * ceil(n / 3) base64 characters;
    it is never the empty string, so a stored payload always counts as
    present. *)
Theorem qrDataURL_length_and_presence :
  ∀ qr,
    String.length (Baileys.qrDataURL qr) = 22 + 4 * ((String.length qr + 2) / 3)
    ∧ String.length (base64 qr) = 4 * ((String.length qr + 2) / 3)
    ∧ truthy (Some (Baileys.qrDataURL qr)) = true.
Proof.
  intros qr.
  assert (Hb : String.length (base64 qr) = 4 * ((String.length qr + 2) / 3)).
  { unfold base64. rewrite b64_encode_length, length_fmap, list_ascii_length. done. }
  split; [|split; [done|done]].
  unfold Baileys.qrDataURL. rewrite string_app_length, Hb. done.
Qed.

Ltac divmod x k :=
  pose proof (Nat.div_mod_eq x k);
  pose proof (Nat.mod_upper_bound x k ltac:(lia)).

Lemma b64_char_table :
  Forall (λ n, b64_char n ≠ "="%char
               ∧ Forall (λ m, b64_char n = b64_char m → n = m) (seq 0 64))
    (seq 0 64).
Proof. vm_compute. repeat constructor; try discriminate; try done. Qed.

Lemma b64_char_not_pad n : n < 64 → b64_char n ≠ "="%char.
Proof.
  intros Hn. pose proof b64_char_table as H.
  rewrite Forall_forall in H. apply (H n). apply elem_of_seq. lia.
Qed.

Lemma b64_char_inj n m : n < 64 → m < 64 → b64_char n = b64_char m → n = m.
Proof.
  intros Hn Hm. pose proof b64_char_table as H.
  rewrite Forall_forall in H. destruct (H n) as [_ H']; [apply elem_of_seq; lia|].
  rewrite Forall_forall in H'. apply H'. apply elem_of_seq. lia.
Qed.

Lemma four_chars c1 c2 c3 c4 r d1 d2 d3 d4 r' :
  String c1 (String c2 (String c3 (String c4 r)))
  = String d1 (String d2 (String d3 (String d4 r'))) →
  c1 = d1 ∧ c2 = d2 ∧ c3 = d3 ∧ c4 = d4 ∧ r = r'.
Proof. by intros [= -> -> -> -> ->]. Qed.

Lemma b64_encode_inj xs ys :
  Forall (λ x, x < 256) xs → Forall (λ y, y < 256) ys →
  b64_encode xs = b64_encode ys → xs = ys.
Proof.
  assert (H : ∀ n xs ys, length xs < n →
    Forall (λ x, x < 256) xs → Forall (λ y, y < 256) ys →
    b64_encode xs = b64_encode ys → xs = ys).
  { clear. intros n. induction n as [|n IH]; intros xs ys Hn Hxs Hys; [lia|].
    destruct xs as [|a [|b [|c xs]]], ys as [|a' [|b' [|c' ys]]];
      cbn [b64_encode]; intros Heq; try done;
      repeat match goal with
             | H : Forall _ (_ :: _) |- _ => apply Forall_cons in H as [? H]
             end;
      apply four_chars in Heq as (E1 & E2 & E3 & E4 & E5);
      divmod a 4; divmod a' 4;
      try (divmod b 16; divmod b 1);
      try (divmod b' 16; divmod b' 1);
      try (divmod c 64; divmod c 1);
      try (divmod c' 64; divmod c' 1);
      try (symmetry in E3; apply b64_char_not_pad in E3; [done|lia]);
      try (apply b64_char_not_pad in E3; [done|lia]);
      try (symmetry in E4; apply b64_char_not_pad in E4; [done|lia]);
      try (apply b64_char_not_pad in E4; [done|lia]);
      apply b64_char_inj in E1; try lia;
      apply b64_char_inj in E2; try lia.
    - f_equal. lia.
    - apply b64_char_inj in E3; try lia. f_equal; [lia|f_equal; lia].
    - apply b64_char_inj in E3; try lia.
      apply b64_char_inj in E4; try lia.
      assert (xs = ys) as ->.
      { apply IH; try done. simpl in Hn. lia. }
      f_equal; [lia|f_equal; [lia|f_equal; lia]]. }
  apply (H (S (length xs))). lia.
Qed.

Lemma string_app_inj prefix a b : prefix +:+ a = prefix +:+ b → a = b.
Proof. induction prefix as [|c p IH]; simpl; [done|]. intros [= H]. by apply IH. Qed.

Lemma base64_inj a b : base64 a = base64 b → a = b.
Proof.
  unfold base64. intros H.
  apply b64_encode_inj in H.
  - apply (f_equal (fmap Ascii.ascii_of_nat)) in H.
    rewrite <- !list_fmap_compose in H.
    rewrite !(list_fmap_ext (Ascii.ascii_of_nat ∘ Ascii.nat_of_ascii) id) in H
      by (intros; simpl; apply Ascii.ascii_nat_embedding).
    rewrite !list_fmap_id in H.
    apply (f_equal String.string_of_list_ascii) in H.
    by rewrite !String.string_of_list_ascii_of_string in H.
  - apply Forall_fmap, Forall_forall. intros c _. apply Ascii.nat_ascii_bounded.
  - apply Forall_fmap, Forall_forall. intros c _. apply Ascii.nat_ascii_bounded.
Qed.

(** X3. The payload stored for a QR string determines that string: two
    different QR strings are never stored as the same data URL. *)
Theorem qrDataURL_determines_qr :
  ∀ qr1 qr2, Baileys.qrDataURL qr1 = Baileys.qrDataURL qr2 → qr1 = qr2.
Proof.
  intros qr1 qr2 H. unfold Baileys.qrDataURL in H.
  apply string_app_inj in H. by apply base64_inj.
Qed.

Lemma qrDataURL_determines_qr_witness :
  Baileys.qrDataURL "2@Zx81" ≠ Baileys.qrDataURL "2@Zx82".
Proof.
  intros H. apply qrDataURL_determines_qr in H. discriminate H.
Defined.

(** ** The polling interval, when the payload appears *)

Lemma run_interval_cleared qr_reply timeout_reply observed p :
  cleared p = true → run_interval qr_reply timeout_reply observed p = [].
Proof. intros Hc. destruct observed; simpl; [done|]. by rewrite Hc. Qed.

Lemma run_interval_found qr_reply timeout_reply pre code post p :
  never_truthy pre → cleared p = false → truthy (Some code) = true →
  attempts p + length pre ≤ 30 →
  run_interval qr_reply timeout_reply (pre ++ Some code :: post) p = [qr_reply code].
Proof.
  intros Hpre. revert p.
  induction Hpre as [|qr pre Hqr _ IH]; intros p Hc Hcode Hlen.
  - cbn [app run_interval length] in *. rewrite Hc. unfold interval_tick.
    rewrite Hcode.
    destruct (30 <? S (attempts p))%nat eqn:E.
    + by rewrite run_interval_cleared.
    + by rewrite run_interval_cleared by (simpl; by rewrite orb_true_r).
  - cbn [app run_interval length] in *. rewrite Hc. unfold interval_tick.
    rewrite Hqr.
    replace (30 <? S (attempts p))%nat with false
      by (symmetry; apply Nat.ltb_ge; lia).
    cbn [app attempts cleared orb]. apply IH; cbn [attempts cleared];
      [by rewrite Hc|done|lia].
Qed.

Lemma run_interval_at_most_one qr_reply timeout_reply observed p :
  length (run_interval qr_reply timeout_reply observed p) ≤ 1.
Proof.
  revert p. induction observed as [|qr later IH]; intros p; simpl; [lia|].
  destruct (cleared p); [simpl; lia|].
  unfold interval_tick.
  destruct (30 <? S (attempts p))%nat.
  - rewrite run_interval_cleared by done. rewrite app_nil_r.
    destruct (truthy qr); simpl; lia.
  - destruct (truthy qr) eqn:E.
    + rewrite run_interval_cleared by (simpl; by rewrite orb_true_r). simpl. lia.
    + simpl. apply IH.
Qed.

Lemma run_interval_outcomes_cleared qr_reply timeout_reply observed p :
  cleared p = true → run_interval_outcomes qr_reply timeout_reply observed p = [].
Proof. intros Hc. destruct observed; simpl; [done|]. by rewrite Hc. Qed.

Lemma run_interval_outcomes_found qr_reply timeout_reply pre code post p :
  never_truthy pre → cleared p = false → truthy (Some code) = true →
  attempts p + length pre ≤ 30 →
  run_interval_outcomes qr_reply timeout_reply (pre ++ Some code :: post) p
  = replicate (length pre) Handled
    ++ [if decide (attempts p + length pre = 30)
        then Uncaught headers_sent else Handled].
Proof.
  intros Hpre. revert p.
  induction Hpre as [|qr pre Hqr _ IH]; intros p Hc Hcode Hlen.
  - cbn [app run_interval_outcomes length replicate] in *. rewrite Hc.
    unfold interval_outcome, interval_tick. rewrite Hcode.
    rewrite Nat.add_0_r in *. cbn [andb].
    destruct (30 <? S (attempts p))%nat eqn:E.
    + apply Nat.ltb_lt in E. rewrite run_interval_outcomes_cleared by done.
      by rewrite decide_True by lia.
    + apply Nat.ltb_ge in E.
      rewrite run_interval_outcomes_cleared by (simpl; by rewrite orb_true_r).
      by rewrite decide_False by lia.
  - cbn [app run_interval_outcomes length replicate] in *. rewrite Hc.
    unfold interval_outcome, interval_tick. rewrite Hqr.
    replace (30 <? S (attempts p))%nat with false
      by (symmetry; apply Nat.ltb_ge; lia).
    cbn [andb fst attempts cleared orb]. rewrite IH; cbn [attempts cleared];
      [|by rewrite Hc|done|lia].
    destruct (decide (S (attempts p) + length pre = 30)),
      (decide (attempts p + S (length pre) = 30)); done || lia.
Qed.

Lemma run_interval_outcomes_silent qr_reply timeout_reply observed p :
  never_truthy observed →
  Forall (λ out, out = Handled) (run_interval_outcomes qr_reply timeout_reply observed p).
Proof.
  intros Hobs. revert p.
  induction Hobs as [|qr later Hqr _ IH]; intros p; simpl; [done|].
  destruct (cleared p); [done|].
  constructor; [|apply IH].
  unfold interval_outcome. by rewrite Hqr.
Qed.

(** X4. When the pairing payload first shows at one of the first 30 firings
    of the interval, the request is answered exactly once, with that payload,
    and the interval stops: what the session does afterwards is not looked
    at. *)
Theorem payload_found_answers_once :
  ∀ qr_reply timeout_reply pre code post,
    never_truthy pre → truthy (Some code) = true → length pre < 30 →
    run_interval qr_reply timeout_reply (pre ++ Some code :: post) poll_start
    = [qr_reply code].
Proof.
  intros qr_reply timeout_reply pre code post Hpre Hcode Hlen.
  apply run_interval_found; try done. simpl. lia.
Qed.

Lemma payload_found_answers_once_witness :
  Baileys.checkQR [None; Some ""; Some "data:image/png;base64,AAAA"; None] poll_start
  = [Baileys.qr_reply "data:image/png;base64,AAAA"].
Proof.
  apply (payload_found_answers_once Baileys.qr_reply Baileys.qr_timeout
           [None; Some ""] "data:image/png;base64,AAAA" [None]).
  - repeat constructor.
  - reflexivity.
  - simpl. lia.
Defined.

(** X5. When the payload first shows at the 31st firing, the callback
    answers the request once, with the payload, and then goes on to the
    timeout branch, whose [res.json] on the answered response throws
    ERR_HTTP_HEADERS_SENT out of the callback; the 30 firings before it end
    normally.  A payload that shows earlier, or never, makes no firing
    throw, and in no case is a request answered more than once. *)
Theorem payload_at_last_firing_answers_once_then_throws :
  ∀ qr_reply timeout_reply,
    (∀ pre code post,
       never_truthy pre → truthy (Some code) = true → length pre = 30 →
       run_interval qr_reply timeout_reply (pre ++ Some code :: post) poll_start
       = [qr_reply code]
       ∧ run_interval_outcomes qr_reply timeout_reply (pre ++ Some code :: post)
           poll_start
         = replicate 30 Handled ++ [Uncaught headers_sent])
    ∧ (∀ pre code post,
       never_truthy pre → truthy (Some code) = true → length pre < 30 →
       run_interval_outcomes qr_reply timeout_reply (pre ++ Some code :: post)
         poll_start
       = replicate (S (length pre)) Handled)
    ∧ (∀ observed,
       never_truthy observed →
       Forall (λ out, out = Handled)
         (run_interval_outcomes qr_reply timeout_reply observed poll_start))
    ∧ (∀ observed,
       length (run_interval qr_reply timeout_reply observed poll_start) ≤ 1).
Proof.
  intros qr_reply timeout_reply. split; [|split; [|split]].
  - intros pre code post Hpre Hcode Hlen. split.
    + apply run_interval_found; try done. simpl. lia.
    + rewrite run_interval_outcomes_found; try done; [|simpl; lia].
      rewrite decide_True by (simpl; lia). by rewrite Hlen.
  - intros pre code post Hpre Hcode Hlen.
    rewrite run_interval_outcomes_found; try done; [|simpl; lia].
    rewrite decide_False by (simpl; lia).
    change [Handled] with (replicate 1 Handled).
    rewrite <- replicate_add. f_equal. lia.
  - intros observed Hobs. by apply run_interval_outcomes_silent.
  - intros observed. apply run_interval_at_most_one.
Qed.

Lemma payload_at_last_firing_answers_once_then_throws_witness :
  Render.checkQR true (replicate 30 None ++ [Some "data:image/png;base64,AAAA"])
    poll_start
  = [Render.qr_reply true "data:image/png;base64,AAAA"]
  ∧ run_interval_outcomes Baileys.qr_reply Baileys.qr_timeout
      (replicate 30 None ++ [Some "data:image/png;base64,AAAA"]) poll_start
    = replicate 30 Handled ++ [Uncaught headers_sent]
  ∧ run_interval_outcomes Baileys.qr_reply Baileys.qr_timeout
      ([None; Some ""] ++ [Some "data:image/png;base64,AAAA"; None]) poll_start
    = replicate 3 Handled.
Proof.
  split; [|split].
  - refine (proj1 (proj1 (payload_at_last_firing_answers_once_then_throws
                     (Render.qr_reply true) (Render.generating true))
              (replicate 30 None) "data:image/png;base64,AAAA" [] _ _ _)).
    + repeat constructor.
    + reflexivity.
    + reflexivity.
  - refine (proj2 (proj1 (payload_at_last_firing_answers_once_then_throws
                     Baileys.qr_reply Baileys.qr_timeout)
              (replicate 30 None) "data:image/png;base64,AAAA" [] _ _ _)).
    + repeat constructor.
    + reflexivity.
    + reflexivity.
  - refine (proj1 (proj2 (payload_at_last_firing_answers_once_then_throws
                     Baileys.qr_reply Baileys.qr_timeout))
              [None; Some ""] "data:image/png;base64,AAAA" [None] _ _ _).
    + repeat constructor.
    + reflexivity.
    + simpl. lia.
Defined.

(** ** Connection updates of the Baileys program *)

(** X6. A QR event for a registered session (in an update that neither opens
    nor closes the connection) stores the data URL of the QR string and
    clears the authenticated flag, whatever it was; from then on
    GET /sessions/:id/qr answers that payload at once, without polling. *)
Theorem qr_event_is_served_at_once :
  ∀ id s u q sock_user restart t observed w,
    Baileys.sessions w !! id = Some s →
    Baileys.qr u = Some q → truthy (Some q) = true →
    Baileys.connection u ≠ Some Baileys.ConnOpen →
    Baileys.connection u ≠ Some Baileys.ConnClose →
    let w' := (Baileys.connection_update id u sock_user restart t w).1 in
    Baileys.sessions w'
    = <[id := Baileys.mkSession false (Some (Baileys.qrDataURL q))
                (Baileys.messages s) (Baileys.user s) (Baileys.sock s)]>
        (Baileys.sessions w)
    ∧ Baileys.await_qr id observed w'
      = Some (Baileys.qr_reply (Baileys.qrDataURL q)).
Proof.
  intros id s u q sock_user restart t observed w Hs Hq Hqt Hopen Hclose w'.
  subst w'. unfold Baileys.connection_update, Baileys.on_qr, Baileys.on_open,
    Baileys.on_close, Baileys.assign.
  rewrite Hq, Hqt, Hs. cbn.
  destruct (Baileys.connection u) as [[]|]; try done; cbn;
    (split; [done|]);
    unfold Baileys.await_qr, Baileys.get_qr; cbn;
    rewrite lookup_insert_eq; cbn; done.
Qed.

Lemma qr_event_is_served_at_once_witness :
  Baileys.await_qr "s1" []
    (Baileys.connection_update "s1" (Baileys.mkUpdate None None (Some "2@Zx81"))
       None (Returns ()) Baileys.teardown_ok Baileys_paired).1
  = Some (Baileys.qr_reply (Baileys.qrDataURL "2@Zx81")).
Proof.
  assert (Hs : ∃ s, Baileys.sessions Baileys_paired !! "s1" = Some s)
    by (eexists; vm_compute; reflexivity).
  destruct Hs as [s Hs].
  apply (qr_event_is_served_at_once "s1" s
           (Baileys.mkUpdate None None (Some "2@Zx81")) "2@Zx81"
           None (Returns ()) Baileys.teardown_ok [] Baileys_paired Hs);
    done.
Defined.

(** X7. In every state the Baileys program can reach, a session whose
    authenticated flag is set holds no pairing payload, and the status route
    reports [qrAvailable: false] for it: the flag is set only by the 'open'
    branch, which clears the payload, and every later QR event clears the
    flag. *)
Theorem Baileys_authenticated_sessions_hold_no_qr :
  ∀ w id s,
    Baileys.reachable w → Baileys.sessions w !! id = Some s →
    Baileys.isAuthenticated s = true →
    Baileys.qrCode s = None
    ∧ ∃ r, Baileys.get_status id w = Reply r
           ∧ json_field "isAuthenticated" (body r) = Some (JBool true)
           ∧ json_field "qrAvailable" (body r) = Some (JBool false)
           ∧ json_field "status" (body r) = Some (JStr "ready").
Proof.
  intros w id s Hw Hs Ha.
  pose proof (Baileys_authenticated_without_qr w id s Hw Hs Ha) as Hq.
  split; [done|]. unfold Baileys.get_status. rewrite Hs. eexists. split; [done|].
  cbn. by rewrite Ha, Hq.
Qed.

Lemma Baileys_authenticated_sessions_hold_no_qr_witness :
  Baileys.isAuthenticated <$> Baileys.sessions Baileys_paired !! "s1" = Some true
  ∧ Baileys.qrCode <$> Baileys.sessions Baileys_paired !! "s1" = Some None.
Proof.
  split; [vm_compute; reflexivity|].
  destruct (Baileys.sessions Baileys_paired !! "s1") as [s|] eqn:Hs;
    [|vm_compute in Hs; discriminate Hs].
  cbn. f_equal.
  apply (Baileys_authenticated_sessions_hold_no_qr Baileys_paired "s1" s).
  - eexists (_ :: _ :: _ :: []). reflexivity.
  - exact Hs.
  - vm_compute in Hs. injection Hs as <-. reflexivity.
Defined.

(** X8. A close with the logged-out status deletes the session entry, also
    when removing its directory throws, and does not reconnect.  Afterwards
    the status route answers 404 and an inbound message for the id raises an
    exception in the handler. *)
Theorem logout_removes_session :
  ∀ id u sock_user restart t w,
    Baileys.connection u = Some Baileys.ConnClose →
    Baileys.statusCode u = Some Baileys.loggedOut →
    truthy (Baileys.qr u) = false →
    let w' := (Baileys.connection_update id u sock_user restart t w).1 in
    Baileys.sessions w' = delete id (Baileys.sessions w)
    ∧ Baileys.next_sock w' = Baileys.next_sock w
    ∧ Baileys.effects w'
      = Baileys.effects w
        ++ (if Baileys.dir_exists t then [Baileys.RemoveDir id] else [])
    ∧ Baileys.get_status id w' = Reply not_found
    ∧ (∀ m c rest, Baileys.message m = Some c →
         Baileys.messages_upsert id (m :: rest) w' = (w', Uncaught type_error)).
Proof.
  intros id u sock_user restart t w Hc Hst Hq w'.
  assert (H : Baileys.sessions w' = delete id (Baileys.sessions w)
              ∧ Baileys.next_sock w' = Baileys.next_sock w
              ∧ Baileys.effects w'
                = Baileys.effects w
                  ++ (if Baileys.dir_exists t then [Baileys.RemoveDir id] else [])).
  { subst w'.
    unfold Baileys.connection_update, Baileys.on_qr, Baileys.on_open,
      Baileys.on_close, Baileys.remove_dir.
    rewrite Hq, Hc, Hst. cbn.
    destruct (Baileys.dir_exists t), (Baileys.rm_dir t) as [[]|e]; cbn;
      rewrite ?app_nil_r; done. }
  destruct H as (Hs & Hn & He).
  split; [done|]. split; [done|]. split; [done|]. split.
  - unfold Baileys.get_status. by rewrite Hs, lookup_delete_eq.
  - intros m c rest Hm. unfold Baileys.messages_upsert, Baileys.assign.
    by rewrite Hm, Hs, lookup_delete_eq.
Qed.

Lemma logout_removes_session_witness :
  Baileys.get_status "s1"
    (Baileys.connection_update "s1"
       (Baileys.mkUpdate (Some Baileys.ConnClose) (Some 401%Z) None)
       None (Returns ()) (Baileys.mkTeardown (Returns ()) true (Throws "EBUSY"))
       Baileys_paired).1
  = Reply not_found.
Proof.
  refine (proj1 (proj2 (proj2 (proj2
            (logout_removes_session "s1"
               (Baileys.mkUpdate (Some Baileys.ConnClose) (Some 401%Z) None)
               None (Returns ()) (Baileys.mkTeardown (Returns ()) true (Throws "EBUSY"))
               Baileys_paired _ _ _))))); reflexivity.
Defined.

(** X9. A close with any other status leaves the registry exactly as it was:
    the authenticated flag is not reset and the stored socket is not replaced.
    A new socket is started for the id (when start-up succeeds) but it is not
    stored in the session. *)
Theorem recoverable_close_keeps_registry :
  ∀ id u sock_user restart t w,
    Baileys.connection u = Some Baileys.ConnClose →
    Baileys.statusCode u ≠ Some Baileys.loggedOut →
    truthy (Baileys.qr u) = false →
    let '(w', out) := Baileys.connection_update id u sock_user restart t w in
    out = Handled
    ∧ Baileys.sessions w' = Baileys.sessions w
    ∧ match restart with
      | Returns _ =>
          Baileys.effects w'
          = Baileys.effects w ++ [Baileys.SocketOpened id (Baileys.next_sock w)]
          ∧ Baileys.next_sock w' = S (Baileys.next_sock w)
      | Throws _ => w' = w
      end.
Proof.
  intros id u sock_user restart t w Hc Hst Hq.
  unfold Baileys.connection_update, Baileys.on_qr, Baileys.on_open, Baileys.on_close.
  rewrite Hq, Hc. cbn. rewrite bool_decide_eq_false_2 by done. cbn.
  by destruct restart as [[]|e].
Qed.

Lemma recoverable_close_keeps_registry_witness :
  Baileys.sessions
    (Baileys.connection_update "s1"
       (Baileys.mkUpdate (Some Baileys.ConnClose) (Some 428%Z) None)
       None (Returns ()) Baileys.teardown_ok Baileys_paired).1
  = Baileys.sessions Baileys_paired.
Proof.
  pose proof (recoverable_close_keeps_registry "s1"
                (Baileys.mkUpdate (Some Baileys.ConnClose) (Some 428%Z) None)
                None (Returns ()) Baileys.teardown_ok Baileys_paired) as H.
  destruct (Baileys.connection_update _ _ _ _ _ _) as [w' out].
  apply H; [reflexivity|discriminate|reflexivity].
Defined.

(** ** What the Baileys program sends *)

Lemma Baileys_adds_quiet_refl w : Baileys_adds_quiet w w.
Proof. exists []. by rewrite app_nil_r. Qed.

Lemma Baileys_adds_quiet_eq w w' :
  Baileys.effects w' = Baileys.effects w → Baileys_adds_quiet w w'.
Proof. intros H. exists []. by rewrite app_nil_r. Qed.

Lemma Baileys_adds_quiet_trans w1 w2 w3 :
  Baileys_adds_quiet w1 w2 → Baileys_adds_quiet w2 w3 → Baileys_adds_quiet w1 w3.
Proof.
  intros (n1 & H1 & Q1) (n2 & H2 & Q2). exists (n1 ++ n2).
  rewrite H2, H1, app_assoc. split; [done|]. by apply Forall_app.
Qed.

Lemma Baileys_adds_quiet_perform e w :
  Baileys_quiet e → Baileys_adds_quiet w (Baileys.perform e w).
Proof. intros He. exists [e]. split; [done|]. by constructor. Qed.

Lemma Baileys_adds_quiet_assign id f w w' :
  Baileys.assign id f w = Returns w' → Baileys_adds_quiet w w'.
Proof.
  unfold Baileys.assign. destruct (Baileys.sessions w !! id); [|done].
  intros [= <-]. by apply Baileys_adds_quiet_eq.
Qed.

Lemma Baileys_adds_quiet_start id startup w :
  Baileys_adds_quiet w (Baileys.startWhatsAppSession id startup w).1.
Proof.
  destruct startup as [[]|e]; cbn; [|apply Baileys_adds_quiet_refl].
  eexists [_]. split; [done|]. by constructor.
Qed.

Lemma Baileys_adds_quiet_remove_dir id t w :
  Baileys_adds_quiet w (Baileys.remove_dir id t w).1.
Proof.
  unfold Baileys.remove_dir. destruct (Baileys.dir_exists t); cbn.
  - by apply Baileys_adds_quiet_perform.
  - apply Baileys_adds_quiet_refl.
Qed.

Lemma Baileys_adds_quiet_end_sock s t w :
  Baileys_adds_quiet w (Baileys.end_sock s t w).1.
Proof.
  unfold Baileys.end_sock. destruct (Baileys.sock s); cbn.
  - by apply Baileys_adds_quiet_perform.
  - apply Baileys_adds_quiet_refl.
Qed.

Lemma Baileys_adds_quiet_with_sessions f w :
  Baileys_adds_quiet w (Baileys.with_sessions f w).
Proof. by apply Baileys_adds_quiet_eq. Qed.

Lemma Baileys_step_quiet w i :
  (∀ id number text sent now, i ≠ Baileys.PostSendMessage id number text sent now) →
  Baileys_adds_quiet w (Baileys.step w i).1.
Proof.
  intros Hi.
  destruct i as [requested now startup | sessionId | sessionId number text sent now
    | sessionId | sessionId | sessionId t startup | sessionId t
    | sessionId u sock_user restart t | sessionId m]; cbn [Baileys.step fst];
    try apply Baileys_adds_quiet_refl.
  - unfold Baileys.post_start.
    destruct (Baileys.sessions w !! resolve_id requested now);
      [apply Baileys_adds_quiet_refl|].
    set (w1 := Baileys.with_sessions _ w).
    pose proof (Baileys_adds_quiet_start (resolve_id requested now) startup w1) as H.
    destruct (Baileys.startWhatsAppSession _ startup w1) as [w2 [sk|msg]]; cbn in H.
    + destruct (Baileys.assign _ _ w2) as [w3|msg] eqn:Ha; cbn.
      * eapply Baileys_adds_quiet_trans; [apply Baileys_adds_quiet_with_sessions|].
        eapply Baileys_adds_quiet_trans; [exact H|].
        by eapply Baileys_adds_quiet_assign.
      * eapply Baileys_adds_quiet_trans; [apply Baileys_adds_quiet_with_sessions|].
        eapply Baileys_adds_quiet_trans; [exact H|].
        apply Baileys_adds_quiet_with_sessions.
    + cbn. eapply Baileys_adds_quiet_trans; [apply Baileys_adds_quiet_with_sessions|].
      eapply Baileys_adds_quiet_trans; [exact H|].
      apply Baileys_adds_quiet_with_sessions.
  - by destruct (Hi sessionId number text sent now).
  - unfold Baileys.post_restore.
    destruct (Baileys.sessions w !! sessionId) as [s|];
      [|apply Baileys_adds_quiet_refl].
    pose proof (Baileys_adds_quiet_end_sock s t w) as H1.
    destruct (Baileys.end_sock s t w) as [w1 [[]|msg]]; cbn in H1; [|done].
    pose proof (Baileys_adds_quiet_start sessionId startup w1) as H2.
    destruct (Baileys.startWhatsAppSession sessionId startup w1) as [w2 [sk|msg]];
      cbn in H2; [|by eapply Baileys_adds_quiet_trans].
    destruct (Baileys.assign _ _ w2) as [w3|msg] eqn:Ha; cbn;
      [|by eapply Baileys_adds_quiet_trans].
    eapply Baileys_adds_quiet_trans; [exact H1|].
    eapply Baileys_adds_quiet_trans; [exact H2|].
    by eapply Baileys_adds_quiet_assign.
  - unfold Baileys.delete_session.
    destruct (Baileys.sessions w !! sessionId) as [s|];
      [|apply Baileys_adds_quiet_refl].
    pose proof (Baileys_adds_quiet_end_sock s t w) as H1.
    destruct (Baileys.end_sock s t w) as [w1 [[]|msg]]; cbn in H1; [|done].
    pose proof (Baileys_adds_quiet_remove_dir sessionId t w1) as H2.
    destruct (Baileys.remove_dir sessionId t w1) as [w2 [[]|msg]]; cbn in H2;
      [|by eapply Baileys_adds_quiet_trans].
    cbn. eapply Baileys_adds_quiet_trans; [exact H1|].
    eapply Baileys_adds_quiet_trans; [exact H2|].
    apply Baileys_adds_quiet_with_sessions.
  - unfold Baileys.connection_update.
    destruct (Baileys.on_qr sessionId u w) as [w1|e] eqn:Hq;
      [|apply Baileys_adds_quiet_refl].
    assert (H1 : Baileys_adds_quiet w w1).
    { unfold Baileys.on_qr in Hq. destruct (truthy (Baileys.qr u)).
      - by eapply Baileys_adds_quiet_assign.
      - injection Hq as <-. apply Baileys_adds_quiet_refl. }
    destruct (Baileys.on_open sessionId u sock_user w1) as [w2|e] eqn:Ho; [|done].
    assert (H2 : Baileys_adds_quiet w1 w2).
    { unfold Baileys.on_open in Ho. destruct (Baileys.connection u) as [[]|];
        try (injection Ho as <-; apply Baileys_adds_quiet_refl).
      by eapply Baileys_adds_quiet_assign. }
    assert (H3 : Baileys_adds_quiet w2 (Baileys.on_close sessionId u restart t w2).1).
    { unfold Baileys.on_close. destruct (Baileys.connection u) as [[]|];
        try apply Baileys_adds_quiet_refl.
      destruct (negb _); cbn.
      - apply Baileys_adds_quiet_start.
      - eapply Baileys_adds_quiet_trans; [apply Baileys_adds_quiet_with_sessions|].
        apply Baileys_adds_quiet_remove_dir. }
    destruct (Baileys.on_close sessionId u restart t w2) as [w3 [[]|e]]; cbn in *;
      (eapply Baileys_adds_quiet_trans; [exact H1|]);
      (eapply Baileys_adds_quiet_trans; [exact H2|]); exact H3.
  - unfold Baileys.messages_upsert.
    destruct m as [|msg rest]; [apply Baileys_adds_quiet_refl|].
    destruct (Baileys.message msg) as [c|]; [|apply Baileys_adds_quiet_refl].
    destruct (Baileys.assign _ _ w) as [w'|e] eqn:Ha; cbn;
      [|apply Baileys_adds_quiet_refl].
    by eapply Baileys_adds_quiet_assign.
Qed.

(** X10. The Baileys program hands a text to a socket in one situation only:
    a send-message request, with a number and a text, for a registered session
    whose authenticated flag is set; the socket is the one stored in that
    session and the recipient is the digits of the number followed by
    "@s.whatsapp.net".  No other request, event or failure path sends. *)
Theorem Baileys_sends_only_for_authenticated_sessions :
  ∀ w i sk jid text,
    Baileys.SendMessage sk jid text ∈ Baileys_new_effects w i →
    ∃ id s number message sent now,
      i = Baileys.PostSendMessage id number message sent now
      ∧ Baileys.sessions w !! id = Some s
      ∧ Baileys.isAuthenticated s = true
      ∧ Baileys.sock s = Some sk
      ∧ truthy number = true ∧ truthy message = true
      ∧ jid = strip_non_digits (default "" number) +:+ "@s.whatsapp.net"
      ∧ text = default "" message.
Proof.
  intros w i sk jid text Hin. unfold Baileys_new_effects in Hin.
  assert (Hquiet : Baileys_adds_quiet w (Baileys.step w i).1 → False).
  { intros (new & Hnew & Hq). rewrite Hnew, drop_app_length in Hin.
    rewrite Forall_forall in Hq. by apply Hq in Hin. }
  destruct i as [requested now startup | sessionId | sessionId number message sent now
    | sessionId | sessionId | sessionId t startup | sessionId t
    | sessionId u sock_user restart t | sessionId m];
    try (exfalso; apply Hquiet, Baileys_step_quiet; intros; discriminate).
  clear Hquiet. cbn [Baileys.step fst] in Hin.
  unfold Baileys.post_send_message in Hin.
  exists sessionId.
  destruct (Baileys.sessions w !! sessionId) as [s|];
    [|rewrite drop_all in Hin; by apply elem_of_nil in Hin].
  exists s, number, message, sent, now.
  destruct (Baileys.isAuthenticated s); cbn in Hin;
    [|rewrite drop_all in Hin; by apply elem_of_nil in Hin].
  destruct (truthy number); cbn in Hin;
    [|rewrite drop_all in Hin; by apply elem_of_nil in Hin].
  destruct (truthy message); cbn in Hin;
    [|rewrite drop_all in Hin; by apply elem_of_nil in Hin].
  destruct (Baileys.sock s) as [sk'|];
    [|rewrite drop_all in Hin; by apply elem_of_nil in Hin].
  assert (Hin' : Baileys.SendMessage sk jid text
                 ∈ [Baileys.SendMessage sk'
                      (strip_non_digits (default "" number) +:+ "@s.whatsapp.net")
                      (default "" message)]).
  { destruct sent; cbn in Hin; by rewrite drop_app_length in Hin. }
  apply list_elem_of_singleton in Hin'. injection Hin' as -> -> ->. done.
Qed.

Lemma Baileys_sends_only_for_authenticated_sessions_witness :
  ∃ s, Baileys.sessions Baileys_paired !! "s1" = Some s
       ∧ Baileys.isAuthenticated s = true ∧ Baileys.sock s = Some 0.
Proof.
  destruct (Baileys_sends_only_for_authenticated_sessions Baileys_paired
              (Baileys.PostSendMessage "s1" (Some "+55 (11) 99999-9999") (Some "oi")
                 (Returns "3EB0AA") 1700000400000)
              0 "5511999999999@s.whatsapp.net" "oi")
    as (id & s & number & message & sent & now & Hi & Hs & Ha & Hk & _).
  - vm_compute. apply list_elem_of_singleton. reflexivity.
  - injection Hi as <- _ _ _ _. by exists s.
Defined.

(** ** A restore that fails *)

(** X11. When POST /sessions/:id/restore of the Baileys program answers
    anything but success, the registry is what it was before: the flags are
    not reset and no new socket is stored or counted.  If the session had a
    socket, [end()] has been called on it all the same, so the entry is left
    with an ended socket. *)
Theorem failed_restore_keeps_registry :
  ∀ id t startup w,
    let '(w', out) := Baileys.post_restore id t startup w in
    out ≠ Reply Baileys.restored →
    Baileys.sessions w' = Baileys.sessions w
    ∧ Baileys.next_sock w' = Baileys.next_sock w
    ∧ (∀ s sk, Baileys.sessions w !! id = Some s → Baileys.sock s = Some sk →
         Baileys.effects w' = Baileys.effects w ++ [Baileys.SocketEnd sk])
    ∧ (∀ s, Baileys.sessions w !! id = Some s → Baileys.sock s = None →
         Baileys.effects w' = Baileys.effects w).
Proof.
  intros id t startup w.
  unfold Baileys.post_restore, Baileys.end_sock, Baileys.startWhatsAppSession,
    Baileys.assign.
  destruct (Baileys.sessions w !! id) as [s|] eqn:Hs; [|done].
  destruct (Baileys.sock s) as [old|] eqn:Hk, (Baileys.sock_end t) as [[]|e],
    startup as [[]|e']; cbn; rewrite ?Hs; cbn; try done;
    intros _; repeat split; try done;
    intros; simplify_eq; by rewrite ?app_nil_r.
Qed.

Lemma failed_restore_keeps_registry_witness :
  let w' := (Baileys.post_restore "s1" Baileys.teardown_ok
               (Throws "getaddrinfo ENOTFOUND") Baileys_paired).1 in
  Baileys.sessions w' = Baileys.sessions Baileys_paired
  ∧ Baileys.effects w' = Baileys.effects Baileys_paired ++ [Baileys.SocketEnd 0].
Proof.
  pose proof (failed_restore_keeps_registry "s1" Baileys.teardown_ok
                (Throws "getaddrinfo ENOTFOUND") Baileys_paired) as H.
  destruct (Baileys.post_restore "s1" Baileys.teardown_ok
              (Throws "getaddrinfo ENOTFOUND") Baileys_paired) as [w' out] eqn:E.
  assert (Hout : out ≠ Reply Baileys.restored).
  { vm_compute in E. injection E as _ <-. discriminate. }
  destruct (H Hout) as (Hs & _ & He & _). cbn. split; [exact Hs|].
  assert (Hl : ∃ s, Baileys.sessions Baileys_paired !! "s1" = Some s
                    ∧ Baileys.sock s = Some 0)
    by (eexists; split; vm_compute; reflexivity).
  destruct Hl as (s & Hl & Hk). exact (He s 0 Hl Hk).
Defined.

(** ** Session ids *)

Lemma resolve_id_given s now : s ≠ "" → resolve_id (Some s) now = s.
Proof.
  intros Hs. unfold resolve_id, js_or, truthy.
  destruct (String.eqb_spec s ""); done.
Qed.

Lemma generated_id_inj now now' : generated_id now = generated_id now' → now = now'.
Proof.
  unfold generated_id. intros H. apply string_app_inj in H.
  by apply (inj pretty) in H.
Qed.

(** X12. A start request takes the id it is given when that is a non-empty
    string; without one, or with the empty string, the id is "session_"
    followed by the clock in decimal.  Ids made at different clock readings
    differ, and a second request without id at the same reading meets the
    session of the first and is refused. *)
Theorem start_ids :
  (∀ s now, s ≠ "" → resolve_id (Some s) now = s)
  ∧ (∀ now, resolve_id None now = "session_" +:+ pretty now
            ∧ resolve_id (Some "") now = "session_" +:+ pretty now)
  ∧ (∀ now now', resolve_id None now = resolve_id None now' → now = now')
  ∧ (∀ now startup w,
       Baileys.sessions w !! resolve_id None now = None →
       (Baileys.post_start None now startup
          (Baileys.post_start None now (Returns ()) w).1).2
       = Reply (res_status_json 400 (error_body "Sessão já existe"))).
Proof.
  split; [exact resolve_id_given|]. split; [done|]. split.
  - intros now now' H. by apply generated_id_inj.
  - intros now startup w Hfresh.
    unfold Baileys.post_start at 2. rewrite Hfresh. cbn.
    unfold Baileys.assign. cbn. rewrite lookup_insert_eq. cbn.
    unfold Baileys.post_start. cbn. by rewrite lookup_insert_eq.
Qed.

Lemma start_ids_witness :
  resolve_id (Some "loja-1") 1700000000000 = "loja-1"
  ∧ (Baileys.post_start None 1700000500000 (Returns ())
       (Baileys.post_start None 1700000500000 (Returns ()) Baileys_started).1).2
    = Reply (res_status_json 400 (error_body "Sessão já existe")).
Proof.
  destruct start_ids as (Hgiven & _ & _ & Htwice). split.
  - apply Hgiven. discriminate.
  - apply Htwice. vm_compute. reflexivity.
Defined.

(** ** The stored form of an inbound message *)

(** X13. The body stored for an inbound message is its [conversation] text
    when that is non-empty, else the text of its extended text message when
    that is non-empty, else the placeholder; it is never the empty string. *)
Theorem stored_body_is_never_empty :
  ∀ msg c,
    Baileys.md_body (Baileys.messageData_of msg c) ≠ ""
    ∧ (truthy (Baileys.conversation c) = true →
       Some (Baileys.md_body (Baileys.messageData_of msg c)) = Baileys.conversation c)
    ∧ (truthy (Baileys.conversation c) = false →
       truthy (Baileys.extendedText c) = true →
       Some (Baileys.md_body (Baileys.messageData_of msg c)) = Baileys.extendedText c)
    ∧ (truthy (Baileys.conversation c) = false →
       truthy (Baileys.extendedText c) = false →
       Baileys.md_body (Baileys.messageData_of msg c) = "[Mídia ou outro tipo]").
Proof.
  intros msg c. cbn. unfold js_or.
  destruct (Baileys.conversation c) as [t|] eqn:Hc;
    destruct (Baileys.extendedText c) as [e|] eqn:He; cbn;
    repeat match goal with
           | |- context [String.eqb ?x ""] => destruct (String.eqb_spec x "")
           end; cbn; repeat split; try done; congruence.
Qed.

Lemma stored_body_is_never_empty_witness :
  Baileys.md_body
    (Baileys.messageData_of hello
       (Baileys.mkContent (Some "extendedTextMessage") (Some "") (Some "oi")
          None None None))
  = "oi".
Proof.
  destruct (stored_body_is_never_empty hello
              (Baileys.mkContent (Some "extendedTextMessage") (Some "") (Some "oi")
                 None None None)) as (_ & _ & H & _).
  apply (inj Some). exact (H eq_refl eq_refl).
Defined.

(** ** The image of a send-media request *)

Lemma split_on_cons sep c r :
  split_on sep (String c r)
  = if Ascii.eqb c sep then "" :: split_on sep r
    else match split_on sep r with
         | h :: t => String c h :: t
         | [] => [String c ""]
         end.
Proof. done. Qed.

Lemma split_on_whole s : no_comma s → split_on ","%char s = [s].
Proof.
  induction s as [|c s IH]; [done|].
  intros [Hc Hs]%Forall_cons. rewrite split_on_cons.
  destruct (Ascii.eqb_spec c ","%char); [done|]. by rewrite IH.
Qed.

Lemma split_on_first a b :
  no_comma a → split_on ","%char (a +:+ String ","%char b) = a :: split_on ","%char b.
Proof.
  induction a as [|c a IH]; [done|].
  intros [Hc Ha]%Forall_cons.
  change (String c a +:+ String ","%char b) with (String c (a +:+ String ","%char b)).
  rewrite split_on_cons.
  destruct (Ascii.eqb_spec c ","%char); [done|]. by rewrite IH.
Qed.

(** X14. The image text of a send-media request, [base64Data.split(',')[1] ||
    base64Data]: a text without comma is taken whole; of a data URL it is the
    part after the first comma, up to the next comma if there is one; and
    when nothing follows the first comma the whole text, comma included, is
    taken. *)
Theorem image_payload_cases :
  (∀ s, no_comma s → image_payload s = s)
  ∧ (∀ header data, no_comma header → no_comma data → data ≠ "" →
       image_payload (header +:+ "," +:+ data) = data)
  ∧ (∀ header data rest, no_comma header → no_comma data → data ≠ "" →
       image_payload (header +:+ "," +:+ data +:+ "," +:+ rest) = data)
  ∧ (∀ header, no_comma header →
       image_payload (header +:+ ",") = header +:+ ",").
Proof.
  assert (Htruthy : ∀ d, d ≠ "" → truthy (Some d) = true).
  { intros d Hd. cbn. by destruct (String.eqb_spec d ""). }
  unfold image_payload. repeat split.
  - intros s Hs. by rewrite split_on_whole.
  - intros header data Hh Hd Hne.
    change ("," +:+ data) with (String ","%char data).
    rewrite split_on_first, split_on_whole by done.
    cbn. unfold js_or. by rewrite Htruthy.
  - intros header data rest Hh Hd Hne.
    change ("," +:+ data +:+ "," +:+ rest)
      with (String ","%char (data +:+ String ","%char rest)).
    rewrite split_on_first, split_on_first by done.
    cbn. unfold js_or. by rewrite Htruthy.
  - intros header Hh. by rewrite split_on_first.
Qed.

Lemma image_payload_cases_witness :
  image_payload "data:image/png;base64,iVBORw0KGgo=" = "iVBORw0KGgo="
  ∧ image_payload "iVBORw0KGgo=" = "iVBORw0KGgo=".
Proof.
  destruct image_payload_cases as (Hwhole & Hurl & _). split.
  - apply (Hurl "data:image/png;base64" "iVBORw0KGgo=").
    + repeat constructor; discriminate.
    + repeat constructor; discriminate.
    + discriminate.
  - apply Hwhole. repeat constructor; discriminate.
Defined.

(** X15. The Baileys program hands an image to a socket only for a registered
    session whose authenticated flag is set and a request that names number,
    image and mime type; the socket is the stored one, the recipient the
    digits of the number followed by "@s.whatsapp.net", the image the text
    selected from [base64Data].  A session that is not authenticated is
    answered 'Sessão não autenticada' whatever the fields are. *)
Theorem media_is_sent_only_for_authenticated_sessions :
  ∀ id number base64Data mimeType caption sent now w,
    (∀ call,
       (Baileys.post_send_media id number base64Data mimeType caption sent now w).2
       = Some call →
       ∃ s, Baileys.sessions w !! id = Some s
            ∧ Baileys.isAuthenticated s = true
            ∧ Baileys.sock s = Some (Baileys.image_sock call)
            ∧ truthy number = true ∧ truthy base64Data = true
            ∧ truthy mimeType = true
            ∧ Baileys.image_jid call
              = strip_non_digits (default "" number) +:+ "@s.whatsapp.net"
            ∧ Baileys.image_base64 call = image_payload (default "" base64Data)
            ∧ Baileys.image_caption call = caption)
    ∧ (∀ s, Baileys.sessions w !! id = Some s → Baileys.isAuthenticated s = false →
         Baileys.post_send_media id number base64Data mimeType caption sent now w
         = (Reply not_authenticated, None)).
Proof.
  intros id number base64Data mimeType caption sent now w.
  unfold Baileys.post_send_media. split.
  - intros call.
    destruct (Baileys.sessions w !! id) as [s|] eqn:Hs; [|done].
    destruct (Baileys.isAuthenticated s) eqn:Ha; [|done]. cbn.
    destruct (truthy number) eqn:Hn, (truthy base64Data) eqn:Hb,
      (truthy mimeType) eqn:Hm; cbn; try done.
    destruct (Baileys.sock s) as [sk|] eqn:Hk; [|done].
    destruct sent; cbn; intros [= <-]; by exists s.
  - intros s -> ->. done.
Qed.

Lemma media_is_sent_only_for_authenticated_sessions_witness :
  (Baileys.post_send_media "s1" None None None None (Returns "3EB0") 0 Baileys_started)
  = (Reply not_authenticated, None).
Proof.
  refine (proj2 (media_is_sent_only_for_authenticated_sessions "s1" None None None
                   None (Returns "3EB0") 0%Z Baileys_started)
            (Baileys.mkSession false None (Some []) None (Some 0)) _ _).
  - vm_compute. reflexivity.
  - reflexivity.
Defined.

(** ** Listing and counting the sessions *)

(** X16. GET /sessions of the Baileys program answers one entry per
    registered session and nothing else, and GET / reports their number:
    the length of the list and the [sessions] field of the health reply are
    both the size of the registry, and an entry is in the list exactly when
    it is the summary of a registered session. *)
Theorem session_list_has_one_entry_per_session :
  ∀ w, ∃ entries,
    Baileys.get_sessions w = res_json (JArr entries)
    ∧ length entries = size (Baileys.sessions w)
    ∧ (∀ j, j ∈ entries ↔
            ∃ id s, Baileys.sessions w !! id = Some s ∧ j = Baileys.summary id s)
    ∧ json_field "sessions" (body (Baileys.health w))
      = Some (JNum (Z.of_nat (length entries))).
Proof.
  intros w. eexists. split; [reflexivity|].
  assert (Hlen : length ((λ entry, Baileys.summary entry.1 entry.2)
                         <$> map_to_list (Baileys.sessions w))
                 = size (Baileys.sessions w)).
  { by rewrite length_fmap, length_map_to_list. }
  split; [done|]. split.
  - intros j. rewrite list_elem_of_fmap. split.
    + intros ([id s] & -> & Hin). apply elem_of_map_to_list in Hin. by exists id, s.
    + intros (id & s & Hs & ->). exists (id, s). split; [done|].
      by apply elem_of_map_to_list.
  - cbn. by rewrite Hlen.
Qed.

(** ** The simulated fallback of the Render program *)

(** X17. When the browser cannot be started (the constructor or
    [initialize] throws) and the QR image can be made, a start request for a
    new id is answered success: the id is registered as a simulated session
    without client that holds the QR image and is not authenticated, and the
    30 s timer is armed.  GET /sessions/:id/qr answers that image at once;
    when the timer fires, the session is authenticated and connected. *)
Theorem start_without_browser_simulates :
  ∀ requested env code w,
    let id := resolve_id requested (Render.now env) in
    Render.sessions w !! id = None →
    (∃ e, Render.created env = Throws e) ∨ (∃ e, Render.initialized env = Throws e) →
    Render.testQRDataURL env = Returns code → truthy (Some code) = true →
    let '(w', out) := Render.post_start requested env w in
    (∃ r, out = Reply r ∧ is_error r = false)
    ∧ (∃ s, Render.sessions w' !! id = Some s
          ∧ Render.simulated s = true ∧ Render.client s = None
          ∧ Render.isAuthenticated s = false ∧ Render.qrCode s = Some code
          ∧ Render.qrRaw s
            = Some ("2@" +:+ pretty (Render.now env) +:+ Render.random env))
    ∧ Render.timers w' = Render.timers w ++ [Render.SimulatedAuth id]
    ∧ (∀ observed, Render.await_qr id observed w' = Some (Render.qr_reply true code))
    ∧ (∃ s, Render.sessions (Render.timer_fired (Render.SimulatedAuth id) w').1 !! id
            = Some s
          ∧ Render.isAuthenticated s = true ∧ Render.connected s = true).
Proof.
  intros requested env code w id Hfresh Hfail Hcode Htruthy. subst id.
  unfold Render.post_start. rewrite Hfresh.
  unfold Render.startWhatsAppSession.
  assert (Hsim : ∀ w0, Render.timers w0 = Render.timers w →
    let '(w', r) := Render.simulate (resolve_id requested (Render.now env)) env w0 in
    r = Returns None
    ∧ Render.sessions w' !! resolve_id requested (Render.now env)
      = Some (Render.set_qr (Some code)
                (Some ("2@" +:+ pretty (Render.now env) +:+ Render.random env))
                Render.simulated_session)
    ∧ Render.timers w'
      = Render.timers w ++ [Render.SimulatedAuth (resolve_id requested (Render.now env))]).
  { intros w0 Ht. unfold Render.simulate, Render.assign. rewrite Hcode. cbn.
    rewrite lookup_insert_eq. cbn. rewrite lookup_insert_eq. by rewrite Ht. }
  assert (Hgoal : ∀ w0, Render.timers w0 = Render.timers w →
    let '(w', out) :=
      match Render.simulate (resolve_id requested (Render.now env)) env w0 with
      | (w', Returns _) =>
          (w', Reply (res_json (JObj
             [("success", JBool true);
              ("sessionId", JStr (resolve_id requested (Render.now env)));
              ("message", JStr "Sessão iniciada. Use /sessions/[id]/qr para obter QR Code");
              ("note", JStr "No Render Free, o WhatsApp pode ter funcionalidade limitada")])))
      | (w', Throws msg) =>
          (w', Reply (res_status_json 500 (JObj
             [("success", JBool false);
              ("error", JStr msg);
              ("note", JStr "Para uso completo, considere um servidor com suporte a Chrome")])))
      end in
    (∃ r, out = Reply r ∧ is_error r = false)
    ∧ (∃ s, Render.sessions w' !! resolve_id requested (Render.now env) = Some s
          ∧ Render.simulated s = true ∧ Render.client s = None
          ∧ Render.isAuthenticated s = false ∧ Render.qrCode s = Some code
          ∧ Render.qrRaw s
            = Some ("2@" +:+ pretty (Render.now env) +:+ Render.random env))
    ∧ Render.timers w'
      = Render.timers w ++ [Render.SimulatedAuth (resolve_id requested (Render.now env))]
    ∧ (∀ observed, Render.await_qr (resolve_id requested (Render.now env)) observed w'
                   = Some (Render.qr_reply true code))
    ∧ (∃ s, Render.sessions
              (Render.timer_fired
                 (Render.SimulatedAuth (resolve_id requested (Render.now env))) w').1
              !! resolve_id requested (Render.now env) = Some s
          ∧ Render.isAuthenticated s = true ∧ Render.connected s = true)).
  { intros w0 Ht. specialize (Hsim w0 Ht).
    destruct (Render.simulate _ env w0) as [w' r]. destruct Hsim as (-> & Hs & Htm).
    split; [by eexists|]. split; [by eexists|]. split; [done|]. split.
    - intros observed. unfold Render.await_qr, Render.get_qr. rewrite Hs.
      cbn in Htruthy |- *. by rewrite Htruthy.
    - unfold Render.timer_fired. rewrite decide_True
        by (rewrite Htm; apply elem_of_app; right; apply list_elem_of_singleton; done).
      cbn. rewrite Hs. cbn. rewrite lookup_insert_eq. by eexists. }
  destruct (Render.created env) as [[]|e1] eqn:Hc.
  - destruct Hfail as [[e He]|[e He]]; [done|]. rewrite He. by apply Hgoal.
  - by apply Hgoal.
Qed.

Lemma start_without_browser_simulates_witness :
  Render.await_qr "s1" [] Render_fallback
  = Some (Render.qr_reply true "data:image/png;base64,AAAA").
Proof.
  pose proof (start_without_browser_simulates (Some "s1") chrome_missing
                "data:image/png;base64,AAAA" Render.initial) as H.
  cbn zeta in H. unfold Render_fallback. cbn [Render.run foldl Render.step].
  destruct (Render.post_start (Some "s1") chrome_missing Render.initial) as [w' out].
  destruct H as (_ & _ & _ & Hq & _).
  - vm_compute. reflexivity.
  - right. by eexists.
  - reflexivity.
  - reflexivity.
  - apply Hq.
Defined.

(** X18. When the browser cannot be started and making the QR image throws
    as well, the start request is answered 500 with that error, yet the id
    stays registered: as a simulated session without payload and without the
    timer that would authenticate it.  A second start request for the id is
    then answered 'Sessão já existe'. *)
Theorem failed_fallback_leaves_session_behind :
  ∀ requested env msg w,
    let id := resolve_id requested (Render.now env) in
    Render.sessions w !! id = None →
    (∃ e, Render.created env = Throws e) ∨ (∃ e, Render.initialized env = Throws e) →
    Render.testQRDataURL env = Throws msg →
    let '(w', out) := Render.post_start requested env w in
    (∃ r, out = Reply r ∧ status r = 500
          ∧ json_field "error" (body r) = Some (JStr msg))
    ∧ Render.sessions w' !! id = Some Render.simulated_session
    ∧ Render.timers w' = Render.timers w
    ∧ (∀ env', Render.now env' = Render.now env →
         Render.post_start requested env' w' = (w', Reply (Render.existing_reply id))).
Proof.
  intros requested env msg w id Hfresh Hfail Hurl. subst id.
  unfold Render.post_start at 1. rewrite Hfresh.
  unfold Render.startWhatsAppSession, Render.simulate. rewrite Hurl.
  assert (Hagain : ∀ w', Render.sessions w' !! resolve_id requested (Render.now env)
                         = Some Render.simulated_session →
    ∀ env', Render.now env' = Render.now env →
      Render.post_start requested env' w'
      = (w', Reply (Render.existing_reply (resolve_id requested (Render.now env))))).
  { intros w' Hs env' Hnow. unfold Render.post_start. by rewrite Hnow, Hs. }
  destruct (Render.created env) as [[]|e1].
  - destruct Hfail as [[e He]|[e He]]; [done|]. rewrite He.
    split; [by eexists|].
    assert (Hs : Render.sessions
                   (Render.with_sessions
                      (insert (resolve_id requested (Render.now env))
                         Render.simulated_session)
                      (Render.mkWorld
                         (<[resolve_id requested (Render.now env)
                            := Render.real_session (Render.next_client w)]>
                            (Render.sessions w))
                         (S (Render.next_client w)) (Render.timers w)
                         (Render.effects w
                          ++ [Render.ClientCreated
                                (resolve_id requested (Render.now env))
                                (Render.next_client w);
                              Render.ClientInitialize (Render.next_client w)])))
                 !! resolve_id requested (Render.now env)
                 = Some Render.simulated_session)
      by (cbn; apply lookup_insert_eq).
    split; [exact Hs|]. split; [done|]. by apply Hagain.
  - split; [by eexists|].
    assert (Hs : Render.sessions
                   (Render.with_sessions
                      (insert (resolve_id requested (Render.now env))
                         Render.simulated_session) w)
                 !! resolve_id requested (Render.now env)
                 = Some Render.simulated_session)
      by (cbn; apply lookup_insert_eq).
    split; [exact Hs|]. split; [done|]. by apply Hagain.
Qed.

Lemma failed_fallback_leaves_session_behind_witness :
  Render.get_status "s1"
    (Render.post_start (Some "s1")
       (Render.mkStartup (Throws "spawn chrome ENOENT") (Returns ()) 1700000600000
          "a1b2c3d4e" (Throws "canvas unavailable"))
       Render.initial).1
  = Reply (Render.status_reply Render.simulated_session).
Proof.
  pose proof (failed_fallback_leaves_session_behind (Some "s1")
                (Render.mkStartup (Throws "spawn chrome ENOENT") (Returns ())
                   1700000600000 "a1b2c3d4e" (Throws "canvas unavailable"))
                "canvas unavailable" Render.initial) as H.
  cbn zeta in H.
  destruct (Render.post_start _ _ Render.initial) as [w' out].
  destruct H as (_ & Hs & _).
  - vm_compute. reflexivity.
  - left. by eexists.
  - reflexivity.
  - unfold Render.get_status. cbn [fst].
    change (resolve_id (Some "s1") _) with "s1" in Hs. by rewrite Hs.
Defined.

(** ** Timers of the Render program *)

(** X19. A 'disconnected' event for a registered session clears its
    authenticated and connected flags, keeps its payload and messages, and
    arms the 5 s timer.  When the timer fires while the id is still
    registered, the client that was disconnected is initialized again; when
    the id has been removed by then, nothing happens. *)
Theorem disconnect_arms_guarded_reconnect :
  ∀ id c s w,
    Render.sessions w !! id = Some s →
    let '(w', out) := Render.on_disconnected id c w in
    out = Handled
    ∧ Render.sessions w'
      = <[id := Render.set_flags false false (Render.qrCode s) s]> (Render.sessions w)
    ∧ Render.timers w' = Render.timers w ++ [Render.Reconnect id c]
    ∧ Render.timer_fired (Render.Reconnect id c) w'
      = (Render.perform (Render.ClientInitialize c)
           (Render.timer_done (Render.Reconnect id c) w'), Handled)
    ∧ (∀ destroyed,
         let w2 := (Render.delete_session id destroyed w').1 in
         Render.sessions w2 !! id = None →
         Render.timer_fired (Render.Reconnect id c) w2
         = (Render.timer_done (Render.Reconnect id c) w2, Handled)).
Proof.
  intros id c s w Hs.
  destruct (Render.on_disconnected id c w) as [w' out] eqn:E.
  assert (H : out = Handled
              ∧ Render.sessions w'
                = <[id := Render.set_flags false false (Render.qrCode s) s]>
                    (Render.sessions w)
              ∧ Render.timers w' = Render.timers w ++ [Render.Reconnect id c]).
  { unfold Render.on_disconnected, Render.assign in E. rewrite Hs in E.
    by injection E as <- <-. }
  destruct H as (Hout & Hs' & Ht').
  split; [done|]. split; [done|]. split; [done|].
  assert (Hin : Render.Reconnect id c ∈ Render.timers w ++ [Render.Reconnect id c])
    by (apply elem_of_app; right; by apply list_elem_of_singleton).
  split.
  - unfold Render.timer_fired. rewrite Ht', decide_True by done.
    cbn. by rewrite Hs', lookup_insert_eq.
  - intros destroyed w2 Hgone.
    assert (Ht : Render.timers w2 = Render.timers w').
    { subst w2. unfold Render.delete_session. rewrite Hs', lookup_insert_eq. cbn.
      by destruct (Render.client s), destroyed. }
    unfold Render.timer_fired. rewrite Ht, Ht', decide_True by done.
    cbn. by rewrite Hgone.
Qed.

Lemma disconnect_arms_guarded_reconnect_witness :
  Render.timers (Render.on_disconnected "s1" 0 Render_started).1
  = [Render.Reconnect "s1" 0].
Proof.
  pose proof (disconnect_arms_guarded_reconnect "s1" 0 (Render.real_session 0)
                Render_started) as H.
  destruct (Render.on_disconnected "s1" 0 Render_started) as [w' out].
  destruct H as (_ & _ & Ht & _); [vm_compute; reflexivity|].
  exact Ht.
Defined.

(** X20. The 1 s timer of a restore is not guarded: if the session is
    destroyed after the restore and before the timer fires, the callback
    raises an exception; if the session is still registered, it initializes
    the client the restore destroyed. *)
Theorem restore_timer_needs_the_session :
  ∀ id s c w,
    Render.sessions w !! id = Some s → Render.client s = Some c →
    let w1 := (Render.post_restore id (Returns ()) w).1 in
    Render.timer_fired (Render.RestoreInit id) w1
    = (Render.perform (Render.ClientInitialize c)
         (Render.timer_done (Render.RestoreInit id) w1), Handled)
    ∧ (let w2 := (Render.delete_session id (Returns ()) w1).1 in
       Render.sessions w2 !! id = None
       ∧ Render.timer_fired (Render.RestoreInit id) w2
         = (Render.timer_done (Render.RestoreInit id) w2, Uncaught type_error)).
Proof.
  intros id s c w Hs Hc w1.
  assert (H1 : Render.sessions w1
               = <[id := Render.set_flags false false None s]> (Render.sessions w)
               ∧ Render.timers w1 = Render.timers w ++ [Render.RestoreInit id]).
  { subst w1. unfold Render.post_restore. rewrite Hs. cbn. by rewrite Hc. }
  destruct H1 as [Hs1 Ht1]. clearbody w1.
  assert (Hin : Render.RestoreInit id ∈ Render.timers w ++ [Render.RestoreInit id])
    by (apply elem_of_app; right; by apply list_elem_of_singleton).
  split.
  - unfold Render.timer_fired. rewrite Ht1, decide_True by done.
    cbn. rewrite Hs1, lookup_insert_eq. cbn. by rewrite Hc.
  - intros w2.
    assert (H2 : Render.sessions w2 = delete id (Render.sessions w1)
                 ∧ Render.timers w2 = Render.timers w1).
    { subst w2. unfold Render.delete_session. rewrite Hs1, lookup_insert_eq. cbn.
      rewrite Hc. cbn. by rewrite Hs1. }
    destruct H2 as [Hs2 Ht2].
    split; [by rewrite Hs2, lookup_delete_eq|].
    unfold Render.timer_fired. rewrite Ht2, Ht1, decide_True by done.
    cbn. by rewrite Hs2, lookup_delete_eq.
Qed.

Lemma restore_timer_needs_the_session_witness :
  (Render.timer_fired (Render.RestoreInit "s1")
     (Render.delete_session "s1" (Returns ())
        (Render.post_restore "s1" (Returns ()) Render_started).1).1).2
  = Uncaught type_error.
Proof.
  destruct (restore_timer_needs_the_session "s1" (Render.real_session 0) 0
              Render_started) as (_ & _ & H).
  - vm_compute. reflexivity.
  - reflexivity.
  - by rewrite H.
Defined.

(** ** Real and simulated sessions of the Render program *)

Lemma Render_client_or_simulated_reachable w id s :
  Render.reachable w → Render.sessions w !! id = Some s →
  Render_client_or_simulated s.
Proof.
  intros Hw Hs.
  refine (Render_all_reachable Render_client_or_simulated _ _ _ _ _ _ w Hw id s Hs);
    unfold Render_client_or_simulated; cbn; done.
Qed.

(** X21. In every state the Render program can reach, a session is simulated
    exactly when it has no client.  Hence a send-message request with number
    and text for an authenticated session that is not simulated always
    reaches the client: the branch 'Cliente não disponível' is never taken. *)
Theorem simulated_sessions_are_those_without_client :
  ∀ w id s,
    Render.reachable w → Render.sessions w !! id = Some s →
    (Render.client s = None ↔ Render.simulated s = true)
    ∧ (∀ number text env,
         Render.simulated s = false → Render.isAuthenticated s = true →
         truthy number = true → truthy text = true →
         ∃ c, Render.client s = Some c
              ∧ Render.effects (Render.post_send_message id number text env w).1
                = Render.effects w
                  ++ [Render.ClientSend c
                        (strip_non_digits (default "" number) +:+ "@c.us")
                        (default "" text)]).
Proof.
  intros w id s Hw Hs.
  pose proof (Render_client_or_simulated_reachable w id s Hw Hs) as Hinv.
  split; [exact Hinv|].
  intros number text env Hsim Ha Hn Ht.
  destruct (Render.client s) as [c|] eqn:Hc.
  - exists c. split; [done|].
    unfold Render.post_send_message. rewrite Hs, Hn, Ht, Hsim, Ha, Hc. cbn.
    by destruct (Render.sent env) as [[]|].
  - destruct Hinv as [Hinv _]. rewrite Hinv in Hsim; done.
Qed.

Lemma simulated_sessions_are_those_without_client_witness :
  Render.client <$> Render.sessions Render_fallback !! "s1" = Some None.
Proof.
  destruct (Render.sessions Render_fallback !! "s1") as [s|] eqn:Hs;
    [|vm_compute in Hs; discriminate Hs].
  cbn. f_equal.
  apply (simulated_sessions_are_those_without_client Render_fallback "s1" s).
  - eexists [_]. reflexivity.
  - exact Hs.
  - vm_compute in Hs. injection Hs as <-. reflexivity.
Defined.

(** X22. POST /sessions/:id/send-media of the Render program succeeds for
    simulated sessions only: the reply is no error exactly when the id is
    registered, the three fields are given and the session is simulated.  A
    real session is answered 'Sessão não autenticada' or, once authenticated,
    the 501 'not supported'. *)
Theorem media_succeeds_only_for_simulated_sessions :
  ∀ id number base64Data mimeType now_id now_ts w,
    (is_error (Render.post_send_media id number base64Data mimeType now_id now_ts w)
     = false
     ↔ ∃ s, Render.sessions w !! id = Some s ∧ Render.simulated s = true
            ∧ truthy number = true ∧ truthy base64Data = true
            ∧ truthy mimeType = true)
    ∧ (∀ s, Render.sessions w !! id = Some s → Render.simulated s = false →
         truthy number = true → truthy base64Data = true → truthy mimeType = true →
         Render.post_send_media id number base64Data mimeType now_id now_ts w
         = if Render.isAuthenticated s then Render.media_unsupported
           else not_authenticated).
Proof.
  intros id number base64Data mimeType now_id now_ts w.
  unfold Render.post_send_media. split.
  - destruct (Render.sessions w !! id) as [s|] eqn:Hs.
    + destruct (truthy number) eqn:Hn, (truthy base64Data) eqn:Hb,
        (truthy mimeType) eqn:Hm; cbn;
        try (split; [done|by intros (s' & _ & _ & ? & ? & ?)]).
      destruct (Render.simulated s) eqn:Hsim.
      * split; [intros _; by exists s|done].
      * destruct (Render.isAuthenticated s); cbn;
          (split; [done|]); intros (s' & [= <-] & Hsim' & _); congruence.
    + split; [done|]. by intros (s' & Hs' & _).
  - intros s -> -> -> -> ->. cbn. by destruct (Render.isAuthenticated s).
Qed.

Lemma media_succeeds_only_for_simulated_sessions_witness :
  Render.post_send_media "s1" (Some "5511999999999") (Some "iVBORw0KGgo=")
    (Some "image/png") 1700000700000 1700000700001
    (Render.run Render_started [Render.Ready "s1"])
  = Render.media_unsupported.
Proof.
  refine (proj2 (media_succeeds_only_for_simulated_sessions "s1"
                   (Some "5511999999999") (Some "iVBORw0KGgo=") (Some "image/png")
                   1700000700000%Z 1700000700001%Z
                   (Render.run Render_started [Render.Ready "s1"]))
            (Render.mkSession (Some 0) None true (Some []) true false None)
            _ _ _ _ _).
  - vm_compute. reflexivity.
  - reflexivity.
  - reflexivity.
  - reflexivity.
  - reflexivity.
Defined.

(** X23. Reading the messages twice gives the same answer and changes nothing
    the second time: after GET /sessions/:id/messages, a further call leaves
    the world as it is and repeats the reply, whatever the clock shows; and
    for a session that is not simulated the first call changes nothing
    either. *)
Theorem get_messages_is_idempotent :
  ∀ id now now' w,
    let '(w1, out1) := Render.get_messages id now w in
    Render.get_messages id now' w1 = (w1, out1)
    ∧ (∀ s, Render.sessions w !! id = Some s → Render.simulated s = false → w1 = w).
Proof.
  intros id now now' w. unfold Render.get_messages.
  destruct (Render.sessions w !! id) as [s|] eqn:Hs.
  - destruct (Render.simulated s && Render.no_messages (Render.messages s)) eqn:E.
    + cbn. rewrite lookup_insert_eq. cbn.
      apply andb_true_iff in E as [Hsim _]. rewrite Hsim. cbn.
      split; [done|]. intros s' [= <-]. congruence.
    + rewrite Hs, E. split; [done|]. done.
  - rewrite Hs. done.
Qed.

Lemma get_messages_is_idempotent_witness :
  (Render.get_messages "s1" 1700000800000 Render_started).1 = Render_started.
Proof.
  pose proof (get_messages_is_idempotent "s1" 1700000800000%Z 1700000900000%Z
                Render_started) as H.
  destruct (Render.get_messages "s1" 1700000800000 Render_started) as [w1 out1].
  destruct H as [_ H]. apply (H (Render.real_session 0)).
  - vm_compute. reflexivity.
  - reflexivity.
Defined.

(** ** What the Render program sends *)

Lemma Render_adds_quiet_refl w : Render_adds_quiet w w.
Proof. exists []. by rewrite app_nil_r. Qed.

Lemma Render_adds_quiet_eq w w' :
  Render.effects w' = Render.effects w → Render_adds_quiet w w'.
Proof. intros H. exists []. by rewrite app_nil_r. Qed.

Lemma Render_adds_quiet_trans w1 w2 w3 :
  Render_adds_quiet w1 w2 → Render_adds_quiet w2 w3 → Render_adds_quiet w1 w3.
Proof.
  intros (n1 & H1 & Q1) (n2 & H2 & Q2). exists (n1 ++ n2).
  rewrite H2, H1, app_assoc. split; [done|]. by apply Forall_app.
Qed.

Lemma Render_adds_quiet_perform e w :
  Render_quiet e → Render_adds_quiet w (Render.perform e w).
Proof. intros He. exists [e]. split; [done|]. by constructor. Qed.

Lemma Render_adds_quiet_assign id f w w' :
  Render.assign id f w = Returns w' → Render_adds_quiet w w'.
Proof.
  unfold Render.assign. destruct (Render.sessions w !! id); [|done].
  intros [= <-]. by apply Render_adds_quiet_eq.
Qed.

Lemma Render_adds_quiet_simulate id env w :
  Render_adds_quiet w (Render.simulate id env w).1.
Proof.
  unfold Render.simulate.
  destruct (Render.testQRDataURL env) as [code|e]; [|by apply Render_adds_quiet_eq].
  destruct (Render.assign id _ _) as [w2|e] eqn:Ha; [|by apply Render_adds_quiet_eq].
  cbn. apply Render_adds_quiet_assign in Ha.
  destruct Ha as (new & Hnew & Hq). exists new. split; [|done].
  cbn in *. exact Hnew.
Qed.

Lemma Render_adds_quiet_start id env w :
  Render_adds_quiet w (Render.startWhatsAppSession id env w).1.
Proof.
  unfold Render.startWhatsAppSession.
  destruct (Render.created env); [|apply Render_adds_quiet_simulate].
  set (w1 := Render.mkWorld _ _ _ _).
  assert (H1 : Render_adds_quiet w w1).
  { eexists [_; _]. split; [done|]. by repeat constructor. }
  destruct (Render.initialized env); [done|].
  eapply Render_adds_quiet_trans; [exact H1|apply Render_adds_quiet_simulate].
Qed.

Lemma Render_adds_quiet_fire t w : Render_adds_quiet w (Render.fire t w).1.
Proof.
  destruct t as [id|id c|id]; cbn.
  - destruct (Render.sessions w !! id) as [s|]; [|apply Render_adds_quiet_refl].
    destruct (Render.simulated s); [|apply Render_adds_quiet_refl].
    by apply Render_adds_quiet_eq.
  - destruct (Render.sessions w !! id); [|apply Render_adds_quiet_refl].
    by apply Render_adds_quiet_perform.
  - destruct (Render.sessions w !! id) as [s|]; [|apply Render_adds_quiet_refl].
    destruct (Render.client s); [|apply Render_adds_quiet_refl].
    by apply Render_adds_quiet_perform.
Qed.

Lemma Render_step_quiet w i :
  (∀ id number text env, i ≠ Render.PostSendMessage id number text env) →
  Render_adds_quiet w (Render.step w i).1.
Proof.
  intros Hi.
  destruct i as [requested env | sessionId | sessionId number text env
    | sessionId now | sessionId | sessionId destroyed | sessionId destroyed
    | sessionId qr dataURL | sessionId | sessionId | sessionId msg downloaded
    | sessionId c | t]; cbn [Render.step fst];
    try apply Render_adds_quiet_refl.
  - unfold Render.post_start.
    destruct (Render.sessions w !! resolve_id requested (Render.now env));
      [apply Render_adds_quiet_refl|].
    pose proof (Render_adds_quiet_start (resolve_id requested (Render.now env)) env w)
      as H.
    by destruct (Render.startWhatsAppSession _ env w) as [w' [c|msg]].
  - by destruct (Hi sessionId number text env).
  - unfold Render.get_messages.
    destruct (Render.sessions w !! sessionId) as [s|]; [|apply Render_adds_quiet_refl].
    destruct (Render.simulated s && Render.no_messages (Render.messages s));
      [by apply Render_adds_quiet_eq|apply Render_adds_quiet_refl].
  - unfold Render.post_restore.
    destruct (Render.sessions w !! sessionId) as [s|]; [|apply Render_adds_quiet_refl].
    cbn. destruct (Render.client s); [|by apply Render_adds_quiet_eq].
    destruct destroyed; cbn; eexists [_]; (split; [done|]); by constructor.
  - unfold Render.delete_session.
    destruct (Render.sessions w !! sessionId) as [s|]; [|apply Render_adds_quiet_refl].
    destruct (Render.client s); [|by apply Render_adds_quiet_eq].
    destruct destroyed; cbn; eexists [_]; (split; [done|]); by constructor.
  - unfold Render.on_qr. destruct dataURL; [|apply Render_adds_quiet_refl].
    destruct (Render.assign _ _ w) as [w'|e] eqn:Ha; [|apply Render_adds_quiet_refl].
    by eapply Render_adds_quiet_assign.
  - unfold Render.on_ready.
    destruct (Render.assign _ _ w) as [w'|e] eqn:Ha; [|apply Render_adds_quiet_refl].
    by eapply Render_adds_quiet_assign.
  - unfold Render.on_authenticated.
    destruct (Render.assign _ _ w) as [w'|e] eqn:Ha; [|apply Render_adds_quiet_refl].
    by eapply Render_adds_quiet_assign.
  - unfold Render.on_message.
    destruct (Render.assign _ _ w) as [w'|e] eqn:Ha; [|apply Render_adds_quiet_refl].
    by eapply Render_adds_quiet_assign.
  - unfold Render.on_disconnected.
    destruct (Render.assign _ _ w) as [w'|e] eqn:Ha; [|apply Render_adds_quiet_refl].
    cbn. apply Render_adds_quiet_assign in Ha.
    destruct Ha as (new & Hnew & Hq). by exists new.
  - unfold Render.timer_fired.
    destruct (decide (t ∈ Render.timers w)); [|apply Render_adds_quiet_refl].
    eapply Render_adds_quiet_trans; [|apply Render_adds_quiet_fire].
    by apply Render_adds_quiet_eq.
Qed.

(** X24. The Render program hands a text to a client in one situation only:
    a send-message request, with a number and a text, for a registered session
    that is not simulated, whose authenticated flag is set and that has a
    client; the recipient is the digits of the number followed by "@c.us".
    No other request, event or timer sends, and a simulated session never
    does. *)
Theorem Render_sends_only_for_real_authenticated_sessions :
  ∀ w i c chatId text,
    Render.ClientSend c chatId text ∈ Render_new_effects w i →
    ∃ id s number message env,
      i = Render.PostSendMessage id number message env
      ∧ Render.sessions w !! id = Some s
      ∧ Render.simulated s = false
      ∧ Render.isAuthenticated s = true
      ∧ Render.client s = Some c
      ∧ truthy number = true ∧ truthy message = true
      ∧ chatId = strip_non_digits (default "" number) +:+ "@c.us"
      ∧ text = default "" message.
Proof.
  intros w i c chatId text Hin. unfold Render_new_effects in Hin.
  assert (Hquiet : Render_adds_quiet w (Render.step w i).1 → False).
  { intros (new & Hnew & Hq). rewrite Hnew, drop_app_length in Hin.
    rewrite Forall_forall in Hq. by apply Hq in Hin. }
  destruct i as [requested env | sessionId | sessionId number message env
    | sessionId now | sessionId | sessionId destroyed | sessionId destroyed
    | sessionId qr dataURL | sessionId | sessionId | sessionId msg downloaded
    | sessionId c' | t];
    try (exfalso; apply Hquiet, Render_step_quiet; intros; discriminate).
  clear Hquiet. cbn [Render.step fst] in Hin.
  unfold Render.post_send_message in Hin.
  exists sessionId.
  destruct (Render.sessions w !! sessionId) as [s|];
    [|rewrite drop_all in Hin; by apply elem_of_nil in Hin].
  exists s, number, message, env.
  destruct (truthy number); cbn in Hin;
    [|rewrite drop_all in Hin; by apply elem_of_nil in Hin].
  destruct (truthy message); cbn in Hin;
    [|rewrite drop_all in Hin; by apply elem_of_nil in Hin].
  destruct (Render.simulated s); cbn in Hin;
    [rewrite drop_all in Hin; by apply elem_of_nil in Hin|].
  destruct (Render.isAuthenticated s); cbn in Hin;
    [|rewrite drop_all in Hin; by apply elem_of_nil in Hin].
  destruct (Render.client s) as [c'|];
    [|rewrite drop_all in Hin; by apply elem_of_nil in Hin].
  assert (Hin' : Render.ClientSend c chatId text
                 ∈ [Render.ClientSend c'
                      (strip_non_digits (default "" number) +:+ "@c.us")
                      (default "" message)]).
  { destruct (Render.sent env) as [[]|]; cbn in Hin;
      by rewrite drop_app_length in Hin. }
  apply list_elem_of_singleton in Hin'. injection Hin' as -> -> ->. done.
Qed.

Lemma Render_sends_only_for_real_authenticated_sessions_witness :
  ∃ s, Render.sessions (Render.run Render_started [Render.Ready "s1"]) !! "s1" = Some s
       ∧ Render.simulated s = false ∧ Render.client s = Some 0.
Proof.
  destruct (Render_sends_only_for_real_authenticated_sessions
              (Render.run Render_started [Render.Ready "s1"])
              (Render.PostSendMessage "s1" (Some "+55 (11) 99999-9999") (Some "oi")
                 send_env)
              0 "5511999999999@c.us" "oi")
    as (id & s & number & message & env & Hi & Hs & Hsim & _ & Hc & _).
  - vm_compute. apply list_elem_of_singleton. reflexivity.
  - injection Hi as <- _ _ _. by exists s.
Defined.

(** X25. GET /system/info reports the size of the registry as
    [current_sessions] and never reports more simulated sessions than
    sessions; in every reachable state [simulated_sessions] is the number of
    sessions that have no client. *)
Theorem system_info_counts :
  ∀ w, ∃ total simulated,
    json_field "current_sessions" (body (Render.system_info w))
    = Some (JNum (Z.of_nat total))
    ∧ json_field "simulated_sessions" (body (Render.system_info w))
      = Some (JNum (Z.of_nat simulated))
    ∧ total = size (Render.sessions w)
    ∧ simulated ≤ total
    ∧ (Render.reachable w →
       simulated
       = size (filter (λ entry : string * Render.Session, Render.client entry.2 = None)
                 (Render.sessions w))).
Proof.
  intros w. eexists _, _. split; [reflexivity|]. split; [reflexivity|].
  split; [done|]. split; [apply map_size_filter|].
  intros Hw. f_equal. apply map_filter_ext. intros id s Hs. cbn.
  symmetry. by apply (Render_client_or_simulated_reachable w id s).
Qed.

Lemma system_info_counts_witness :
  json_field "simulated_sessions" (body (Render.system_info Render_fallback))
  = Some (JNum 1)
  ∧ size (filter (λ entry : string * Render.Session, Render.client entry.2 = None)
            (Render.sessions Render_fallback)) = 1.
Proof.
  destruct (system_info_counts Render_fallback)
    as (total & simulated & _ & Hsim & _ & _ & Hreach).
  assert (Hone : json_field "simulated_sessions" (body (Render.system_info Render_fallback))
                 = Some (JNum 1)) by (vm_compute; reflexivity).
  split; [exact Hone|].
  rewrite <- Hreach by (eexists [_]; reflexivity).
  rewrite Hone in Hsim. injection Hsim as Hsim. lia.
Defined.

(** * The second whatsapp-web.js program *)

Lemma Basic_consistent_step w i :
  Basic_consistent w → Basic_consistent (Basic.step w i).1.
Proof.
  intros Hw.
  destruct i as [requested now constructed | sessionId | sessionId destroyed
    | sessionId number text sent
    | sessionId number base64Data mimeType caption filename sent
    | sessionId | sessionId | sessionId destroyed saved
    | sessionId code dataURL | sessionId saved | sessionId msg downloaded
    | sessionId | sessionId]; cbn [Basic.step fst]; try done.
  - unfold Basic.post_start.
    destruct (Basic.sessions w !! resolve_id requested now) eqn:E; [done|].
    destruct constructed; [|done]. cbn. intros id s. cbn.
    destruct (decide (resolve_id requested now = id)) as [->|Hne].
    + rewrite !lookup_insert_eq. intros [= <-]. cbn. split; [lia|]. by eexists.
    + rewrite !lookup_insert_ne by done. apply Hw.
  - unfold Basic.post_restore.
    destruct (Basic.sessions w !! sessionId); [|done]. by destruct destroyed.
  - unfold Basic.post_send_message.
    destruct (Basic.sessions w !! sessionId) as [s|]; [|done].
    destruct (negb (Basic.isAuthenticated s)); [done|].
    destruct (negb (truthy number) || negb (truthy text)); [done|].
    by destruct sent as [[]|].
  - unfold Basic.post_send_media.
    destruct (Basic.sessions w !! sessionId) as [s|]; [|done].
    destruct (negb (Basic.isAuthenticated s)); [done|].
    destruct (negb (truthy number) || negb (truthy base64Data) || negb (truthy mimeType));
      [done|].
    by destruct sent as [[]|].
  - unfold Basic.delete_session.
    destruct (Basic.sessions w !! sessionId) as [s0|]; [|done].
    destruct destroyed; [|done].
    assert (H : Basic_consistent
                  (Basic.with_states (delete sessionId)
                     (Basic.with_sessions (delete sessionId)
                        (Basic.perform (Basic.ClientDestroy (Basic.client s0)) w)))).
    { intros id s. cbn. intros [Hne Hs]%lookup_delete_Some.
      rewrite lookup_delete_ne by done. by apply Hw. }
    by destruct saved.
  - unfold Basic.on_qr.
    destruct (Basic.sessionStates w !! sessionId) as [st0|] eqn:Est; [|done].
    assert (H1 : Basic_consistent
                   (Basic.with_states
                      (insert sessionId (Basic.mkState (Some code) (Basic.ready st0))) w)).
    { intros id s Hs. cbn in *. destruct (Hw id s Hs) as (Hlen & st & Hst & Hr).
      split; [done|]. destruct (decide (sessionId = id)) as [->|Hne].
      - rewrite lookup_insert_eq. eexists. split; [done|]. cbn. congruence.
      - rewrite lookup_insert_ne by done. by exists st. }
    destruct dataURL; [|done]. cbn.
    destruct (Basic.sessions w !! sessionId) as [s0|] eqn:Es; [|done].
    cbn. intros id s. cbn.
    destruct (decide (sessionId = id)) as [->|Hne].
    + rewrite lookup_insert_eq. intros [= <-]. cbn.
      destruct (H1 id s0 Es) as (Hlen & st & Hst & Hr). cbn in Hst. split; [done|].
      by exists st.
    + rewrite lookup_insert_ne by done. intros Hs. by apply (H1 id s).
  - unfold Basic.on_ready.
    destruct (Basic.sessions w !! sessionId) as [s0|] eqn:Es; [|done].
    cbn. destruct (Hw sessionId s0 Es) as (Hlen0 & st0 & Hst0 & Hr0).
    rewrite Hst0.
    assert (H : Basic_consistent
                  (Basic.with_states
                     (insert sessionId (Basic.mkState (Basic.qr st0) true))
                     (Basic.with_sessions
                        (insert sessionId
                           (Basic.mkSession (Basic.client s0) (Basic.qrCode s0) true
                              (Basic.messages s0))) w))).
    { intros id s. cbn. destruct (decide (sessionId = id)) as [->|Hne].
      - rewrite !lookup_insert_eq. intros [= <-]. cbn. split; [done|]. by eexists.
      - rewrite !lookup_insert_ne by done. apply Hw. }
    by destruct saved.
  - unfold Basic.on_message.
    destruct (Basic.sessions w !! sessionId) as [s0|] eqn:Es; [|done].
    cbn. intros id s. cbn. destruct (decide (sessionId = id)) as [->|Hne].
    + rewrite lookup_insert_eq. intros [= <-]. cbn.
      destruct (Hw id s0 Es) as (_ & st & Hst & Hr).
      split; [apply append_message_bound|]. by exists st.
    + rewrite lookup_insert_ne by done. apply Hw.
  - unfold Basic.on_disconnected. cbn. intros id s. cbn.
    intros [Hne Hs]%lookup_delete_Some. rewrite lookup_delete_ne by done.
    by apply Hw.
  - unfold Basic.restore_timer.
    destruct (decide (sessionId ∈ Basic.timers w)); [|done]. cbn.
    by destruct (Basic.sessions w !! sessionId).
Qed.

Lemma Basic_consistent_reachable w : Basic.reachable w → Basic_consistent w.
Proof.
  intros [inputs ->].
  assert (H : ∀ w, Basic_consistent w → Basic_consistent (Basic.run w inputs)).
  { induction inputs as [|i inputs IH]; intros w Hw; [done|].
    cbn. apply IH. by apply Basic_consistent_step. }
  apply H. intros id s. cbn. by rewrite lookup_empty.
Qed.

(** X26. In every state the second whatsapp-web.js program can reach, a
    session holds at most 100 messages and the [status] word of
    GET /sessions/:id/status is 'ready' exactly when the session is
    authenticated: the two maps [sessions] and [sessionStates] stay in step. *)
Theorem Basic_status_follows_authentication :
  ∀ w id s,
    Basic.reachable w → Basic.sessions w !! id = Some s →
    length (Basic.messages s) ≤ 100
    ∧ Basic.status_word id w
      = (if Basic.isAuthenticated s then "ready" else "waiting_qr")
    ∧ ∃ r, Basic.get_status id w = Reply r
           ∧ json_field "isAuthenticated" (body r)
             = Some (JBool (Basic.isAuthenticated s))
           ∧ json_field "status" (body r)
             = Some (JStr (if Basic.isAuthenticated s then "ready" else "waiting_qr")).
Proof.
  intros w id s Hw Hs.
  destruct (Basic_consistent_reachable w Hw id s Hs) as (Hlen & st & Hst & Hr).
  assert (Hword : Basic.status_word id w
                  = if Basic.isAuthenticated s then "ready" else "waiting_qr").
  { unfold Basic.status_word. rewrite Hst, Hr. done. }
  split; [done|]. split; [done|].
  unfold Basic.get_status. rewrite Hs. eexists. split; [done|]. cbn.
  by rewrite Hword.
Qed.

Lemma Basic_status_follows_authentication_witness :
  Basic.status_word "s1" Basic_ready = "ready".
Proof.
  assert (Hs : ∃ s, Basic.sessions Basic_ready !! "s1" = Some s
                    ∧ Basic.isAuthenticated s = true)
    by (eexists; split; vm_compute; reflexivity).
  destruct Hs as (s & Hs & Ha).
  destruct (Basic_status_follows_authentication Basic_ready "s1" s) as (_ & Hw & _).
  - eexists (_ :: _ :: _ :: []). reflexivity.
  - exact Hs.
  - by rewrite Hw, Ha.
Defined.

(** X27. Any 'disconnected' event of the second whatsapp-web.js program
    removes the session and its state, leaves every other session alone and
    arms no reconnection; the status, QR, messages and send-message routes
    answer 404 for the id afterwards. *)
Theorem Basic_disconnect_removes_session :
  ∀ id w,
    let w' := (Basic.on_disconnected id w).1 in
    Basic.sessions w' = delete id (Basic.sessions w)
    ∧ Basic.sessionStates w' = delete id (Basic.sessionStates w)
    ∧ Basic.effects w' = Basic.effects w
    ∧ Basic.timers w' = Basic.timers w
    ∧ Basic.get_status id w' = Reply not_found
    ∧ Basic.get_qr id w' = Reply not_found
    ∧ Basic.get_messages id w' = Reply not_found
    ∧ (∀ number text sent,
         Basic.post_send_message id number text sent w' = (w', Reply not_found))
    ∧ (∀ other, other ≠ id →
         Basic.get_status other w' = Basic.get_status other w).
Proof.
  intros id w w'. subst w'. unfold Basic.on_disconnected. cbn.
  repeat split.
  - unfold Basic.get_status. cbn. by rewrite lookup_delete_eq.
  - unfold Basic.get_qr. cbn. by rewrite lookup_delete_eq.
  - unfold Basic.get_messages. cbn. by rewrite lookup_delete_eq.
  - intros number text sent. unfold Basic.post_send_message. cbn.
    by rewrite lookup_delete_eq.
  - intros other Hne. unfold Basic.get_status, Basic.status_word. cbn.
    by rewrite !lookup_delete_ne.
Qed.

Lemma Basic_disconnect_removes_session_witness :
  Basic.get_status "s2" (Basic.on_disconnected "s1" Basic_ready).1
  = Basic.get_status "s2" Basic_ready.
Proof.
  destruct (Basic_disconnect_removes_session "s1" Basic_ready)
    as (_ & _ & _ & _ & _ & _ & _ & _ & H).
  apply H. discriminate.
Defined.

(** X28. Second whatsapp-web.js program, started without saved sessions and
    as long as POST /restore-sessions is not used (that route replaces the
    whole registry by what it is sent and is no input of [Basic.step]): the
    'ready' handler sets the authenticated flag and keeps the pairing
    payload, and none of the other requests, client events and timers
    clears the flag again: as long as the entry exists, it stays
    authenticated, also across POST /sessions/:id/restore. *)
Theorem Basic_authentication_is_permanent :
  (∀ id s st saved w,
     Basic.sessions w !! id = Some s → Basic.sessionStates w !! id = Some st →
     Basic.sessions (Basic.on_ready id saved w).1 !! id
     = Some (Basic.mkSession (Basic.client s) (Basic.qrCode s) true (Basic.messages s)))
  ∧ (∀ w i id s s',
     Basic.sessions w !! id = Some s → Basic.isAuthenticated s = true →
     Basic.sessions (Basic.step w i).1 !! id = Some s' →
     Basic.isAuthenticated s' = true).
Proof.
  split.
  - intros id s st saved w Hs Hst. unfold Basic.on_ready. rewrite Hs. cbn.
    rewrite Hst. destruct saved; cbn; by rewrite lookup_insert_eq.
  - intros w i id s s' Hs Ha.
    destruct i as [requested now constructed | sessionId | sessionId destroyed
      | sessionId number text sent
      | sessionId number base64Data mimeType caption filename sent
      | sessionId | sessionId | sessionId destroyed saved
      | sessionId code dataURL | sessionId saved | sessionId msg downloaded
      | sessionId | sessionId]; cbn [Basic.step fst];
      try (cbn; rewrite Hs; by intros [= <-]).
    + unfold Basic.post_start.
      destruct (Basic.sessions w !! resolve_id requested now) eqn:E;
        [cbn; rewrite Hs; by intros [= <-]|].
      destruct constructed; [|cbn; rewrite Hs; by intros [= <-]].
      cbn. rewrite lookup_insert_ne by congruence. cbn; rewrite Hs; by intros [= <-].
    + unfold Basic.post_restore.
      destruct (Basic.sessions w !! sessionId); [|cbn; rewrite Hs; by intros [= <-]].
      destruct destroyed; cbn; rewrite Hs; by intros [= <-].
    + unfold Basic.post_send_message.
      destruct (Basic.sessions w !! sessionId) as [s0|]; [|cbn; rewrite Hs; by intros [= <-]].
      destruct (negb (Basic.isAuthenticated s0)); [cbn; rewrite Hs; by intros [= <-]|].
      destruct (negb (truthy number) || negb (truthy text));
        [cbn; rewrite Hs; by intros [= <-]|].
      destruct sent as [[]|]; cbn; rewrite Hs; by intros [= <-].
    + unfold Basic.post_send_media.
      destruct (Basic.sessions w !! sessionId) as [s0|]; [|cbn; rewrite Hs; by intros [= <-]].
      destruct (negb (Basic.isAuthenticated s0)); [cbn; rewrite Hs; by intros [= <-]|].
      destruct (negb (truthy number) || negb (truthy base64Data)
                || negb (truthy mimeType));
        [cbn; rewrite Hs; by intros [= <-]|].
      destruct sent as [[]|]; cbn; rewrite Hs; by intros [= <-].
    + unfold Basic.delete_session.
      destruct (Basic.sessions w !! sessionId) as [s0|]; [|cbn; rewrite Hs; by intros [= <-]].
      destruct destroyed; [|cbn; rewrite Hs; by intros [= <-]].
      destruct saved; cbn; intros [_ Hs']%lookup_delete_Some; congruence.
    + unfold Basic.on_qr.
      destruct (Basic.sessionStates w !! sessionId) as [st0|];
        [|cbn; rewrite Hs; by intros [= <-]].
      destruct dataURL; [|cbn; rewrite Hs; by intros [= <-]].
      cbn. destruct (Basic.sessions w !! sessionId) as [s0|] eqn:E;
        [|cbn; rewrite Hs; by intros [= <-]].
      cbn. destruct (decide (sessionId = id)) as [->|Hne].
      * rewrite lookup_insert_eq. intros [= <-]. cbn. congruence.
      * rewrite lookup_insert_ne by done. cbn; rewrite Hs; by intros [= <-].
    + unfold Basic.on_ready.
      destruct (Basic.sessions w !! sessionId) as [s0|] eqn:E;
        [|cbn; rewrite Hs; by intros [= <-]].
      cbn. destruct (Basic.sessionStates w !! sessionId).
      * destruct saved; cbn; (destruct (decide (sessionId = id)) as [->|Hne];
          [rewrite lookup_insert_eq; by intros [= <-]
          |rewrite lookup_insert_ne by done; cbn; rewrite Hs; by intros [= <-]]).
      * cbn. destruct (decide (sessionId = id)) as [->|Hne];
          [rewrite lookup_insert_eq; by intros [= <-]
          |rewrite lookup_insert_ne by done; cbn; rewrite Hs; by intros [= <-]].
    + unfold Basic.on_message.
      destruct (Basic.sessions w !! sessionId) as [s0|] eqn:E;
        [|cbn; rewrite Hs; by intros [= <-]].
      cbn. destruct (decide (sessionId = id)) as [->|Hne].
      * rewrite lookup_insert_eq. intros [= <-]. cbn. congruence.
      * rewrite lookup_insert_ne by done. cbn; rewrite Hs; by intros [= <-].
    + unfold Basic.on_disconnected. cbn.
      intros [_ Hs']%lookup_delete_Some. congruence.
    + unfold Basic.restore_timer.
      destruct (decide (sessionId ∈ Basic.timers w)); [|cbn; rewrite Hs; by intros [= <-]].
      cbn. destruct (Basic.sessions w !! sessionId); cbn; rewrite Hs; by intros [= <-].
Qed.

Lemma Basic_authentication_is_permanent_witness :
  Basic.get_qr "s1" (Basic.post_restore "s1" (Returns ()) Basic_ready).1
  = Basic.get_qr "s1" Basic_ready.
Proof.
  destruct Basic_authentication_is_permanent as [_ H].
  assert (Hs : ∃ s, Basic.sessions Basic_ready !! "s1" = Some s
                    ∧ Basic.isAuthenticated s = true)
    by (eexists; split; vm_compute; reflexivity).
  destruct Hs as (s & Hs & Ha).
  destruct (Basic.sessions (Basic.post_restore "s1" (Returns ()) Basic_ready).1 !! "s1")
    as [s'|] eqn:Hs'; [|vm_compute in Hs'; discriminate Hs'].
  pose proof (H Basic_ready (Basic.PostRestore "s1" (Returns ())) "s1" s s' Hs Ha Hs')
    as Ha'.
  unfold Basic.get_qr. rewrite Hs, Hs', Ha, Ha'. reflexivity.
Defined.

(** X29. POST /sessions/:id/restore of the second whatsapp-web.js program
    answers nothing by itself: it destroys the client and arms a timer.  When
    the timer fires, the same client is initialized and the request is
    answered success; if the session was disconnected in between, the
    callback raises an exception and the request stays unanswered. *)
Theorem Basic_restore_answers_from_timer :
  ∀ id s w,
    Basic.sessions w !! id = Some s →
    let '(w1, out1) := Basic.post_restore id (Returns ()) w in
    out1 = Deferred
    ∧ Basic.sessions w1 = Basic.sessions w
    ∧ Basic.effects w1 = Basic.effects w ++ [Basic.ClientDestroy (Basic.client s)]
    ∧ Basic.timers w1 = Basic.timers w ++ [id]
    ∧ (∃ w2, Basic.restore_timer id w1 = (w2, Reply Basic.restored)
             ∧ Basic.effects w2
               = Basic.effects w1 ++ [Basic.ClientInitialize (Basic.client s)])
    ∧ (Basic.restore_timer id (Basic.on_disconnected id w1).1).2
      = Uncaught type_error.
Proof.
  intros id s w Hs. unfold Basic.post_restore. rewrite Hs. cbn.
  assert (Hin : id ∈ Basic.timers w ++ [id])
    by (apply elem_of_app; right; by apply list_elem_of_singleton).
  repeat split.
  - unfold Basic.restore_timer. cbn. rewrite decide_True by done.
    cbn. rewrite Hs. by eexists.
  - unfold Basic.restore_timer, Basic.on_disconnected. cbn.
    rewrite decide_True by done. cbn. by rewrite lookup_delete_eq.
Qed.

Lemma Basic_restore_answers_from_timer_witness :
  (Basic.restore_timer "s1" (Basic.post_restore "s1" (Returns ()) Basic_ready).1).2
  = Reply Basic.restored.
Proof.
  assert (Hs : ∃ s, Basic.sessions Basic_ready !! "s1" = Some s)
    by (eexists; vm_compute; reflexivity).
  destruct Hs as (s & Hs).
  pose proof (Basic_restore_answers_from_timer "s1" s Basic_ready Hs) as H.
  destruct (Basic.post_restore "s1" (Returns ()) Basic_ready) as [w1 out1].
  destruct H as (_ & _ & _ & _ & (w2 & Ht & _) & _). cbn. by rewrite Ht.
Defined.

(** X30. DELETE /sessions/:id of the second whatsapp-web.js program, for a
    registered id: when [destroy] throws, the request is answered 500 and
    both maps keep the entry; when [destroy] returns, the entry is removed
    from both maps, and the request is answered success, or 500 when
    serialising the sessions for the log throws afterwards. *)
Theorem Basic_delete_outcomes :
  ∀ id s destroyed saved w,
    Basic.sessions w !! id = Some s →
    let '(w', out) := Basic.delete_session id destroyed saved w in
    match destroyed with
    | Throws msg =>
        out = Reply (res_status_json 500 (error_body msg))
        ∧ Basic.sessions w' = Basic.sessions w
        ∧ Basic.sessionStates w' = Basic.sessionStates w
    | Returns _ =>
        Basic.sessions w' = delete id (Basic.sessions w)
        ∧ Basic.sessionStates w' = delete id (Basic.sessionStates w)
        ∧ out = match saved with
                | Returns _ => Reply Basic.destroyed_reply
                | Throws msg => Reply (res_status_json 500 (error_body msg))
                end
    end.
Proof.
  intros id s destroyed saved w Hs. unfold Basic.delete_session. rewrite Hs.
  by destruct destroyed as [[]|e], saved as [[]|e'].
Qed.

Lemma Basic_delete_outcomes_witness :
  let '(w', out) :=
    Basic.delete_session "s1" (Returns ())
      (Throws "Converting circular structure to JSON") Basic_ready in
  Basic.sessions w' !! "s1" = None ∧ is_error_output out = true.
Proof.
  assert (Hs : ∃ s, Basic.sessions Basic_ready !! "s1" = Some s)
    by (eexists; vm_compute; reflexivity).
  destruct Hs as (s & Hs).
  pose proof (Basic_delete_outcomes "s1" s (Returns ())
                (Throws "Converting circular structure to JSON") Basic_ready Hs) as H.
  destruct (Basic.delete_session _ _ _ _) as [w' out].
  destruct H as (Hs' & _ & ->). split; [by rewrite Hs', lookup_delete_eq|done].
Defined.
